(** * hardhat.config.ts: the [deploy] task of lib-ethers

    A shallow embedding of [src/hardhat.config.ts]: the static network
    tables, the start-up configuration and the [deploy] task, whose calls to
    its collaborators (the signer lookup, [deployAndSetupContracts],
    [deployTellorCaller], the price feed, the file system) are threaded
    through an explicit world state and recorded in a call log. *)

From Stdlib Require Import ZArith NArith Lia Bool.
From Stdlib Require Import Strings.String Strings.Ascii.
From Stdlib Require DecimalString HexadecimalString DecimalN DecimalPos.
From stdpp Require Import base strings gmap list.

Local Open Scope string_scope.
Local Open Scope list_scope.

(** ** Exceptions and results *)

(** What a [throw] carries: [new Error(message)], a failed [assert], an
    error of the file system ([code] as in Node: EEXIST, ENOENT, EISDIR), a
    [TypeError] or a [RangeError] of the runtime. Collaborators may throw
    any of them. *)
Inductive exn : Type :=
| Error (message : string)
| AssertionError (message : string)
| SystemError (code path : string)
| TypeError (message : string)
| RangeError (message : string).

Inductive Result (A : Type) : Type :=
| Ok (a : A)
| Throw (e : exn).
Arguments Ok {A} a.
Arguments Throw {A} e.

Definition is_ok {A} (r : Result A) : bool :=
  match r with Ok _ => true | Throw _ => false end.

Definition result_bind {A B} (r : Result A) (k : A -> Result B) : Result B :=
  match r with Ok a => k a | Throw e => Throw e end.

(** ** Strings as JavaScript uses them here *)

Module Str.

Definition is_digit (c : ascii) : bool :=
  let n := nat_of_ascii c in (48 <=? n)%nat && (n <=? 57)%nat.

Fixpoint all_digits (s : string) : bool :=
  match s with
  | EmptyString => true
  | String c r => is_digit c && all_digits r
  end.

(** The number a string of decimal digits writes, read from the left
    with [acc] already read. *)
Fixpoint digits_value_from (acc : N) (s : string) : N :=
  match s with
  | EmptyString => acc
  | String c r => digits_value_from (10 * acc + N.of_nat (nat_of_ascii c - 48)) r
  end.

Definition digits_value (s : string) : N := digits_value_from 0 s.

(** [s.includes(c)] for a one-character needle. *)
Fixpoint includes (c : ascii) (s : string) : bool :=
  match s with
  | EmptyString => false
  | String d r => if Ascii.eqb d c then true else includes c r
  end.

(** [s.split(c)] for a one-character separator: never empty. *)
Fixpoint split (c : ascii) (s : string) : list string :=
  match s with
  | EmptyString => [EmptyString]
  | String d r =>
      if Ascii.eqb d c then EmptyString :: split c r
      else match split c r with
           | p :: ps => String d p :: ps
           | [] => [String d EmptyString]
           end
  end.

(** [parts.join(sep)]. *)
Fixpoint join (sep : string) (parts : list string) : string :=
  match parts with
  | [] => EmptyString
  | [p] => p
  | p :: ps => p +:+ sep +:+ join sep ps
  end.

(** [s.startsWith(c)]. *)
Definition startsWith (c : ascii) (s : string) : bool :=
  match s with
  | String d _ => Ascii.eqb d c
  | EmptyString => false
  end.

(** [s.substr(from)] and [s.substr(0, len)]. *)
Definition substr_from (from : nat) (s : string) : string :=
  String.substring from (String.length s - from) s.
Definition substr_to (len : nat) (s : string) : string :=
  String.substring 0 len s.

(** [c.repeat(n)]. *)
Fixpoint repeat (c : ascii) (n : nat) : string :=
  match n with
  | O => EmptyString
  | S k => String c (repeat c k)
  end.

Fixpoint skip_digits (s : string) : string :=
  match s with
  | String c r => if is_digit c then skip_digits r else s
  | EmptyString => s
  end.

(** [s[s.length - 1]]. *)
Fixpoint last_char (s : string) : option ascii :=
  match s with
  | EmptyString => None
  | String c EmptyString => Some c
  | String _ r => last_char r
  end.

(** [hay.includes(needle)] for a needle of any length. *)
Fixpoint includes_text (needle hay : string) : bool :=
  String.prefix needle hay
  || match hay with
     | EmptyString => false
     | String _ r => includes_text needle r
     end.

End Str.

(** ** Numbers

    A JavaScript number enters this file through the [gasPrice] parameter
    and as literals. Every use of it here is its truth value or its decimal
    rendering, so a number is kept as the string [Number.prototype.toString]
    gives: [20] is ["20"], [1.5] is ["1.5"], [1e-7] is ["1e-7"], both zeros
    are ["0"], and the not-a-number value is ["NaN"]. *)
Inductive number : Type := Num (toString : string).

Definition toString (n : number) : string := let 'Num s := n in s.

(** The numbers that are falsy: [0], [-0] and [NaN]. *)
Definition number_truthy (n : number) : bool :=
  negb (String.eqb (toString n) "0" || String.eqb (toString n) "NaN").

(** The decimal digits of a natural number, as [toString] writes a whole
    number below [10^21]. *)
Definition digits_of (n : N) : string :=
  DecimalString.NilEmpty.string_of_uint (N.to_uint n).

(** The renderings [toString] gives to the numbers that are finite and not
    negative: the digits of a whole part, then optionally a point and the
    digits of a fraction, then optionally [e], a sign and the digits of an
    exponent. [12.5] is the whole part 12 with fraction ["5"]; [1.5e-7]
    has whole part 1, fraction ["5"] and exponent -7. *)
Record Rendering : Type :=
  mkRendering { whole : N; fraction : string; exponent : Z }.

Definition coefficient_text (r : Rendering) : string :=
  digits_of (whole r)
  +:+ match fraction r with
      | EmptyString => EmptyString
      | f => String "." f
      end.

Definition exponent_text (r : Rendering) : string :=
  if (exponent r =? 0)%Z then EmptyString
  else if (0 <? exponent r)%Z then "e+" +:+ digits_of (Z.to_N (exponent r))
  else "e-" +:+ digits_of (Z.to_N (- exponent r)).

Definition render (r : Rendering) : number :=
  Num (coefficient_text r +:+ exponent_text r).

(** The whole part and the fraction of a rendering read as one integer,
    and the number of digits of the fraction. *)
Definition fraction_length (r : Rendering) : Z :=
  Z.of_nat (String.length (fraction r)).

Definition all_digits_value (r : Rendering) : Z :=
  (Z.of_N (whole r) * 10 ^ fraction_length r
   + Z.of_N (Str.digits_value (fraction r)))%Z.

(** The part before the exponent, in units of [10^-18], rounded down. *)
Definition coefficient_units (r : Rendering) : Z :=
  (all_digits_value r * 10 ^ 18 / 10 ^ fraction_length r)%Z.

(** What a rendered gas price in Gwei is worth in wei, rounded down to
    whole wei: the value is [all_digits_value * 10^exponent /
    10^fraction_length] Gwei, and a Gwei is [10^9] wei. *)
Definition wei_of (r : Rendering) : Z :=
  (all_digits_value r * 10 ^ (9 + Z.max (exponent r) 0)
   / 10 ^ (fraction_length r + Z.max (- exponent r) 0))%Z.

(** ** ethers' BigNumber: integers of any size *)

Module BigNumber.

(** [BigNumber.from(s)] for a decimal string: an optional minus sign and
    at least one digit. Anything else is refused (hexadecimal strings,
    which it also reads, never reach it here). *)
Definition from (s : string) : Result Z :=
  let digits (d : string) : bool :=
    negb (String.eqb d EmptyString) && Str.all_digits d in
  match s with
  | String "-" d =>
      if digits d then Ok (- Z.of_N (Str.digits_value d))%Z
      else Throw (Error "invalid BigNumber string")
  | _ =>
      if digits s then Ok (Z.of_N (Str.digits_value s))
      else Throw (Error "invalid BigNumber string")
  end.

(** [a.div(b)]: truncating, and a division by zero throws. *)
Definition div (a b : Z) : Result Z :=
  if (b =? 0)%Z then Throw (Error "division-by-zero") else Ok (Z.quot a b).

(** [b.toHexString()]: 0x and an even number of lower-case digits. *)
Definition toHexString (b : Z) : string :=
  let h := HexadecimalString.NilEmpty.string_of_uint
             (N.to_hex_uint (Z.to_N (Z.abs b))) in
  let h := if Nat.even (String.length h) then h else String "0" h in
  (if (b <? 0)%Z then "-0x" else "0x") +:+ h.

End BigNumber.

#[global] Instance Result_ret : MRet Result := @Ok.
#[global] Instance Result_bind : MBind Result :=
  fun A B k r => result_bind r k.

Definition quote_char : ascii := Ascii.ascii_of_nat 34.

(** ** The Decimal of @liquity/lib-base *)

(** Modelled from the spec: [Decimal] is imported from the package
    @liquity/lib-base, which is not under src/. The spec (sections 3 and
    4.4, step 5) says that the override is the gas price after a unit
    conversion from Gwei to wei, stored as hex. The model follows the
    library: a non-negative decimal number kept as a big integer counting
    units of [10^-18], read from the decimal rendering of a number, divided
    with truncation, and rendered by [hex] as that big integer. *)
Module Decimal.

Definition PRECISION : nat := 18.
Definition TEN : Z := 10.
Definition DIGITS : Z := TEN ^ Z.of_nat PRECISION.

Record t : Type := mk { _bigNumber : Z }.

(** The private constructor. *)
Definition new (bigNumber : Z) : Result t :=
  if (bigNumber <? 0)%Z then Throw (Error "negatives not supported by Decimal")
  else Ok (mk bigNumber).

(** [representation.match(stringRepresentationFormat)]: digits, then
    optionally a point and digits, then optionally [e], an optional sign
    and at least one digit, and nothing else. The three parts start with
    different characters, so the greedy reading below is the match. *)
Definition matches_format (representation : string) : bool :=
  let s := Str.skip_digits representation in
  let s := match s with
           | String "." r => Str.skip_digits r
           | _ => s
           end in
  match s with
  | EmptyString => true
  | String "e" r =>
      let r := match r with
               | String "-" u => u
               | String "+" u => u
               | _ => r
               end in
      match r with
      | String c u =>
          Str.is_digit c &&
          match Str.skip_digits u with EmptyString => true | _ => false end
      | EmptyString => false
      end
  | _ => false
  end.

Definition bad_format {A} (representation : string) : Result A :=
  Throw (Error ("bad decimal format: " +:+ String quote_char representation
                +:+ String quote_char EmptyString)).

(** [!representation || !representation.match(...)]. *)
Definition rejected (representation : string) : bool :=
  match representation with
  | EmptyString => true
  | _ => negb (matches_format representation)
  end.

(** [_fromString] on a representation that holds no exponent. *)
Definition fromPlain (representation : string) : Result t :=
  if negb (Str.includes "." representation) then
    b ← BigNumber.from representation;
    new (b * DIGITS)
  else
    match Str.split "." representation with
    | characteristic :: mantissa :: _ =>
        let mantissa :=
          if (String.length mantissa <? PRECISION)%nat
          then mantissa +:+ Str.repeat "0" (PRECISION - String.length mantissa)
          else Str.substr_to PRECISION mantissa in
        c ← match characteristic with
            | EmptyString => Ok 0%Z
            | _ => BigNumber.from characteristic
            end;
        m ← BigNumber.from mantissa;
        new (c * DIGITS + m)
    | _ => Throw (TypeError "mantissa is undefined")
    end.

(** [Decimal._fromString]. Its call on the coefficient of an exponent
    form is a call on a string without [e], so it is written out as the
    check of the format and [fromPlain]. *)
Definition _fromString (representation : string) : Result t :=
  if rejected representation then bad_format representation
  else if Str.includes "e" representation then
    match Str.split "e" representation with
    | coefficient :: exponent :: _ =>
        c ← (if rejected coefficient then bad_format coefficient
             else fromPlain coefficient);
        if Str.startsWith "-" exponent then
          e ← BigNumber.from (Str.substr_from 1 exponent);
          q ← BigNumber.div (_bigNumber c) (TEN ^ e);
          new q
        else
          let exponent := if Str.startsWith "+" exponent
                          then Str.substr_from 1 exponent else exponent in
          e ← BigNumber.from exponent;
          new (_bigNumber c * TEN ^ e)
    | _ => Throw (TypeError "exponent is undefined")
    end
  else fromPlain representation.

(** [Decimal.from] on a number: [_fromString(decimalish.toString())]. *)
Definition from (decimalish : number) : Result t :=
  _fromString (toString decimalish).

Definition isZero (d : t) : bool := (_bigNumber d =? 0)%Z.

(** [Decimal.INFINITY]: the largest 256-bit value. *)
Definition INFINITY : t := mk (2 ^ 256 - 1).

Definition div (this : t) (divider : number) : Result t :=
  divider ← from divider;
  if isZero divider then Ok INFINITY
  else
    q ← BigNumber.div (_bigNumber this * DIGITS) (_bigNumber divider);
    new q.

Definition hex (d : t) : string := BigNumber.toHexString (_bigNumber d).

End Decimal.

(** ** Transaction overrides (line 189) *)

(** What [gasPrice && Decimal.from(gasPrice).div(1000000000).hex] can be:
    [undefined], the falsy number itself, or the hex string. *)
Inductive GasPrice : Type :=
| gas_undefined
| gas_number (n : number)
| gas_hex (hex : string).

Record Overrides : Type := mkOverrides { gasPrice : GasPrice }.

Definition task_overrides (gasPrice : option number) : Result Overrides :=
  match gasPrice with
  | None => Ok (mkOverrides gas_undefined)
  | Some g =>
      if number_truthy g then
        d ← Decimal.from g;
        q ← Decimal.div d (Num "1000000000");
        Ok (mkOverrides (gas_hex (Decimal.hex q)))
      else Ok (mkOverrides (gas_number g))
  end.

(** ** Object literals and the [in] operator *)

(** The members every object literal inherits from [Object.prototype]. *)
Definition Object_prototype : list string :=
  [ "constructor"; "__defineGetter__"; "__defineSetter__"; "hasOwnProperty";
    "__lookupGetter__"; "__lookupSetter__"; "isPrototypeOf";
    "propertyIsEnumerable"; "toString"; "valueOf"; "__proto__";
    "toLocaleString" ].

(** An object literal is the list of its own properties, in the order they
    were written. [key in obj] holds for own and for inherited members. *)
Definition own_property {V} (key : string) (obj : list (string * V)) : option V :=
  snd <$> List.find (fun kv => String.eqb (fst kv) key) obj.

Definition js_in {V} (key : string) (obj : list (string * V)) : bool :=
  match own_property key obj with
  | Some _ => true
  | None => bool_decide (key ∈ Object_prototype)
  end.

(** What reading a member of a table can give: an own string, an inherited
    member of [Object.prototype] (a function or an object), or [undefined]. *)
Inductive value : Type :=
| undefined
| str (s : string)
| inherited (member : string).

(** ** The static tables (lines 66 to 89) *)

Record OracleAddressSet : Type := mkOracles { chainlink : string; tellor : string }.

Definition oracleAddresses : list (string * OracleAddressSet) :=
  [ ("mainnet", mkOracles "0x5f4eC3Df9cbd43714FE2740f5E3616155c5b8419"
                          "0x88dF592F8eb5D7Bd38bFeF7dEb0fBc02cf3778a0");
    ("rinkeby", mkOracles "0x8A753747A1Fa494EC906cE90E9f37563A8AF630e"
                          "0x88dF592F8eb5D7Bd38bFeF7dEb0fBc02cf3778a0");
    ("kovan", mkOracles "0x9326BFA02ADD2366b30bacB125260Af641031331"
                        "0x20374E579832859f180536A69093A126Db1c8aE9") ].

Definition hasOracles (network : string) : bool := js_in network oracleAddresses.

Definition wiotxAddresses : list (string * string) :=
  [ ("mainnet", "0xa00744882684c3e4747faefd68d283ea44099d03");
    ("testnet", "0xff5fae9fe685b90841275e32c348dc4426190db0") ].

Definition hasWIOTX (network : string) : bool := js_in network wiotxAddresses.

(** [oracleAddresses[network].tellor] and [.chainlink]: a member of an
    inherited function or object is [undefined]; a member of [undefined], which
    the guard [hasOracles] excludes, would be a [TypeError]. *)
Definition oracle_member (field : OracleAddressSet -> string) (network : string)
  : Result value :=
  match own_property network oracleAddresses with
  | Some o => Ok (str (field o))
  | None =>
      if bool_decide (network ∈ Object_prototype) then Ok undefined
      else Throw (TypeError "Cannot read properties of undefined")
  end.

(** [wiotxAddresses[network]]. *)
Definition wiotx_member (network : string) : value :=
  match own_property network wiotxAddresses with
  | Some a => str a
  | None =>
      if bool_decide (network ∈ Object_prototype) then inherited network
      else undefined
  end.

(** ** JSON values and [JSON.stringify(value, undefined, 2)] *)

#[warnings="-register-all"]
Inductive json : Type :=
| JNull
| JBool (b : bool)
| JNumber (n : number)
| JString (s : string)
| JArray (items : list json)
| JObject (members : list (string * json)).

Module JSON.

Definition newline : string := String (Ascii.ascii_of_nat 10) EmptyString.
Definition backslash : ascii := Ascii.ascii_of_nat 92.
Definition gap : string := "  ".

Definition hex_digit (n : nat) : ascii :=
  if (n <? 10)%nat then Ascii.ascii_of_nat (48 + n)
  else Ascii.ascii_of_nat (87 + n).

(** The escape of one character in [QuoteJSONString]. *)
Definition escape (c : ascii) : string :=
  let n := nat_of_ascii c in
  if (n =? 34)%nat then String backslash (String quote_char EmptyString)
  else if (n =? 92)%nat then String backslash (String backslash EmptyString)
  else if (n =? 8)%nat then String backslash "b"
  else if (n =? 12)%nat then String backslash "f"
  else if (n =? 10)%nat then String backslash "n"
  else if (n =? 13)%nat then String backslash "r"
  else if (n =? 9)%nat then String backslash "t"
  else if (n <? 32)%nat then
    String backslash ("u00" +:+ String (hex_digit (n / 16))
                                (String (hex_digit (n mod 16)) EmptyString))
  else String c EmptyString.

Fixpoint escape_all (s : string) : string :=
  match s with
  | EmptyString => EmptyString
  | String c r => escape c +:+ escape_all r
  end.

Definition quote (s : string) : string :=
  String quote_char (escape_all s) +:+ String quote_char EmptyString.

(** A number that is not finite is written [null]. *)
Definition number_text (n : number) : string :=
  let s := toString n in
  if String.eqb s "NaN" || String.eqb s "Infinity" || String.eqb s "-Infinity"
  then "null" else s.

(** [SerializeJSONProperty] with the gap of two spaces; [indent] is the
    indentation of the enclosing line. *)
Fixpoint serialize (indent : string) (v : json) : string :=
  let inner := indent +:+ gap in
  let wrap (opening closing : string) (parts : list string) : string :=
    match parts with
    | [] => opening +:+ closing
    | _ => opening +:+ newline +:+ inner
           +:+ Str.join ("," +:+ newline +:+ inner) parts
           +:+ newline +:+ indent +:+ closing
    end in
  match v with
  | JNull => "null"
  | JBool true => "true"
  | JBool false => "false"
  | JNumber n => number_text n
  | JString s => quote s
  | JArray items => wrap "[" "]" (List.map (serialize inner) items)
  | JObject members =>
      wrap "{" "}"
        (List.map (fun kv => quote (fst kv) +:+ ": " +:+ serialize inner (snd kv))
                  members)
  end.

(** [JSON.stringify(obj, undefined, 2)] on an object. *)
Definition stringify (obj : list (string * json)) : string :=
  serialize EmptyString (JObject obj).

End JSON.

(** ** Indented JSON text, by the words of the specification

    The manifest holds the record serialized as structured, human-readable
    (indented) text. Line by line: a scalar is one piece of text; an
    object or an array without members is its two brackets; one with
    members opens with its bracket, has every member on lines of its own,
    one nesting level deeper, with a comma after every member but the last,
    and closes with its bracket on a line at its own level; a member of an
    object starts with its quoted key, a colon and a space. A line at
    nesting depth [d] is indented by [2 * d] spaces. *)
Module Indented.

(** A line: its nesting depth and its text. *)
Definition line : Type := nat * string.

(** A value laid out: the text that goes on the line the value starts on,
    and the lines after it. *)
Definition layout : Type := string * list line.

Fixpoint comma_last (ls : list line) : list line :=
  match ls with
  | [] => []
  | [l] => [(l.1, l.2 +:+ ",")]
  | l :: rest => l :: comma_last rest
  end.

(** A comma after the last text of a layout. *)
Definition add_comma (m : layout) : layout :=
  match m.2 with
  | [] => (m.1 +:+ ",", [])
  | rest => (m.1, comma_last rest)
  end.

(** A comma after every member but the last. *)
Fixpoint with_commas (members : list layout) : list layout :=
  match members with
  | [] => []
  | [m] => [m]
  | m :: rest => add_comma m :: with_commas rest
  end.

(** A member as lines of its own at [depth]. *)
Definition lines_of (depth : nat) (m : layout) : list line := (depth, m.1) :: m.2.

Definition bracket (depth : nat) (opening closing : string) (members : list layout)
  : layout :=
  match members with
  | [] => (opening +:+ closing, [])
  | _ => (opening,
          concat (lines_of (S depth) <$> with_commas members) ++ [(depth, closing)])
  end.

Definition keyed (key : string) (m : layout) : layout :=
  (JSON.quote key +:+ ": " +:+ m.1, m.2).

Fixpoint layout_of (depth : nat) (v : json) : layout :=
  match v with
  | JNull => ("null", [])
  | JBool b => (if b then "true" else "false", [])
  | JNumber n => (JSON.number_text n, [])
  | JString s => (JSON.quote s, [])
  | JArray items => bracket depth "[" "]" (List.map (layout_of (S depth)) items)
  | JObject members =>
      bracket depth "{" "}"
        (List.map (fun kv => keyed (fst kv) (layout_of (S depth) (snd kv))) members)
  end.

Definition indentation (depth : nat) : string := Str.repeat " "%char (2 * depth).

Definition render_line (l : line) : string := indentation l.1 +:+ l.2.

Definition render (m : layout) : string :=
  Str.join JSON.newline (m.1 :: (render_line <$> m.2)).

(** The indented text of an object. *)
Definition text (obj : list (string * json)) : string :=
  render (layout_of 0 (JObject obj)).

End Indented.

(** A text written out line by line, and a text between double quotes as
    it stands: for spelling out the contents of a file. *)
Definition text_of_lines (lines : list string) : string :=
  Str.join JSON.newline lines.

Definition quoted (s : string) : string :=
  String quote_char s +:+ String quote_char EmptyString.

(** [{ ...obj, key: v }]: an own [key] keeps its place and takes the new
    value, a new one goes last. *)
Fixpoint set_property {V} (key : string) (v : V) (obj : list (string * V))
  : list (string * V) :=
  match obj with
  | [] => [(key, v)]
  | (k, x) :: rest =>
      if String.eqb k key then (k, v) :: rest
      else (k, x) :: set_property key v rest
  end.

(** ** Node's [path] (POSIX) *)

Module Path.

(** [normalizeString]: the segments between slashes, read left to right.
    Empty segments and [.] are dropped; [..] removes the segment before it,
    unless there is none or it is [..] itself, in which case a relative
    path keeps the [..]. [stack] holds the result so far, last segment
    first. *)
Fixpoint normalize_segments (allowAboveRoot : bool) (stack segments : list string)
  : list string :=
  match segments with
  | [] => stack
  | seg :: rest =>
      if String.eqb seg EmptyString || String.eqb seg "." then
        normalize_segments allowAboveRoot stack rest
      else if String.eqb seg ".." then
        match stack with
        | top :: below =>
            if String.eqb top ".."
            then normalize_segments allowAboveRoot
                   (if allowAboveRoot then seg :: stack else stack) rest
            else normalize_segments allowAboveRoot below rest
        | [] =>
            normalize_segments allowAboveRoot
              (if allowAboveRoot then [seg] else []) rest
        end
      else normalize_segments allowAboveRoot (seg :: stack) rest
  end.

Definition normalizeString (path : string) (allowAboveRoot : bool) : string :=
  Str.join "/" (rev (normalize_segments allowAboveRoot [] (Str.split "/" path))).

(** [path.normalize]. *)
Definition normalize (path : string) : string :=
  match path with
  | EmptyString => "."
  | _ =>
      let isAbsolute := Str.startsWith "/" path in
      let trailingSeparator :=
        match Str.last_char path with
        | Some c => Ascii.eqb c "/"
        | None => false
        end in
      let path := normalizeString path (negb isAbsolute) in
      match path with
      | EmptyString =>
          if isAbsolute then "/" else if trailingSeparator then "./" else "."
      | _ =>
          let path := if trailingSeparator then path +:+ "/" else path in
          if isAbsolute then "/" +:+ path else path
      end
  end.

(** [path.join(...args)]: the arguments that are not empty, joined by a
    slash, then normalized. *)
Definition join (args : list string) : string :=
  match List.filter (fun a => negb (String.eqb a EmptyString)) args with
  | [] => "."
  | parts => normalize (Str.join "/" parts)
  end.

(** A name that is one segment of a path: not empty, without a slash,
    and neither [.] nor [..]. *)
Definition plain_name (name : string) : bool :=
  negb (String.eqb name EmptyString) && negb (Str.includes "/" name)
  && negb (String.eqb name ".") && negb (String.eqb name "..").

(** The segments of a path that name something: no empty ones. *)
Definition segments (path : string) : list string :=
  List.filter (fun a => negb (String.eqb a EmptyString)) (Str.split "/" path).

(** The key of a relative path in the file system below: its segments
    joined again, so that a trailing slash does not matter. *)
Definition key (path : string) : string := Str.join "/" (segments path).

(** The directory a relative path lies in; [.] for a single segment. *)
Definition dirname (path : string) : string :=
  match rev (segments path) with
  | _ :: (_ :: _) as parents => Str.join "/" (rev parents)
  | _ => "."
  end.

(** The path itself and the directories above it, outermost first. *)
Fixpoint prefixes (above : string) (segs : list string) : list string :=
  match segs with
  | [] => []
  | seg :: rest =>
      let here := match above with
                  | EmptyString => seg
                  | _ => above +:+ "/" +:+ seg
                  end in
      here :: prefixes here rest
  end.

End Path.

(** What [Path.plain_name] says, as facts to rewrite with. *)
Record plain (name : string) : Prop := {
  plain_nonempty : String.eqb name EmptyString = false;
  plain_slash : Str.includes "/" name = false;
  plain_dot : String.eqb name "." = false;
  plain_dots : String.eqb name ".." = false
}.

(** ** The file system, as [fs.mkdirSync] and [fs.writeFileSync] see it

    Directories and files below the working directory, by relative path.
    The working directory itself ([.]) always exists. *)
Record FS : Type := mkFS { dirs : gset string; files : gmap string string }.

Module Fs.

Definition is_dir (fs : FS) (path : string) : bool :=
  String.eqb path "." || bool_decide (path ∈ dirs fs).

Definition is_file (fs : FS) (path : string) : bool :=
  bool_decide (is_Some (files fs !! path)).

(** [fs.mkdirSync(path, { recursive: true })]: creates the directory and
    every missing one above it; an existing directory is no error, a file
    in the way is: EEXIST when the file is at the path itself, ENOTDIR when
    it is above it or the path ends in a slash; the error names the path
    asked for. *)
Definition mkdirSync_recursive (path : string) (fs : FS) : Result unit * FS :=
  let wanted := Path.prefixes EmptyString (Path.segments path) in
  let trailingSeparator :=
    match Str.last_char path with
    | Some c => Ascii.eqb c "/"
    | None => false
    end in
  match List.find (is_file fs) wanted with
  | Some blocked =>
      (Throw (SystemError (if String.eqb blocked (Path.key path)
                              && negb trailingSeparator
                           then "EEXIST" else "ENOTDIR") path), fs)
  | None => (Ok tt, mkFS (list_to_set wanted ∪ dirs fs) (files fs))
  end.

(** [fs.writeFileSync(path, data)]: creates the file or replaces its
    contents; the directory it lies in must exist, and the path must not
    be a directory. *)
Definition writeFileSync (path data : string) (fs : FS) : Result unit * FS :=
  let path := Path.key path in
  if is_dir fs path then (Throw (SystemError "EISDIR" path), fs)
  else if is_file fs (Path.dirname path) then (Throw (SystemError "ENOTDIR" path), fs)
  else if negb (is_dir fs (Path.dirname path)) then (Throw (SystemError "ENOENT" path), fs)
  else (Ok tt, mkFS (dirs fs) (<[path := data]> (files fs))).

End Fs.

(** ** The switches and paths fixed when the module is loaded (lines 27 to 37) *)

Module Config.

(** [toLowerCase] on a string of bytes. The result is only ever compared
    with the words [false], [no] and [0], and no character outside ASCII
    lower-cases to one of their letters, so such a character is kept. *)
Definition lower_char (c : ascii) : ascii :=
  let n := nat_of_ascii c in
  if (65 <=? n)%nat && (n <=? 90)%nat then Ascii.ascii_of_nat (n + 32) else c.

Fixpoint toLowerCase (s : string) : string :=
  match s with
  | EmptyString => EmptyString
  | String c r => String (lower_char c) (toLowerCase r)
  end.

(** [(process.env.USE_LIVE_VERSION ?? "false").toLowerCase()]: only a
    variable that is not set takes the default. *)
Definition useLiveVersionEnv (USE_LIVE_VERSION : option string) : string :=
  toLowerCase (match USE_LIVE_VERSION with
               | Some v => v
               | None => "false"
               end).

(** [!["false", "no", "0"].includes(useLiveVersionEnv)]. *)
Definition useLiveVersion (USE_LIVE_VERSION : option string) : bool :=
  negb (existsb (String.eqb (useLiveVersionEnv USE_LIVE_VERSION))
          ["false"; "no"; "0"]).

Definition contractsDir : string := Path.join [".."; "contracts"].
Definition artifacts : string := Path.join [contractsDir; "artifacts"].
Definition cache : string := Path.join [contractsDir; "cache"].

(** The file [contractsVersion] is read from (line 35). *)
Definition versionFile (USE_LIVE_VERSION : option string) : string :=
  Path.join [ if useLiveVersion USE_LIVE_VERSION then "live" else artifacts;
              "version" ].

End Config.

(** ** Start-up configuration (lines 25 to 118) *)

Definition numAccounts : nat := 100.

Definition devChainRichAccount : string :=
  "0x4d5db4107d237df6a3d58ee5f70ae63d73d7658d4026f2eefd2f204c81682cb7".

(** A network of the configuration; a slot of [accounts] is [None] while an
    array element has not been assigned. *)
Record NetworkUserConfig : Type :=
  mkNetwork { url : string; accounts : list (option string) }.

Section Startup.

(** [process.env.DEPLOYER_PRIVATE_KEY]. *)
Variable DEPLOYER_PRIVATE_KEY : option string.

(** [Wallet.createRandom().privateKey]: the key the [i]-th call of the
    process draws. The state threaded below counts the calls made. *)
Variable random_key : nat -> string.

Definition createRandom (drawn : nat) : string * nat :=
  (random_key drawn, S drawn).

(** The loop of [generateRandomAccounts], with [remaining] iterations to
    go from index [i]. *)
Fixpoint fill_accounts (remaining i : nat) (accounts : list (option string))
  (drawn : nat) : list (option string) * nat :=
  match remaining with
  | O => (accounts, drawn)
  | S remaining =>
      let (key, drawn) := createRandom drawn in
      fill_accounts remaining (S i) (<[i := Some key]> accounts) drawn
  end.

(** [new Array<string>(n)] for a whole number [n]: an array of [n] empty
    slots, and a [RangeError] when [n] is negative or not below [2^32]. *)
Definition new_Array (n : Z) : Result (list (option string)) :=
  if (0 <=? n)%Z && (n <? 2 ^ 32)%Z then Ok (replicate (Z.to_nat n) None)
  else Throw (RangeError "Invalid array length").

(** [generateRandomAccounts] (lines 43 to 51): the array, then the loop
    over its indices. The argument is a whole number, as at the one call
    of the file. *)
Definition generateRandomAccounts (numberOfAccounts : Z) (drawn : nat)
  : Result (list (option string) * nat) :=
  accounts ← new_Array numberOfAccounts;
  Ok (fill_accounts (Z.to_nat numberOfAccounts) 0 accounts drawn).

(** [process.env.DEPLOYER_PRIVATE_KEY || Wallet.createRandom().privateKey]:
    a key that is unset or empty is replaced. *)
Definition deployerAccount (drawn : nat) : string * nat :=
  match DEPLOYER_PRIVATE_KEY with
  | Some (String _ _ as key) => (key, drawn)
  | _ => createRandom drawn
  end.

Definition iotexNetwork (name : string) (deployer : string)
  : list (string * NetworkUserConfig) :=
  [ (name, mkNetwork " https://iotex.protofire.io:443/" [Some deployer]) ].

(** The evaluation of the networks of [config] that are reached over a
    URL, in the order of the file: the deployer key first, then the
    generated keys of [dev]. The in-process [hardhat] network takes its
    accounts from [accounts.json]. *)
Definition evaluate_networks : Result (list (string * NetworkUserConfig)) :=
  let (deployer, drawn) := deployerAccount 0 in
  generated ← generateRandomAccounts (Z.of_nat numAccounts - 2) drawn;
  Ok ([ ("dev", mkNetwork "http://localhost:8545"
                  (Some deployer :: Some devChainRichAccount :: generated.1)) ]
      ++ iotexNetwork "testnet" deployer
      ++ iotexNetwork "mainnet" deployer).

(** The networks the module is left with: those evaluated, and none had
    the evaluation thrown. *)
Definition config_networks : list (string * NetworkUserConfig) :=
  match evaluate_networks with
  | Ok networks => networks
  | Throw _ => []
  end.

Definition dev_accounts : list (option string) :=
  match own_property "dev" config_networks with
  | Some network => accounts network
  | None => []
  end.

End Startup.

(** [process.env.CHANNEL || "default"] (line 170). *)
Definition defaultChannel (CHANNEL : option string) : string :=
  match CHANNEL with
  | Some (String _ _ as channel) => channel
  | _ => "default"
  end.

(** ** The [deploy] task (lines 143 to 246) *)

(** The record [deployAndSetupContracts] returns: a JavaScript object, as
    its own properties. *)
Definition Deployment : Type := list (string * json).

(** Where [getContractFactory] takes artifacts from (lines 131 to 141). *)
Inductive FactorySource : Type := live_artifacts | compiled_artifacts.

Definition getContractFactory (useLiveVersion : bool) : FactorySource :=
  if useLiveVersion then live_artifacts else compiled_artifacts.

Module DeployParams.
Record t : Type := mk {
  channel : string;
  gasPrice : option number;
  useRealPriceFeed : option bool;
  createUniswapPair : option bool
}.
End DeployParams.

(** What the caller of the task gave (lines 172 to 186). Every parameter
    is optional: [channel] left out takes [defaultChannel], the others stay
    [undefined]. *)
Module TaskArguments.
Record t : Type := mk {
  channel : option string;
  gasPrice : option number;
  useRealPriceFeed : option bool;
  createUniswapPair : option bool
}.
End TaskArguments.

Definition task_params (CHANNEL : option string) (args : TaskArguments.t)
  : DeployParams.t :=
  DeployParams.mk
    (match TaskArguments.channel args with
     | Some channel => channel
     | None => defaultChannel CHANNEL
     end)
    (TaskArguments.gasPrice args)
    (TaskArguments.useRealPriceFeed args)
    (TaskArguments.createUniswapPair args).

Inductive LogArg : Type :=
| log_text (s : string)
| log_object (o : Deployment).

(** The surroundings of the task: the collaborators it calls and what the
    module fixed when it was loaded. [Chain] is the state of everything the
    collaborators act on (the chain, the signer's nonce); a collaborator
    that is awaited takes it and returns it changed, with its result or
    what it threw. *)
Class Env : Type := mkEnv {
  Signer : Type;
  Contracts : Type;
  PriceFeed : Type;
  Tx : Type;
  Chain : Type;
  (** [env.network.name] *)
  network : string;
  (** [env.ethers.getSigners] *)
  getSigners : Chain -> Result (list Signer) * Chain;
  (** [deployAndSetupContracts] and [deployTellorCaller] of utils/deploy *)
  deployAndSetupContracts :
    option Signer -> FactorySource -> bool -> bool -> value -> option Overrides ->
    Chain -> Result Deployment * Chain;
  deployTellorCaller :
    option Signer -> FactorySource -> value -> Overrides ->
    Chain -> Result string * Chain;
  (** [_connectToContracts] and [_priceFeedIsTestnet] of src/contracts *)
  _connectToContracts : option Signer -> Deployment -> Result Contracts;
  priceFeed : Contracts -> PriceFeed;
  _priceFeedIsTestnet : PriceFeed -> bool;
  (** the price feed's [setAddresses] and a transaction's [wait] *)
  setAddresses :
    PriceFeed -> value -> string -> Overrides -> Chain -> Result Tx * Chain;
  wait : Tx -> Chain -> Result unit * Chain;
  (** [useLiveVersion] (line 28) and [contractsVersion] (lines 34 to 37) *)
  useLiveVersion : bool;
  contractsVersion : string
}.

Section Deploy.

Context {E : Env}.

(** One completed call of a collaborator, with what it was given and how
    it ended. *)
Inductive Event : Type :=
| EvGetSigners (r : Result (list Signer))
| EvSetSilent (silent : bool)
| EvDeployAndSetupContracts (deployer : option Signer) (factory : FactorySource)
    (useTestPriceFeed isDev : bool) (wiotxAddress : value)
    (overrides : option Overrides) (r : Result Deployment)
| EvDeployTellorCaller (deployer : option Signer) (factory : FactorySource)
    (tellor : value) (overrides : Overrides) (r : Result string)
| EvSetAddresses (feed : PriceFeed) (chainlink : value) (tellorCaller : string)
    (overrides : Overrides) (r : Result Tx)
| EvWait (tx : Tx) (r : Result unit)
| EvMkdir (path : string) (r : Result unit)
| EvWriteFile (path data : string) (r : Result unit)
| EvConsoleLog (args : list LogArg).

Record World : Type := mkWorld { chain : Chain; fs : FS; log : list Event }.

(** A computation of the task: it may throw, and it changes the world. *)
Definition M (A : Type) : Type := World -> Result A * World.

#[global] Instance M_ret : MRet M := fun A a w => (Ok a, w).
#[global] Instance M_bind : MBind M := fun A B k m w =>
  match m w with
  | (Ok a, w) => k a w
  | (Throw e, w) => (Throw e, w)
  end.

Definition throw {A} (e : exn) : M A := fun w => (Throw e, w).

Definition lift {A} (r : Result A) : M A := fun w => (r, w).

Definition emit (ev : Event) : M unit :=
  fun w => (Ok tt, mkWorld (chain w) (fs w) (log w ++ [ev])).

(** An awaited call of a collaborator on the chain. *)
Definition call {A} (f : Chain -> Result A * Chain) (ev : Result A -> Event) : M A :=
  fun w => let (r, c) := f (chain w) in
           (r, mkWorld c (fs w) (log w ++ [ev r])).

(** A call of the [fs] module. *)
Definition fs_call (f : FS -> Result unit * FS) (ev : Result unit -> Event) : M unit :=
  fun w => let (r, fs') := f (fs w) in
           (r, mkWorld (chain w) fs' (log w ++ [ev r])).

(** [assert(condition)]. The message Node gives goes on to quote the
    failing expression from the source file; only its first line is kept
    here. *)
Definition assert (condition : bool) : M unit :=
  if condition then mret tt
  else throw (AssertionError "The expression evaluated to a falsy value").

(** [env.deployLiquity] (lines 144 to 160). A parameter left [undefined]
    takes its default. *)
Definition deployLiquity (deployer : option Signer) (useRealPriceFeed : option bool)
  (wiotxAddress : value) (overrides : option Overrides) : M Deployment :=
  let useRealPriceFeed := default false useRealPriceFeed in
  deployment ← call
    (deployAndSetupContracts deployer (getContractFactory useLiveVersion)
       (negb useRealPriceFeed) (String.eqb network "dev") wiotxAddress overrides)
    (EvDeployAndSetupContracts deployer (getContractFactory useLiveVersion)
       (negb useRealPriceFeed) (String.eqb network "dev") wiotxAddress overrides);
  mret (set_property "version" (JString contractsVersion) deployment).

(** [useRealPriceFeed ??= env.network.name === "mainnet"] (line 192). *)
Definition resolve_useRealPriceFeed (useRealPriceFeed : option bool) : bool :=
  match useRealPriceFeed with
  | Some b => b
  | None => String.eqb network "mainnet"
  end.

(** Lines 198 to 204. *)
Definition resolve_wiotxAddress (createUniswapPair : option bool) : M value :=
  match createUniswapPair with
  | Some true =>
      if negb (hasWIOTX network)
      then throw (Error ("WETH not deployed on " +:+ network))
      else mret (wiotx_member network)
  | _ => mret undefined
  end.

(** Lines 215 to 232: the adapter, then the price feed's addresses. *)
Definition wireOracles (deployer : option Signer) (feed : PriceFeed)
  (overrides : Overrides) : M unit :=
  tellor ← lift (oracle_member tellor network);
  tellorCallerAddress ← call
    (deployTellorCaller deployer (getContractFactory useLiveVersion) tellor overrides)
    (EvDeployTellorCaller deployer (getContractFactory useLiveVersion) tellor overrides);
  emit (EvConsoleLog [log_text "Hooking up PriceFeed with oracles ..."]);;
  chainlink ← lift (oracle_member chainlink network);
  tx ← call (setAddresses feed chainlink tellorCallerAddress overrides)
            (EvSetAddresses feed chainlink tellorCallerAddress overrides);
  call (wait tx) (EvWait tx).

(** The directory and the file of the manifest, for a channel and a
    network whose names are single path segments. *)
Definition manifest_dir (channel : string) : string := "deployments/" +:+ channel.
Definition manifest_file (channel : string) : string :=
  "deployments/" +:+ channel +:+ "/" +:+ network +:+ ".json".

(** Lines 235 to 240: the manifest. *)
Definition writeManifest (channel : string) (deployment : Deployment) : M unit :=
  let dir := Path.join ["deployments"; channel] in
  fs_call (Fs.mkdirSync_recursive dir) (EvMkdir dir);;
  let file := Path.join ["deployments"; channel; network +:+ ".json"] in
  let data := JSON.stringify deployment in
  fs_call (Fs.writeFileSync file data) (EvWriteFile file data).

(** The action of the task (lines 188 to 245). *)
Definition deploy (params : DeployParams.t) : M unit :=
  overrides ← lift (task_overrides (DeployParams.gasPrice params));
  signers ← call getSigners EvGetSigners;
  let deployer := head signers in
  let useRealPriceFeed :=
    resolve_useRealPriceFeed (DeployParams.useRealPriceFeed params) in
  (if useRealPriceFeed && negb (hasOracles network)
   then throw (Error ("PriceFeed not supported on " +:+ network))
   else mret tt);;
  wiotxAddress ← resolve_wiotxAddress (DeployParams.createUniswapPair params);
  emit (EvSetSilent false);;
  deployment ← deployLiquity deployer (Some useRealPriceFeed) wiotxAddress
                 (Some overrides);
  (if useRealPriceFeed then
     contracts ← lift (_connectToContracts deployer deployment);
     assert (negb (_priceFeedIsTestnet (priceFeed contracts)));;
     if hasOracles network
     then wireOracles deployer (priceFeed contracts) overrides
     else mret tt
   else mret tt);;
  writeManifest (DeployParams.channel params) deployment;;
  emit (EvConsoleLog []);;
  emit (EvConsoleLog [log_object deployment]);;
  emit (EvConsoleLog []).

(** One invocation of the task: a process of its own, whose call log
    starts empty. *)
Definition run (params : DeployParams.t) (c : Chain) (files : FS)
  : Result unit * World :=
  deploy params (mkWorld c files []).

End Deploy.

(** ** Observations on a call log *)

Section Observations.

Context {E : Env}.

(** A call that deploys a contract or submits a transaction. *)
Definition is_deployment_call (ev : Event) : bool :=
  match ev with
  | EvDeployAndSetupContracts _ _ _ _ _ _ _ => true
  | EvDeployTellorCaller _ _ _ _ _ => true
  | EvSetAddresses _ _ _ _ _ => true
  | EvWait _ _ => true
  | _ => false
  end.

Definition is_adapter_deployment (ev : Event) : bool :=
  match ev with EvDeployTellorCaller _ _ _ _ _ => true | _ => false end.

Definition is_setAddresses (ev : Event) : bool :=
  match ev with EvSetAddresses _ _ _ _ _ => true | _ => false end.

Definition is_fs_call (ev : Event) : bool :=
  match ev with EvMkdir _ _ | EvWriteFile _ _ _ => true | _ => false end.

(** How the call ended. *)
Definition returned (ev : Event) : bool :=
  match ev with
  | EvGetSigners r => is_ok r
  | EvDeployAndSetupContracts _ _ _ _ _ _ r => is_ok r
  | EvDeployTellorCaller _ _ _ _ r => is_ok r
  | EvSetAddresses _ _ _ _ r => is_ok r
  | EvWait _ r => is_ok r
  | EvMkdir _ r => is_ok r
  | EvWriteFile _ _ r => is_ok r
  | EvSetSilent _ | EvConsoleLog _ => true
  end.

(** The oracle wiring step was entered: its first call was made. *)
Definition wiring_executed (l : list Event) : bool :=
  existsb is_adapter_deployment l.

Definition count (p : Event -> bool) (l : list Event) : nat :=
  length (List.filter p l).

(** The gas price a call was given in its overrides, if it takes any. *)
Definition event_gasPrice (ev : Event) : option GasPrice :=
  match ev with
  | EvDeployAndSetupContracts _ _ _ _ _ overrides _ => gasPrice <$> overrides
  | EvDeployTellorCaller _ _ _ overrides _ => Some (gasPrice overrides)
  | EvSetAddresses _ _ _ overrides _ => Some (gasPrice overrides)
  | _ => None
  end.

End Observations.

Section Outcomes.

Context {E : Env}.

(** What a call threw, if it threw. *)
Definition thrown (ev : Event) : option exn :=
  match ev with
  | EvGetSigners (Throw e)
  | EvDeployAndSetupContracts _ _ _ _ _ _ (Throw e)
  | EvDeployTellorCaller _ _ _ _ (Throw e)
  | EvSetAddresses _ _ _ _ (Throw e)
  | EvWait _ (Throw e)
  | EvMkdir _ (Throw e)
  | EvWriteFile _ _ (Throw e) => Some e
  | _ => None
  end.

(** The deployer and the contract factory a call was given, if it takes
    them. *)
Definition event_deployer (ev : Event) : option (option Signer) :=
  match ev with
  | EvDeployAndSetupContracts deployer _ _ _ _ _ _ => Some deployer
  | EvDeployTellorCaller deployer _ _ _ _ => Some deployer
  | _ => None
  end.

Definition event_factory (ev : Event) : option FactorySource :=
  match ev with
  | EvDeployAndSetupContracts _ factory _ _ _ _ _ => Some factory
  | EvDeployTellorCaller _ factory _ _ _ => Some factory
  | _ => None
  end.

Definition is_getSigners (ev : Event) : bool :=
  match ev with EvGetSigners _ => true | _ => false end.

Definition is_main_deployment (ev : Event) : bool :=
  match ev with EvDeployAndSetupContracts _ _ _ _ _ _ _ => true | _ => false end.

Definition is_wait (ev : Event) : bool :=
  match ev with EvWait _ _ => true | _ => false end.

Definition is_mkdir (ev : Event) : bool :=
  match ev with EvMkdir _ _ => true | _ => false end.

Definition is_writeFile (ev : Event) : bool :=
  match ev with EvWriteFile _ _ _ => true | _ => false end.

(** A [console.log] of a deployment record. *)
Definition prints_record (ev : Event) : bool :=
  match ev with
  | EvConsoleLog args =>
      existsb (fun a => match a with log_object _ => true | _ => false end) args
  | _ => false
  end.

End Outcomes.

(** ** A concrete surrounding, for examples

    Signers and transactions are names, the chain counts the transactions
    mined, the connected contracts remember whether the price feed is the
    test one. [faults] lists the collaborators that throw. *)
Module Mock.

Inductive Fault : Type := signers_fail | deployment_fails | adapter_fails.

Definition has (f : Fault) (faults : list Fault) : bool :=
  existsb (fun g => match f, g with
                    | signers_fail, signers_fail => true
                    | deployment_fails, deployment_fails => true
                    | adapter_fails, adapter_fails => true
                    | _, _ => false
                    end) faults.

Definition refused : exn := Error "could not detect network".

Definition deployment (useTestPriceFeed isDev : bool) (wiotxAddress : value)
  : Deployment :=
  [ ("chainId", JNumber (Num "4689"));
    ("addresses", JObject [ ("priceFeed", JString "0xFeed");
                            ("troveManager", JString "0xTroves") ]);
    ("version", JString "unknown");
    ("_priceFeedIsTestnet", JBool useTestPriceFeed);
    ("_uniTokenIsMock",
      JBool match wiotxAddress with undefined => true | _ => false end);
    ("_isDev", JBool isDev) ].

Definition env (name : string) (faults : list Fault) : Env := {|
  Signer := string;
  Contracts := bool;
  PriceFeed := bool;
  Tx := string;
  Chain := nat;
  network := name;
  getSigners := fun c =>
    if has signers_fail faults then (Throw refused, c)
    else (Ok ["0xDeployer"; "0xOther"], c);
  deployAndSetupContracts := fun _ _ useTestPriceFeed isDev wiotxAddress _ c =>
    if has deployment_fails faults then (Throw refused, S c)
    else (Ok (deployment useTestPriceFeed isDev wiotxAddress), 10 + c)%nat;
  deployTellorCaller := fun _ _ _ _ c =>
    if has adapter_fails faults then (Throw refused, c)
    else (Ok "0xTellorCaller", S c);
  _connectToContracts := fun _ d =>
    match own_property "_priceFeedIsTestnet" d with
    | Some (JBool b) => Ok b
    | _ => Throw (TypeError "not a deployment")
    end;
  priceFeed := fun contracts => contracts;
  _priceFeedIsTestnet := fun feed => feed;
  setAddresses := fun _ _ _ _ c => (Ok "0xTx", c);
  wait := fun _ c => (Ok tt, S c);
  useLiveVersion := false;
  contractsVersion := "2f3a9be"
|}.

Definition empty_fs : FS := mkFS ∅ ∅.

Definition params (gasPrice : option number) (useRealPriceFeed createUniswapPair : option bool)
  : DeployParams.t :=
  DeployParams.mk "ci" gasPrice useRealPriceFeed createUniswapPair.

End Mock.

(** The manifest of a [Mock.deployment] whose wrapped-token address was
    given or not, spelled out line by line. *)
Definition mock_manifest_text (version : string)
  (priceFeedIsTestnet uniTokenIsMock isDev : bool) : string :=
  let flag (b : bool) : string := if b then "true" else "false" in
  text_of_lines
    [ "{";
      "  " +:+ quoted "chainId" +:+ ": 4689,";
      "  " +:+ quoted "addresses" +:+ ": {";
      "    " +:+ quoted "priceFeed" +:+ ": " +:+ quoted "0xFeed" +:+ ",";
      "    " +:+ quoted "troveManager" +:+ ": " +:+ quoted "0xTroves";
      "  },";
      "  " +:+ quoted "version" +:+ ": " +:+ quoted version +:+ ",";
      "  " +:+ quoted "_priceFeedIsTestnet" +:+ ": " +:+ flag priceFeedIsTestnet +:+ ",";
      "  " +:+ quoted "_uniTokenIsMock" +:+ ": " +:+ flag uniTokenIsMock +:+ ",";
      "  " +:+ quoted "_isDev" +:+ ": " +:+ flag isDev;
      "}" ].

(** A record with the characters and the values that are written in a
    way of their own (a quote, a backslash, a line feed, a tab, a control
    character, a number that is not finite, [null], an object without
    members, an array), and its text spelled out. *)
Definition sample_record : Deployment :=
  [ ("note", JString (String quote_char (String JSON.backslash
               (String (Ascii.ascii_of_nat 10) (String (Ascii.ascii_of_nat 9)
                  (String (Ascii.ascii_of_nat 1) "end"))))));
    ("ratio", JNumber (Num "NaN"));
    ("none", JNull);
    ("empty", JObject []);
    ("list", JArray [JBool true; JArray []; JObject [("k", JNumber (Num "1.5"))]]) ].

Definition sample_text : string :=
  let bs := String JSON.backslash EmptyString in
  text_of_lines
    [ "{";
      "  " +:+ quoted "note" +:+ ": "
        +:+ quoted (bs +:+ String quote_char EmptyString +:+ bs +:+ bs
                    +:+ bs +:+ "n" +:+ bs +:+ "t" +:+ bs +:+ "u0001end") +:+ ",";
      "  " +:+ quoted "ratio" +:+ ": null,";
      "  " +:+ quoted "none" +:+ ": null,";
      "  " +:+ quoted "empty" +:+ ": {},";
      "  " +:+ quoted "list" +:+ ": [";
      "    true,";
      "    [],";
      "    {";
      "      " +:+ quoted "k" +:+ ": 1.5";
      "    }";
      "  ]";
      "}" ].

(** A surrounding like [Mock.env] without faults, except that the price
    feed it connects to reports to be the test one whatever was deployed. *)
Definition test_feed_env (name : string) : Env := {|
  Signer := string;
  Contracts := bool;
  PriceFeed := bool;
  Tx := string;
  Chain := nat;
  network := name;
  getSigners := @getSigners (Mock.env name []);
  deployAndSetupContracts := @deployAndSetupContracts (Mock.env name []);
  deployTellorCaller := @deployTellorCaller (Mock.env name []);
  _connectToContracts := fun _ _ => Ok true;
  priceFeed := fun contracts => contracts;
  _priceFeedIsTestnet := fun feed => feed;
  setAddresses := @setAddresses (Mock.env name []);
  wait := @wait (Mock.env name []);
  useLiveVersion := false;
  contractsVersion := "2f3a9be"
|}.

(** * Properties *)

(** ** Strings and paths *)

Lemma append_cons (d : ascii) (a b : string) :
  String d a +:+ b = String d (a +:+ b).
Proof. reflexivity. Qed.

Lemma append_nil (b : string) : EmptyString +:+ b = b.
Proof. reflexivity. Qed.

Lemma append_nil_r (s : string) : s +:+ EmptyString = s.
Proof. induction s; rewrite ?append_cons, ?append_nil; congruence. Qed.

Lemma append_assoc (a b c : string) : (a +:+ b) +:+ c = a +:+ b +:+ c.
Proof. induction a; rewrite ?append_cons, ?append_nil; congruence. Qed.

Lemma length_append (a b : string) :
  String.length (a +:+ b) = (String.length a + String.length b)%nat.
Proof. induction a; rewrite ?append_cons, ?append_nil; cbn; congruence. Qed.

Lemma eqb_length (a b : string) :
  String.length a <> String.length b -> String.eqb a b = false.
Proof.
  intros H. apply String.eqb_neq. intros ->. contradiction.
Qed.

Lemma includes_app (c : ascii) (a b : string) :
  Str.includes c (a +:+ b) = Str.includes c a || Str.includes c b.
Proof.
  induction a as [|d a IH]; [reflexivity|].
  rewrite append_cons. cbn. destruct (Ascii.eqb d c); [reflexivity | exact IH].
Qed.

Lemma split_plain (c : ascii) (a : string) :
  Str.includes c a = false -> Str.split c a = [a].
Proof.
  induction a as [|d a IH]; cbn; [reflexivity|].
  destruct (Ascii.eqb d c); [discriminate|].
  intros H. rewrite (IH H). reflexivity.
Qed.

Lemma split_app (c : ascii) (a b : string) :
  Str.includes c a = false ->
  Str.split c (a +:+ String c b) = a :: Str.split c b.
Proof.
  induction a as [|d a IH]; rewrite ?append_cons, ?append_nil; cbn.
  - intros _. rewrite Ascii.eqb_refl. reflexivity.
  - destruct (Ascii.eqb d c); [discriminate|].
    intros H. rewrite (IH H). reflexivity.
Qed.

Lemma last_char_app (a b : string) :
  b <> EmptyString -> Str.last_char (a +:+ b) = Str.last_char b.
Proof.
  intros Hb. induction a as [|d a IH]; [reflexivity|].
  rewrite append_cons. cbn [Str.last_char]. rewrite IH.
  destruct (a +:+ b) eqn:Hab; [|reflexivity].
  destruct a; [rewrite append_nil in Hab; congruence
              | rewrite append_cons in Hab; discriminate].
Qed.

Lemma last_char_not (c : ascii) (s : string) :
  Str.includes c s = false ->
  match Str.last_char s with Some d => Ascii.eqb d c | None => false end = false.
Proof.
  induction s as [|d s IH]; cbn; [reflexivity|].
  destruct (Ascii.eqb d c) eqn:Hd; [discriminate|].
  intros H. destruct s; [exact Hd | exact (IH H)].
Qed.

Lemma last_char_sep (a b : string) :
  b <> EmptyString -> Str.last_char (a +:+ "/" +:+ b) = Str.last_char b.
Proof.
  intros Hb. change ("/" +:+ b) with (String "/" b).
  rewrite last_char_app by done.
  cbn [Str.last_char]. destruct b; [congruence | reflexivity].
Qed.

Lemma append_sep_not_empty (a b : string) : a +:+ "/" +:+ b <> EmptyString.
Proof.
  change ("/" +:+ b) with (String "/" b).
  destruct a; [rewrite append_nil | rewrite append_cons]; done.
Qed.

Lemma plain_name_spec (name : string) : Path.plain_name name = true -> plain name.
Proof.
  unfold Path.plain_name. intros H.
  repeat (apply andb_prop in H; destruct H as [H ?]).
  repeat match goal with H : negb _ = true |- _ => apply negb_true_iff in H end.
  by split.
Qed.

Lemma plain_not_special (name : string) :
  plain name ->
  String.eqb name EmptyString || String.eqb name "." = false /\
  String.eqb name ".." = false.
Proof. intros [-> _ -> ->]. split; reflexivity. Qed.

Lemma plain_last (name : string) :
  plain name ->
  name <> EmptyString /\
  match Str.last_char name with Some c => Ascii.eqb c "/" | None => false end = false.
Proof.
  intros [Hne Hslash _ _]. split.
  - by apply String.eqb_neq.
  - by apply last_char_not.
Qed.

Lemma plain_deployments : plain "deployments".
Proof. by apply plain_name_spec. Qed.

(** The file name of a manifest is one segment when the network's name
    holds no slash. *)
Lemma json_name_plain (name : string) :
  Str.includes "/" name = false -> plain (name +:+ ".json").
Proof.
  intros H. split.
  - apply eqb_length. rewrite length_append. cbn. lia.
  - rewrite includes_app, H. reflexivity.
  - apply eqb_length. rewrite length_append. cbn. lia.
  - apply eqb_length. rewrite length_append. cbn. lia.
Qed.

Lemma normalize_relative (path : string) (segs : list string) :
  path <> EmptyString ->
  Str.startsWith "/" path = false ->
  match Str.last_char path with Some c => Ascii.eqb c "/" | None => false end = false ->
  Path.normalize_segments true [] (Str.split "/" path) = rev segs ->
  Str.join "/" segs <> EmptyString ->
  Path.normalize path = Str.join "/" segs.
Proof.
  intros Hne Habs Hlast Hsegs Hjoin. unfold Path.normalize, Path.normalizeString.
  destruct path; [congruence|].
  rewrite Habs, Hlast. cbn [negb]. rewrite Hsegs, rev_involutive.
  destruct (Str.join "/" segs); [congruence | reflexivity].
Qed.

(** Joining plain names puts slashes between them and changes nothing else. *)
Lemma join_plain2 (a b : string) :
  plain a -> plain b ->
  Str.startsWith "/" a = false ->
  Path.join [a; b] = a +:+ "/" +:+ b.
Proof.
  intros Ha Hb Habs.
  destruct (plain_not_special _ Ha) as [Ha1 Ha2].
  destruct (plain_not_special _ Hb) as [Hb1 Hb2].
  destruct (plain_last _ Hb) as [Hbne Hblast].
  unfold Path.join. cbn [List.filter].
  rewrite (plain_nonempty _ Ha), (plain_nonempty _ Hb). cbn [negb Str.join].
  apply (normalize_relative _ [a; b]).
  - apply append_sep_not_empty.
  - destruct a; [by destruct Ha | exact Habs].
  - rewrite last_char_sep by exact Hbne. exact Hblast.
  - change ("/" +:+ b) with (String "/" b).
    rewrite split_app by apply Ha. rewrite split_plain by apply Hb.
    cbn [Path.normalize_segments rev app]. rewrite Ha1, Ha2, Hb1, Hb2. reflexivity.
  - cbn [Str.join]. apply append_sep_not_empty.
Qed.

Lemma join_plain3 (a b c : string) :
  plain a -> plain b -> plain c ->
  Str.startsWith "/" a = false ->
  Path.join [a; b; c] = a +:+ "/" +:+ b +:+ "/" +:+ c.
Proof.
  intros Ha Hb Hc Habs.
  destruct (plain_not_special _ Ha) as [Ha1 Ha2].
  destruct (plain_not_special _ Hb) as [Hb1 Hb2].
  destruct (plain_not_special _ Hc) as [Hc1 Hc2].
  destruct (plain_last _ Hc) as [Hcne Hclast].
  unfold Path.join. cbn [List.filter].
  rewrite (plain_nonempty _ Ha), (plain_nonempty _ Hb), (plain_nonempty _ Hc).
  cbn [negb Str.join].
  apply (normalize_relative _ [a; b; c]).
  - apply append_sep_not_empty.
  - destruct a; [by destruct Ha | exact Habs].
  - rewrite last_char_sep by apply append_sep_not_empty.
    rewrite last_char_sep by exact Hcne. exact Hclast.
  - change ("/" +:+ b +:+ "/" +:+ c) with (String "/" (b +:+ String "/" c)).
    rewrite split_app by apply Ha. rewrite split_app by apply Hb.
    rewrite split_plain by apply Hc.
    cbn [Path.normalize_segments rev app].
    rewrite Ha1, Ha2, Hb1, Hb2, Hc1, Hc2. reflexivity.
  - cbn [Str.join]. apply append_sep_not_empty.
Qed.

Lemma segments_plain2 (a b : string) :
  plain a -> plain b -> Path.segments (a +:+ "/" +:+ b) = [a; b].
Proof.
  intros Ha Hb. unfold Path.segments.
  change ("/" +:+ b) with (String "/" b).
  rewrite split_app by apply Ha. rewrite split_plain by apply Hb.
  cbn [List.filter]. rewrite (plain_nonempty _ Ha), (plain_nonempty _ Hb). reflexivity.
Qed.

Lemma segments_plain3 (a b c : string) :
  plain a -> plain b -> plain c ->
  Path.segments (a +:+ "/" +:+ b +:+ "/" +:+ c) = [a; b; c].
Proof.
  intros Ha Hb Hc. unfold Path.segments.
  change ("/" +:+ b +:+ "/" +:+ c) with (String "/" (b +:+ String "/" c)).
  rewrite split_app by apply Ha. rewrite split_app by apply Hb.
  rewrite split_plain by apply Hc.
  cbn [List.filter].
  rewrite (plain_nonempty _ Ha), (plain_nonempty _ Hb), (plain_nonempty _ Hc).
  reflexivity.
Qed.

Lemma key_plain3 (a b c : string) :
  plain a -> plain b -> plain c ->
  Path.key (a +:+ "/" +:+ b +:+ "/" +:+ c) = a +:+ "/" +:+ b +:+ "/" +:+ c.
Proof.
  intros Ha Hb Hc. unfold Path.key. by rewrite segments_plain3.
Qed.

Lemma dirname_plain3 (a b c : string) :
  plain a -> plain b -> plain c ->
  Path.dirname (a +:+ "/" +:+ b +:+ "/" +:+ c) = a +:+ "/" +:+ b.
Proof.
  intros Ha Hb Hc. unfold Path.dirname. by rewrite segments_plain3.
Qed.

Lemma own_property_set {V} (key : string) (v : V) (obj : list (string * V)) :
  own_property key (set_property key v obj) = Some v.
Proof.
  unfold own_property. induction obj as [|[k x] obj IH]; cbn.
  - by rewrite String.eqb_refl.
  - destruct (String.eqb k key) eqn:Hk; cbn; rewrite Hk; [reflexivity | exact IH].
Qed.

(** ** The file system calls *)

Lemma mkdir_outcome (path : string) (fs0 : FS) (r : Result unit) (fs1 : FS) :
  Fs.mkdirSync_recursive path fs0 = (r, fs1) ->
  files fs1 = files fs0 /\ (is_ok r = false -> fs1 = fs0).
Proof.
  unfold Fs.mkdirSync_recursive.
  destruct (List.find _ _); intros [= <- <-]; cbn; auto.
  split; [reflexivity | discriminate].
Qed.

Lemma write_outcome (path data : string) (fs0 : FS) (r : Result unit) (fs1 : FS) :
  Fs.writeFileSync path data fs0 = (r, fs1) ->
  dirs fs1 = dirs fs0 /\
  (is_ok r = false -> fs1 = fs0) /\
  (is_ok r = true -> files fs1 = <[Path.key path := data]> (files fs0)).
Proof.
  unfold Fs.writeFileSync.
  repeat case_match; intros [= <- <-]; cbn; repeat split; auto; discriminate.
Qed.

(** ** The JSON text *)

(** Induction over JSON values, members included. *)
Lemma json_induction (P : json -> Prop) :
  P JNull ->
  (forall b, P (JBool b)) ->
  (forall n, P (JNumber n)) ->
  (forall s, P (JString s)) ->
  (forall items, Forall P items -> P (JArray items)) ->
  (forall members, Forall (fun kv => P kv.2) members -> P (JObject members)) ->
  forall v, P v.
Proof.
  intros Hnull Hbool Hnumber Hstring Harray Hobject.
  fix IH 1. intros [| b | n | s | items | members].
  - exact Hnull.
  - apply Hbool.
  - apply Hnumber.
  - apply Hstring.
  - apply Harray. induction items as [|v items IHitems]; constructor; [apply IH | exact IHitems].
  - apply Hobject.
    induction members as [|[k v] members IHmembers]; constructor;
      [apply IH | exact IHmembers].
Qed.

Lemma repeat_app (c : ascii) (n m : nat) :
  Str.repeat c (n + m) = Str.repeat c n +:+ Str.repeat c m.
Proof. induction n; cbn; [reflexivity|]. by rewrite IHn. Qed.

Lemma indentation_S (depth : nat) :
  Indented.indentation (S depth) = Indented.indentation depth +:+ JSON.gap.
Proof.
  unfold Indented.indentation.
  replace (2 * S depth)%nat with (2 * depth + 2)%nat by lia.
  by rewrite repeat_app.
Qed.

Lemma join_cons (sep p : string) (ps : list string) :
  ps <> [] -> Str.join sep (p :: ps) = p +:+ sep +:+ Str.join sep ps.
Proof. by destruct ps. Qed.

Lemma join_app (sep : string) (xs ys : list string) :
  xs <> [] -> ys <> [] ->
  Str.join sep (xs ++ ys) = Str.join sep xs +:+ sep +:+ Str.join sep ys.
Proof.
  intros Hxs Hys. induction xs as [|x xs IH]; [done|].
  destruct xs as [|x' xs].
  - cbn [app]. by rewrite join_cons.
  - cbn [app] in *. rewrite (join_cons sep x (x' :: xs ++ ys)) by done.
    rewrite (join_cons sep x (x' :: xs)) by done.
    rewrite IH by done. by rewrite !append_assoc.
Qed.

Lemma join_snoc (sep : string) (xs : list string) (y : string) :
  xs <> [] -> Str.join sep (xs ++ [y]) = Str.join sep xs +:+ sep +:+ y.
Proof. intros Hxs. by rewrite join_app. Qed.

(** The text of a member on lines of its own. *)
Lemma render_lines_of (depth : nat) (m : Indented.layout) :
  Str.join JSON.newline (Indented.render_line <$> Indented.lines_of depth m)
  = Indented.indentation depth +:+ Indented.render m.
Proof.
  destruct m as [h rest]. unfold Indented.lines_of, Indented.render.
  cbn [fst snd]. rewrite fmap_cons.
  destruct (Indented.render_line <$> rest) as [|l ls].
  - reflexivity.
  - rewrite !join_cons by done. unfold Indented.render_line. cbn [fst snd].
    by rewrite append_assoc.
Qed.

Lemma render_comma_last (ls : list Indented.line) :
  ls <> [] ->
  Str.join JSON.newline (Indented.render_line <$> Indented.comma_last ls)
  = Str.join JSON.newline (Indented.render_line <$> ls) +:+ ",".
Proof.
  intros Hne. induction ls as [|l ls IH]; [done|].
  destruct ls as [|l' ls].
  - cbn. unfold Indented.render_line. cbn [fst snd]. by rewrite append_assoc.
  - change (Indented.comma_last (l :: l' :: ls)) with (l :: Indented.comma_last (l' :: ls)).
    rewrite !fmap_cons. rewrite (join_cons _ _ (_ :: _)) by done.
    rewrite join_cons.
    + rewrite <- !fmap_cons, IH by done. by rewrite !append_assoc.
    + destruct ls; discriminate.
Qed.

Lemma render_add_comma (m : Indented.layout) :
  Indented.render (Indented.add_comma m) = Indented.render m +:+ ",".
Proof.
  unfold Indented.add_comma, Indented.render. destruct m as [h [|l ls]]; cbn [fst snd].
  - reflexivity.
  - rewrite join_cons.
    + rewrite render_comma_last by done.
      rewrite (join_cons _ h) by done. by rewrite !append_assoc.
    + destruct ls; discriminate.
Qed.

Lemma render_members (depth : nat) (members : list Indented.layout) :
  members <> [] ->
  Str.join JSON.newline
    (Indented.render_line
       <$> concat (Indented.lines_of depth <$> Indented.with_commas members))
  = Indented.indentation depth
    +:+ Str.join ("," +:+ JSON.newline +:+ Indented.indentation depth)
          (Indented.render <$> members).
Proof.
  intros Hne. induction members as [|m members IH]; [done|].
  destruct members as [|m' members].
  - cbn [Indented.with_commas fmap list_fmap concat Str.join].
    rewrite app_nil_r. apply render_lines_of.
  - change (Indented.with_commas (m :: m' :: members))
      with (Indented.add_comma m :: Indented.with_commas (m' :: members)).
    rewrite fmap_cons. cbn [concat]. rewrite fmap_app.
    rewrite join_app.
    + rewrite render_lines_of, render_add_comma, IH by done.
      rewrite !fmap_cons. rewrite (join_cons _ (Indented.render m)) by done.
      by rewrite !append_assoc.
    + unfold Indented.lines_of. by rewrite fmap_cons.
    + destruct members;
        cbn [Indented.with_commas fmap list_fmap concat Indented.lines_of app];
        discriminate.
Qed.

Lemma render_bracket (depth : nat) (opening closing : string)
  (members : list Indented.layout) :
  Indented.render (Indented.bracket depth opening closing members)
  = match members with
    | [] => opening +:+ closing
    | _ => opening +:+ JSON.newline +:+ Indented.indentation (S depth)
           +:+ Str.join ("," +:+ JSON.newline +:+ Indented.indentation (S depth))
                 (Indented.render <$> members)
           +:+ JSON.newline +:+ Indented.indentation depth +:+ closing
    end.
Proof.
  destruct members as [|m members]; [reflexivity|].
  unfold Indented.bracket, Indented.render. cbn [fst snd].
  rewrite fmap_app. cbn [fmap list_fmap]. change (list_fmap _ _ ?f ?l) with (f <$> l).
  rewrite join_cons.
  - rewrite join_snoc.
    + rewrite render_members by done. unfold Indented.render, Indented.render_line.
      cbn [fst snd]. by rewrite !append_assoc.
    + destruct members; discriminate.
  - intros H. apply app_eq_nil in H as [_ H]. discriminate.
Qed.

Lemma render_keyed (key : string) (m : Indented.layout) :
  Indented.render (Indented.keyed key m)
  = JSON.quote key +:+ ": " +:+ Indented.render m.
Proof.
  destruct m as [h rest]. unfold Indented.keyed, Indented.render. cbn [fst snd].
  destruct (Indented.render_line <$> rest) as [|l ls].
  - reflexivity.
  - rewrite !join_cons by done. by rewrite !append_assoc.
Qed.

(** The serialization of the code is the indented text of the
    specification, at every depth. *)
Lemma serialize_indented (v : json) :
  forall depth,
    JSON.serialize (Indented.indentation depth) v
    = Indented.render (Indented.layout_of depth v).
Proof.
  induction v as [| b | n | s | items IH | members IH] using json_induction;
    intros depth.
  - reflexivity.
  - by destruct b.
  - reflexivity.
  - reflexivity.
  - cbn [JSON.serialize Indented.layout_of]. rewrite render_bracket.
    rewrite <- indentation_S.
    assert (Hparts : List.map (JSON.serialize (Indented.indentation (S depth))) items
                     = Indented.render <$> List.map (Indented.layout_of (S depth)) items).
    { induction IH as [|v items Hv _ IHitems]; [reflexivity|].
      cbn [List.map fmap list_fmap]. f_equal; [apply Hv | exact IHitems]. }
    rewrite Hparts. by destruct items.
  - cbn [JSON.serialize Indented.layout_of]. rewrite render_bracket.
    rewrite <- indentation_S.
    assert (Hparts :
              List.map (fun kv => JSON.quote kv.1 +:+ ": "
                                  +:+ JSON.serialize (Indented.indentation (S depth)) kv.2)
                members
              = Indented.render
                  <$> List.map (fun kv => Indented.keyed kv.1
                                            (Indented.layout_of (S depth) kv.2))
                        members).
    { induction IH as [|kv members Hv _ IHmembers]; [reflexivity|].
      cbn [List.map fmap list_fmap]. f_equal; [|exact IHmembers].
      by rewrite render_keyed, Hv. }
    rewrite Hparts. by destruct members.
Qed.

Lemma stringify_indented (obj : list (string * json)) :
  JSON.stringify obj = Indented.text obj.
Proof. exact (serialize_indented (JObject obj) 0). Qed.

Lemma prefix_app (x b : string) : String.prefix x (x +:+ b) = true.
Proof.
  induction x as [|c x IH]; [by destruct b|].
  rewrite append_cons. cbn. by destruct (Ascii.ascii_dec c c).
Qed.

Lemma includes_text_app (a x b : string) :
  Str.includes_text x (a +:+ x +:+ b) = true.
Proof.
  induction a as [|c a IH].
  - rewrite append_nil. destruct (x +:+ b) eqn:Hxb; cbn [Str.includes_text];
      rewrite <- Hxb, prefix_app; reflexivity.
  - rewrite append_cons. cbn [Str.includes_text]. rewrite IH. apply orb_true_r.
Qed.

Lemma includes_text_end (a x : string) : Str.includes_text x (a +:+ x) = true.
Proof. rewrite <- (append_nil_r x) at 2. apply includes_text_app. Qed.

(** Every part of a joined text stands in it after the text that leads
    the first part and follows every separator. *)
Lemma join_part (lead sep part : string) (parts : list string) :
  In part parts ->
  exists pre post,
    lead +:+ Str.join (sep +:+ lead) parts = pre +:+ (lead +:+ part) +:+ post.
Proof.
  induction parts as [|p ps IH]; [intros []|].
  intros [->|Hin].
  - exists EmptyString. destruct ps as [|p' ps].
    + exists EmptyString. cbn [Str.join]. by rewrite append_nil, append_nil_r.
    + eexists. rewrite join_cons by done. rewrite append_nil.
      by rewrite !append_assoc.
  - destruct (IH Hin) as (pre & post & Heq).
    destruct ps as [|p' ps]; [destruct Hin|].
    exists (lead +:+ p +:+ sep +:+ pre), post.
    rewrite join_cons by done. rewrite !append_assoc. rewrite Heq.
    by rewrite !append_assoc.
Qed.

(** Every member of an object has its line in the object's text. *)
Lemma stringify_member (key : string) (v : json) (obj : list (string * json)) :
  In (key, v) obj ->
  Str.includes_text
    (JSON.gap +:+ JSON.quote key +:+ ": " +:+ JSON.serialize JSON.gap v)
    (JSON.stringify obj) = true.
Proof.
  intros Hin. unfold JSON.stringify. cbn [JSON.serialize].
  set (member := fun kv : string * json =>
                   JSON.quote kv.1 +:+ ": " +:+ JSON.serialize (EmptyString +:+ JSON.gap) kv.2).
  assert (Hpart : In (member (key, v)) (List.map member obj)) by (by apply in_map).
  destruct (List.map member obj) as [|p ps] eqn:Hparts; [destruct Hpart|].
  destruct (join_part JSON.gap ("," +:+ JSON.newline) _ _ Hpart) as (pre & post & Heq).
  rewrite !append_nil.
  change (JSON.gap +:+ JSON.quote key +:+ ": " +:+ JSON.serialize JSON.gap v)
    with (JSON.gap +:+ member (key, v)).
  change ("{" +:+ JSON.newline +:+ JSON.gap
          +:+ Str.join ("," +:+ JSON.newline +:+ JSON.gap) (p :: ps)
          +:+ JSON.newline +:+ "}")
    with (("{" +:+ JSON.newline)
          +:+ (JSON.gap +:+ Str.join ("," +:+ JSON.newline +:+ JSON.gap) (p :: ps))
          +:+ JSON.newline +:+ "}").
  change (("," +:+ JSON.newline) +:+ JSON.gap) with ("," +:+ JSON.newline +:+ JSON.gap) in Heq.
  rewrite Heq.
  replace (("{" +:+ JSON.newline)
           +:+ (pre +:+ (JSON.gap +:+ member (key, v)) +:+ post)
           +:+ JSON.newline +:+ "}")
    with ((("{" +:+ JSON.newline) +:+ pre)
          +:+ (JSON.gap +:+ member (key, v))
          +:+ (post +:+ JSON.newline +:+ "}"))
    by (by rewrite !append_assoc).
  apply includes_text_app.
Qed.

Lemma set_property_member {V} (key : string) (v : V) (obj : list (string * V)) :
  In (key, v) (set_property key v obj).
Proof.
  induction obj as [|[k x] obj IH]; cbn [set_property]; [by left|].
  destruct (String.eqb_spec k key) as [->|_]; [by left | by right].
Qed.

(** ** Walking through the task *)

Lemma hasOracles_member `{E : Env} (field : OracleAddressSet -> string) :
  hasOracles network = true -> exists v, oracle_member field network = Ok v.
Proof.
  unfold hasOracles, js_in, oracle_member.
  destruct (own_property network oracleAddresses); [eauto|].
  intros ->. eauto.
Qed.

Ltac fs_facts :=
  repeat match goal with
         | H : ?a = ?a -> _ |- _ => specialize (H eq_refl)
         | H : true = false -> _ |- _ => clear H
         | H : false = true -> _ |- _ => clear H
         end.

Ltac exec_unfold :=
  unfold mbind, M_bind, mret, M_ret, lift, call, fs_call, emit, throw, assert,
    deployLiquity, wireOracles, writeManifest, resolve_wiotxAddress, default;
  cbn beta iota zeta;
  cbn [fst snd chain fs log andb negb from_option id
       DeployParams.channel DeployParams.gasPrice DeployParams.useRealPriceFeed
       DeployParams.createUniswapPair].

(** One case distinction on the next call or test the task reaches. *)
Ltac exec_split :=
  match goal with
  | |- context [match task_overrides ?g with _ => _ end] =>
      destruct (task_overrides g) as [?overrides|?err] eqn:?Hoverrides
  | |- context [let (_, _) := getSigners ?c in _] =>
      destruct (getSigners c) as [[?signers|?err] ?ch] eqn:?Hsigners
  | |- context [resolve_useRealPriceFeed ?u] =>
      let H := fresh "Hreal" in
      destruct (resolve_useRealPriceFeed u) eqn:H; try discriminate H
  | |- context [hasOracles network] =>
      let H := fresh "Horacles" in
      destruct (hasOracles network) eqn:H;
      [ destruct (hasOracles_member tellor H) as [?tellorAddress ->];
        destruct (hasOracles_member chainlink H) as [?chainlinkAddress ->] | ]
  | |- context [match DeployParams.createUniswapPair ?p with _ => _ end] =>
      destruct (DeployParams.createUniswapPair p) as [[|]|] eqn:?Hpair
  | |- context [hasWIOTX network] => destruct (hasWIOTX network) eqn:?Hwiotx
  | |- context [let (_, _) := deployAndSetupContracts ?a ?b ?c ?d ?e ?f ?g in _] =>
      destruct (deployAndSetupContracts a b c d e f g)
        as [[?deployment|?err] ?ch] eqn:?Hdeploy
  | |- context [match _connectToContracts ?a ?b with _ => _ end] =>
      destruct (_connectToContracts a b) as [?contracts|?err] eqn:?Hconnect
  | |- context [_priceFeedIsTestnet ?f] =>
      destruct (_priceFeedIsTestnet f) eqn:?Htestnet
  | |- context [let (_, _) := deployTellorCaller ?a ?b ?c ?d ?e in _] =>
      destruct (deployTellorCaller a b c d e) as [[?adapter|?err] ?ch] eqn:?Hadapter
  | |- context [let (_, _) := setAddresses ?a ?b ?c ?d ?e in _] =>
      destruct (setAddresses a b c d e) as [[?tx|?err] ?ch] eqn:?Hset
  | |- context [let (_, _) := wait ?a ?b in _] =>
      destruct (wait a b) as [[[]|?err] ?ch] eqn:?Hwait
  | |- context [let (_, _) := Fs.mkdirSync_recursive ?a ?b in _] =>
      let H := fresh "Hmkdir" in
      destruct (Fs.mkdirSync_recursive a b) as [[[]|?err] ?fs1] eqn:H;
      apply mkdir_outcome in H; cbn [is_ok] in H; destruct H as [? ?]; fs_facts
  | |- context [let (_, _) := Fs.writeFileSync ?a ?b ?c in _] =>
      let H := fresh "Hwrite" in
      destruct (Fs.writeFileSync a b c) as [[[]|?err] ?fs2] eqn:H;
      apply write_outcome in H; cbn [is_ok] in H; destruct H as (? & ? & ?); fs_facts
  end.

(** The ways a written-out log splits around one of its events. *)
Ltac log_split H :=
  repeat
    match type of H with
    | [] = ?pre ++ _ :: _ => destruct pre; discriminate H
    | _ :: _ = ?pre ++ _ :: _ =>
        let p := fresh "pre" in
        destruct pre as [|? p]; cbn [app] in H;
        [ simplify_eq | injection H as <- H ]
    end.

(** Every path of one run: the goal [forall r w, run ... = (r, w) -> _] is
    left once for each way the run can end, with the calls made on it as
    hypotheses and the log written out. *)
Ltac exec :=
  unfold run, deploy;
  repeat (exec_unfold; try exec_split);
  cbn [app];
  let r := fresh "r" in let w := fresh "w" in
  intros r w [= <- <-]; cbn [fst snd chain fs log is_ok].

Section TaskFacts.

Context {E : Env}.

(** C7. In every run the manifest is written only after the whole record
    has been put together: a run that raises leaves the files as they
    were, and every call that came before the write of the manifest
    returned, among them the deployment whose stamped record is the data
    written and, where oracle wiring applies, the wiring up to the wait
    for its transaction. *)
Theorem manifest_written_last (params : DeployParams.t) (c : Chain) (fs0 : FS) :
  let out := run params c fs0 in
  (is_ok out.1 = false -> files (fs out.2) = files fs0) /\
  (forall pre path data r post,
      log out.2 = pre ++ EvWriteFile path data r :: post ->
      forallb returned pre = true /\
      (exists deployer factory useTest isDev wiotx overrides deployment,
          In (EvDeployAndSetupContracts deployer factory useTest isDev wiotx
                overrides (Ok deployment)) pre /\
          data = JSON.stringify
                   (set_property "version" (JString contractsVersion) deployment)) /\
      wiring_executed pre =
        resolve_useRealPriceFeed (DeployParams.useRealPriceFeed params)
        && hasOracles network /\
      (wiring_executed pre = true -> exists tx, In (EvWait tx (Ok tt)) pre)).
Proof.
  intros out. subst out.
  destruct (run params c fs0) as [r w] eqn:Hrun. cbn [fst snd].
  revert r w Hrun. exec.
  all: split; [ intros; first [discriminate | congruence] | ].
  all: intros pre path data r post Hlog; log_split Hlog.
  all: cbn; rewrite ?Hreal, ?Horacles; cbn.
  all: repeat split; eauto 20; try discriminate.
Qed.


(** C4, as amended. On a network without oracles, a run that asks for the
    real price feed raises, makes no deployment call and leaves the file
    system as it was. When the conversion of the gas price and the listing
    of the signers, which come first, have returned, what it raises is the
    configuration error whose message names the network, and the listing
    is the only call made; when the conversion or the listing throws, the
    run throws that error as it is. *)
Theorem real_price_feed_needs_oracles (params : DeployParams.t) (c : Chain) (fs0 : FS) :
  hasOracles network = false ->
  DeployParams.useRealPriceFeed params = Some true ->
  let out := run params c fs0 in
  is_ok out.1 = false /\
  existsb is_deployment_call (log out.2) = false /\
  fs out.2 = fs0 /\
  (forall overrides signers c1,
      task_overrides (DeployParams.gasPrice params) = Ok overrides ->
      getSigners c = (Ok signers, c1) ->
      out = (Throw (Error ("PriceFeed not supported on " +:+ network)),
             mkWorld c1 fs0 [EvGetSigners (Ok signers)])) /\
  (forall e,
      task_overrides (DeployParams.gasPrice params) = Throw e ->
      out = (Throw e, mkWorld c fs0 [])) /\
  (forall overrides e c1,
      task_overrides (DeployParams.gasPrice params) = Ok overrides ->
      getSigners c = (Throw e, c1) ->
      out = (Throw e, mkWorld c1 fs0 [EvGetSigners (Throw e)])) /\
  Str.includes_text network ("PriceFeed not supported on " +:+ network) = true.
Proof.
  intros Hno Hask out. subst out.
  cut (forall A B C D E F G : Prop, G -> A /\ B /\ C /\ D /\ E /\ F ->
                                    A /\ B /\ C /\ D /\ E /\ F /\ G);
    [|tauto].
  intros Hlast. apply Hlast; [apply includes_text_end|]. clear Hlast.
  destruct (run params c fs0) as [r w] eqn:Hrun. cbn [fst snd].
  revert r w Hrun. unfold run, deploy. rewrite Hask, Hno. exec.
  all: repeat split; try reflexivity.
  all: intros; congruence.
Qed.

(** C5, as amended. On a network without a wrapped native token, a run
    that asks for the Uniswap pair raises, makes no deployment call and
    leaves the file system as it was. When the conversion of the gas price
    and the listing of the signers, which come first, have returned, what
    it raises is a configuration error whose message names the network
    (the one about the price feed when that check fails first); when the
    conversion or the listing throws, the run throws that error as it is.
    A run that does not ask for the pair resolves no address:
    [wiotxAddress] is [undefined], and so is what the deployment is
    given. *)
Theorem uniswap_pair_needs_wrapped_token (params : DeployParams.t) (c : Chain) (fs0 : FS) :
  let out := run params c fs0 in
  (hasWIOTX network = false ->
   DeployParams.createUniswapPair params = Some true ->
   is_ok out.1 = false /\
   existsb is_deployment_call (log out.2) = false /\
   fs out.2 = fs0 /\
   (forall overrides signers c1,
       task_overrides (DeployParams.gasPrice params) = Ok overrides ->
       getSigners c = (Ok signers, c1) ->
       out = (Throw (Error
                ((if resolve_useRealPriceFeed (DeployParams.useRealPriceFeed params)
                     && negb (hasOracles network)
                  then "PriceFeed not supported on "
                  else "WETH not deployed on ") +:+ network)),
              mkWorld c1 fs0 [EvGetSigners (Ok signers)])) /\
   (forall e,
       task_overrides (DeployParams.gasPrice params) = Throw e ->
       out = (Throw e, mkWorld c fs0 [])) /\
   (forall overrides e c1,
       task_overrides (DeployParams.gasPrice params) = Ok overrides ->
       getSigners c = (Throw e, c1) ->
       out = (Throw e, mkWorld c1 fs0 [EvGetSigners (Throw e)]))) /\
  (DeployParams.createUniswapPair params <> Some true ->
   (forall w, resolve_wiotxAddress (DeployParams.createUniswapPair params) w
              = (Ok undefined, w)) /\
   (forall deployer factory useTest isDev wiotxAddress overrides r,
       In (EvDeployAndSetupContracts deployer factory useTest isDev wiotxAddress
             overrides r) (log out.2) ->
       wiotxAddress = undefined)) /\
  (Str.includes_text network ("PriceFeed not supported on " +:+ network) = true /\
   Str.includes_text network ("WETH not deployed on " +:+ network) = true).
Proof.
  intros out. subst out.
  cut (forall A B C : Prop, C -> A /\ B -> A /\ B /\ C); [|tauto].
  intros Hlast. apply Hlast; [split; apply includes_text_end|]. clear Hlast.
  destruct (run params c fs0) as [r w] eqn:Hrun. cbn [fst snd].
  revert r w Hrun. exec.
  all: split; [ intros Hno Hask; try congruence | intros Hask; try congruence ].
  all: rewrite ?Hreal, ?Horacles; cbn.
  all: repeat split; try reflexivity.
  all: try (intros; congruence).
  all: intros deployer factory useTest isDev wiotxAddress overrides' r Hin.
  all: cbn in Hin; intuition congruence.
Qed.

(** C6. Left unset, [useRealPriceFeed] resolves to true exactly on the
    network named mainnet and to false on every other one; the run then
    deploys with the test price feed exactly off mainnet, and wires
    oracles only on mainnet. *)
Theorem useRealPriceFeed_default (channel : string) (gas : option number)
  (pair : option bool) (c : Chain) (fs0 : FS) :
  let out := run (DeployParams.mk channel gas None pair) c fs0 in
  (resolve_useRealPriceFeed None = true <-> network = "mainnet") /\
  (network <> "mainnet" -> resolve_useRealPriceFeed None = false) /\
  (forall deployer factory useTest isDev wiotxAddress overrides r,
      In (EvDeployAndSetupContracts deployer factory useTest isDev wiotxAddress
            overrides r) (log out.2) ->
      useTest = negb (String.eqb network "mainnet")) /\
  (wiring_executed (log out.2) = true -> network = "mainnet").
Proof.
  intros out. subst out.
  split; [apply String.eqb_eq|].
  split; [apply String.eqb_neq|].
  set (params := DeployParams.mk channel gas None pair).
  assert (Hunset : DeployParams.useRealPriceFeed params = None) by reflexivity.
  clearbody params.
  destruct (run params c fs0) as [r w] eqn:Hrun. cbn [fst snd].
  revert r w Hrun. unfold run, deploy. rewrite Hunset. exec.
  all: try (cbn in Hreal; rewrite Hreal; cbn [negb]).
  all: split; [ intros deployer factory useTest isDev wiotxAddress overrides' r Hin;
                cbn in Hin; intuition congruence
              | cbn; intros; first [discriminate | by apply String.eqb_eq] ].
Qed.

(** Every call of the run that takes overrides is given the ones computed
    from the [gasPrice] parameter. *)
Lemma overrides_passed_on (params : DeployParams.t) (c : Chain) (fs0 : FS)
  (ev : Event) :
  In ev (log (run params c fs0).2) ->
  event_gasPrice ev = None \/
  exists overrides,
    task_overrides (DeployParams.gasPrice params) = Ok overrides /\
    event_gasPrice ev = Some (gasPrice overrides).
Proof.
  destruct (run params c fs0) as [r w] eqn:Hrun. cbn [fst snd].
  revert r w Hrun. exec.
  all: cbn [In]; intros Hin.
  all: repeat (destruct Hin as [<-|Hin]; [cbn; eauto|]); contradiction.
Qed.

(** ** The manifest *)

Lemma manifest_file_fresh (channel : string) :
  manifest_file channel <> "deployments" /\
  manifest_file channel <> manifest_dir channel.
Proof.
  split; intros H%(f_equal String.length); revert H;
    unfold manifest_file, manifest_dir; rewrite !length_append; cbn; lia.
Qed.

Lemma not_a_directory (files : FS) (path : string) :
  Fs.is_dir files path = false -> path ∉ dirs files.
Proof.
  unfold Fs.is_dir. intros [_ H]%orb_false_elim.
  by apply bool_decide_eq_false in H.
Qed.

(** With plain names and nothing in the way, the manifest writer makes the
    two directories and writes the file. *)
Lemma writeManifest_plain (channel : string) (deployment : Deployment) (w : World) :
  Path.plain_name channel = true ->
  Str.includes "/" network = false ->
  Fs.is_file (fs w) "deployments" = false ->
  Fs.is_file (fs w) (manifest_dir channel) = false ->
  manifest_file channel ∉ dirs (fs w) ->
  writeManifest channel deployment w =
    (Ok tt,
     mkWorld (chain w)
       (mkFS ({[ "deployments"; manifest_dir channel ]} ∪ dirs (fs w))
             (<[manifest_file channel := JSON.stringify deployment]> (files (fs w))))
       (log w ++ [ EvMkdir (manifest_dir channel) (Ok tt);
                   EvWriteFile (manifest_file channel) (JSON.stringify deployment)
                     (Ok tt) ])).
Proof.
  intros Hch%plain_name_spec Hnet%json_name_plain Hf1 Hf2 Hd.
  pose proof plain_deployments as Hdep.
  unfold writeManifest, manifest_file, manifest_dir in *.
  change ("deployments/" +:+ channel) with ("deployments" +:+ "/" +:+ channel) in *.
  rewrite (join_plain2 _ _ Hdep Hch eq_refl), (join_plain3 _ _ _ Hdep Hch Hnet eq_refl).
  unfold mbind, M_bind, fs_call, Fs.mkdirSync_recursive.
  rewrite (segments_plain2 _ _ Hdep Hch).
  cbn [Path.prefixes List.find]. rewrite Hf1.
  change ("deployments" +:+ "/" +:+ channel) with ("deployments/" +:+ channel) in *.
  rewrite Hf2. cbn beta iota zeta. cbn [fs chain log].
  unfold Fs.writeFileSync.
  change ("deployments" +:+ "/" +:+ channel +:+ "/" +:+ network +:+ ".json")
    with ("deployments" +:+ "/" +:+ channel +:+ "/" +:+ (network +:+ ".json")).
  rewrite (key_plain3 _ _ _ Hdep Hch Hnet), (dirname_plain3 _ _ _ Hdep Hch Hnet).
  unfold Fs.is_dir, Fs.is_file in *. cbn [dirs files].
  set (dir := "deployments" +:+ "/" +:+ channel).
  set (file := "deployments" +:+ "/" +:+ channel +:+ "/" +:+ (network +:+ ".json")).
  change ("deployments/" +:+ channel) with dir in *.
  change ("deployments/" +:+ channel +:+ "/" +:+ network +:+ ".json") with file in *.
  assert (Hne1 : file <> "deployments").
  { intros H%(f_equal String.length). revert H. unfold file.
    rewrite !length_append. cbn. lia. }
  assert (Hne2 : file <> dir).
  { intros H%(f_equal String.length). revert H. unfold file, dir.
    rewrite !length_append. cbn. lia. }
  assert (Hnotdir : file ∉ list_to_set ["deployments"; dir] ∪ dirs (fs w)).
  { rewrite elem_of_union, elem_of_list_to_set, !elem_of_cons, elem_of_nil.
    tauto. }
  assert (Hdir : dir ∈ list_to_set ["deployments"; dir] ∪ dirs (fs w)).
  { rewrite elem_of_union, elem_of_list_to_set, !elem_of_cons. tauto. }
  rewrite (bool_decide_eq_false_2 _ Hnotdir), (bool_decide_eq_true_2 _ Hdir), Hf2.
  change (file =? ".") with false. rewrite orb_true_r. cbn [orb negb].
  rewrite <- app_assoc. cbn [app].
  repeat f_equal. cbn [list_to_set foldr]. by rewrite (right_id_L ∅ (∪)).
Qed.

(** C8, as amended. For a channel that is one path segment and a network
    whose name holds no slash, with no file where a directory is needed
    and no directory where the file goes, the manifest writer returns,
    having made the directory deployments and the channel's directory
    below it where they were missing, and having written the text
    [JSON.stringify] gives for the record, which is its indented text (one
    member a line, two spaces a nesting level), to
    deployments/<channel>/<network>.json; a second write for the same
    channel and network returns too and leaves exactly what it would have
    left alone: the first contents are gone. *)
Theorem manifest_writer (channel : string) (first second : Deployment) (w : World) :
  Path.plain_name channel = true ->
  Str.includes "/" network = false ->
  Fs.is_file (fs w) "deployments" = false ->
  Fs.is_file (fs w) (manifest_dir channel) = false ->
  Fs.is_dir (fs w) (manifest_file channel) = false ->
  let once := writeManifest channel first w in
  let twice := writeManifest channel second once.2 in
  manifest_file channel = "deployments/" +:+ channel +:+ "/" +:+ network +:+ ".json" /\
  once.1 = Ok tt /\
  dirs (fs once.2) = {[ "deployments"; manifest_dir channel ]} ∪ dirs (fs w) /\
  files (fs once.2)
    = <[manifest_file channel := JSON.stringify first]> (files (fs w)) /\
  twice.1 = Ok tt /\
  files (fs twice.2) !! manifest_file channel = Some (JSON.stringify second) /\
  files (fs twice.2) = files (fs (writeManifest channel second w).2) /\
  (JSON.stringify first = Indented.text first /\
   JSON.stringify second = Indented.text second).
Proof.
  intros Hch Hnet Hf1 Hf2 Hd%not_a_directory once twice. subst twice once.
  cut (forall A B C D F G H I : Prop,
          I -> A /\ B /\ C /\ D /\ F /\ G /\ H ->
          A /\ B /\ C /\ D /\ F /\ G /\ H /\ I); [|tauto].
  intros Hlast. apply Hlast; [split; apply stringify_indented|]. clear Hlast.
  destruct (manifest_file_fresh channel) as [Hne1 Hne2].
  rewrite (writeManifest_plain channel first w Hch Hnet Hf1 Hf2 Hd).
  rewrite (writeManifest_plain channel second w Hch Hnet Hf1 Hf2 Hd).
  cbn [fst snd fs dirs files].
  rewrite writeManifest_plain; try assumption; cbn [fst snd fs dirs files chain log].
  - repeat split.
    + apply lookup_insert_eq.
    + apply insert_insert_eq.
  - unfold Fs.is_file in *. cbn [files]. by rewrite lookup_insert_ne.
  - unfold Fs.is_file in *. cbn [files]. by rewrite lookup_insert_ne.
  - rewrite !elem_of_union, !elem_of_singleton. tauto.
Qed.

(** ** The end-to-end scenario *)

Ltac exec_calls :=
  unfold mbind, M_bind, mret, M_ret, lift, call, emit, throw, assert,
    deployLiquity, wireOracles, resolve_wiotxAddress, default;
  cbn beta iota zeta;
  cbn [fst snd chain fs log andb negb from_option id resolve_useRealPriceFeed
       DeployParams.channel DeployParams.gasPrice DeployParams.useRealPriceFeed
       DeployParams.createUniswapPair].

(** C1, as amended. With channel ci, [useRealPriceFeed] and
    [createUniswapPair] both true: on the network testnet, which has a
    wrapped token but no oracles, the run raises (the error that the price
    feed is not supported on testnet, once the signers are listed), makes
    no deployment call and writes nothing; on the network mainnet, when the
    collaborators return, the price feed of the connected contracts is not
    the test one and nothing is in the way in the file system, the run
    succeeds, oracle wiring occurs exactly once, with the adapter address
    the adapter deployment returned, and deployments/ci/mainnet.json is
    written with the JSON text of the deployed record: its indented text,
    which has the line of the version field with the contracts' version.
    The record is the one the deployment returned, stamped with the
    version; the adapter's address is not added to it. *)
Theorem ci_scenario (gas : option number) (c : Chain) (fs0 : FS) :
  let params := DeployParams.mk "ci" gas (Some true) (Some true) in
  let out := run params c fs0 in
  (network = "testnet" ->
   is_ok out.1 = false /\
   existsb is_deployment_call (log out.2) = false /\
   fs out.2 = fs0 /\
   forall overrides signers c1,
     task_overrides gas = Ok overrides ->
     getSigners c = (Ok signers, c1) ->
     out.1 = Throw (Error "PriceFeed not supported on testnet")) /\
  (network = "mainnet" ->
   forall overrides signers c1 deployment c2 contracts adapter c3 tx c4 c5,
     task_overrides gas = Ok overrides ->
     getSigners c = (Ok signers, c1) ->
     deployAndSetupContracts (head signers) (getContractFactory useLiveVersion)
       false false (str "0xa00744882684c3e4747faefd68d283ea44099d03")
       (Some overrides) c1 = (Ok deployment, c2) ->
     let record := set_property "version" (JString contractsVersion) deployment in
     _connectToContracts (head signers) record = Ok contracts ->
     _priceFeedIsTestnet (priceFeed contracts) = false ->
     deployTellorCaller (head signers) (getContractFactory useLiveVersion)
       (str "0x88dF592F8eb5D7Bd38bFeF7dEb0fBc02cf3778a0") overrides c2
       = (Ok adapter, c3) ->
     setAddresses (priceFeed contracts)
       (str "0x5f4eC3Df9cbd43714FE2740f5E3616155c5b8419") adapter overrides c3
       = (Ok tx, c4) ->
     wait tx c4 = (Ok tt, c5) ->
     Fs.is_file fs0 "deployments" = false ->
     Fs.is_file fs0 "deployments/ci" = false ->
     Fs.is_dir fs0 "deployments/ci/mainnet.json" = false ->
     out.1 = Ok tt /\
     count is_adapter_deployment (log out.2) = 1%nat /\
     count is_setAddresses (log out.2) = 1%nat /\
     In (EvSetAddresses (priceFeed contracts)
           (str "0x5f4eC3Df9cbd43714FE2740f5E3616155c5b8419") adapter overrides
           (Ok tx)) (log out.2) /\
     files (fs out.2)
       = <["deployments/ci/mainnet.json" := JSON.stringify record]> (files fs0) /\
     own_property "version" record = Some (JString contractsVersion) /\
     JSON.stringify record = Indented.text record /\
     Str.includes_text
       (JSON.gap +:+ JSON.quote "version" +:+ ": " +:+ JSON.quote contractsVersion)
       (JSON.stringify record) = true).
Proof.
  intros params out. subst out params. split.
  - intros Hnet.
    assert (Hno : hasOracles network = false) by (rewrite Hnet; reflexivity).
    destruct (run _ c fs0) as [r w] eqn:Hrun. cbn [fst snd].
    revert r w Hrun. unfold run, deploy.
    cbn [DeployParams.useRealPriceFeed]. rewrite Hno. exec.
    all: repeat split; try reflexivity.
    all: intros; rewrite ?Hnet; first [reflexivity | congruence].
  - intros Hnet overrides signers c1 deployment c2 contracts adapter c3 tx c4 c5
      Hov Hsig Hdep record Hcon Htest Had Hset Hwait Hf1 Hf2 Hd%not_a_directory.
    subst record. set (record := set_property _ _ deployment) in *.
    assert (Hmanifest : forall w, fs w = fs0 ->
              writeManifest "ci" record w
              = (Ok tt,
                 mkWorld (chain w)
                   (mkFS ({[ "deployments"; "deployments/ci" ]} ∪ dirs fs0)
                      (<["deployments/ci/mainnet.json" := JSON.stringify record]>
                         (files fs0)))
                   (log w ++ [ EvMkdir "deployments/ci" (Ok tt);
                               EvWriteFile "deployments/ci/mainnet.json"
                                 (JSON.stringify record) (Ok tt) ]))).
    { intros w Hw. rewrite writeManifest_plain.
      - unfold manifest_file, manifest_dir. rewrite Hnet, Hw. reflexivity.
      - reflexivity.
      - rewrite Hnet. reflexivity.
      - rewrite Hw. exact Hf1.
      - rewrite Hw. exact Hf2.
      - unfold manifest_file. rewrite Hnet, Hw. exact Hd. }
    assert (Ho : hasOracles network = true) by (rewrite Hnet; reflexivity).
    assert (Hw : hasWIOTX network = true) by (rewrite Hnet; reflexivity).
    assert (Hwm : wiotx_member network
                  = str "0xa00744882684c3e4747faefd68d283ea44099d03")
      by (rewrite Hnet; reflexivity).
    assert (Hdev : String.eqb network "dev" = false) by (rewrite Hnet; reflexivity).
    assert (Ht : oracle_member tellor network
                 = Ok (str "0x88dF592F8eb5D7Bd38bFeF7dEb0fBc02cf3778a0"))
      by (rewrite Hnet; reflexivity).
    assert (Hc : oracle_member chainlink network
                 = Ok (str "0x5f4eC3Df9cbd43714FE2740f5E3616155c5b8419"))
      by (rewrite Hnet; reflexivity).
    clear Hnet. unfold run, deploy. subst record.
    repeat (exec_calls;
            match goal with
            | H : ?x = _ |- context [?x] => rewrite H
            | |- context [writeManifest _ _ ?w] => rewrite (Hmanifest w eq_refl)
            end).
    cbn [fst snd log fs files app].
    split; [reflexivity|]. split; [reflexivity|]. split; [reflexivity|].
    split; [cbn; eauto 10|]. split; [reflexivity|].
    split; [apply own_property_set|].
    split; [apply stringify_indented|].
    apply (stringify_member "version" (JString contractsVersion)),
      set_property_member.
Qed.

End TaskFacts.

(** ** The accounts of the dev network *)

Lemma fill_accounts_spec (random_key : nat -> string) (remaining : nat) :
  forall (filled : list (option string)) (drawn : nat),
    fill_accounts random_key remaining (length filled)
      (filled ++ replicate remaining None) drawn
    = (filled ++ ((fun i => Some (random_key i)) <$> seq drawn remaining),
       (drawn + remaining)%nat).
Proof.
  induction remaining as [|remaining IH]; intros filled drawn.
  - cbn. by rewrite Nat.add_0_r.
  - cbn [fill_accounts createRandom replicate seq fmap list_fmap].
    rewrite insert_app_r_alt by lia. rewrite Nat.sub_diag. cbn [insert list_insert].
    rewrite (cons_middle (Some (random_key drawn))), app_assoc.
    replace (S (length filled)) with (length (filled ++ [Some (random_key drawn)]))
      by (rewrite length_app; cbn; lia).
    rewrite IH. rewrite <- app_assoc. cbn [app]. f_equal. lia.
Qed.

Lemma generateRandomAccounts_spec (random_key : nat -> string) (n : Z) (drawn : nat) :
  (0 <= n < 2 ^ 32)%Z ->
  generateRandomAccounts random_key n drawn
  = Ok ((fun i => Some (random_key i)) <$> seq drawn (Z.to_nat n),
        (drawn + Z.to_nat n)%nat).
Proof.
  intros [Hlo Hhi]. unfold generateRandomAccounts, new_Array.
  rewrite (proj2 (Z.leb_le _ _) Hlo), (proj2 (Z.ltb_lt _ _) Hhi).
  cbn [andb mbind Result_bind result_bind]. f_equal.
  exact (fill_accounts_spec random_key (Z.to_nat n) [] drawn).
Qed.

Lemma generateRandomAccounts_range (random_key : nat -> string) (n : Z) (drawn : nat) :
  (n < 0 \/ 2 ^ 32 <= n)%Z ->
  generateRandomAccounts random_key n drawn = Throw (RangeError "Invalid array length").
Proof.
  intros Hout. unfold generateRandomAccounts, new_Array.
  assert (Hno : (0 <=? n)%Z && (n <? 2 ^ 32)%Z = false).
  { apply andb_false_iff. destruct Hout as [H|H].
    - left. by apply Z.leb_gt.
    - right. by apply Z.ltb_ge. }
  by rewrite Hno.
Qed.

Lemma config_networks_spec (key : option string) (random_key : nat -> string) :
  config_networks key random_key
  = let deployer := deployerAccount key random_key 0 in
    [ ("dev", mkNetwork "http://localhost:8545"
                (Some deployer.1 :: Some devChainRichAccount
                 :: ((fun i => Some (random_key i))
                       <$> seq deployer.2 (numAccounts - 2))));
      ("testnet", mkNetwork " https://iotex.protofire.io:443/" [Some deployer.1]);
      ("mainnet", mkNetwork " https://iotex.protofire.io:443/" [Some deployer.1]) ].
Proof.
  unfold config_networks, evaluate_networks.
  destruct (deployerAccount key random_key 0) as [deployer drawn].
  rewrite generateRandomAccounts_spec by (split; [done | reflexivity]).
  reflexivity.
Qed.

(** C9, as amended. The account list of the dev network has [numAccounts]
    = 100 entries: the deployer's key at index 0 (the configured one when
    DEPLOYER_PRIVATE_KEY is set and not empty), the fixed rich key at index
    1, and then the [numAccounts - 2] keys [generateRandomAccounts]
    returns; the evaluation of the networks does not throw. For every
    array length [n], from 0 to below [2^32], [generateRandomAccounts n]
    returns exactly [n] keys, each one drawn by its own call of the
    generator, in order, and whenever it returns it has returned as many
    keys as it was asked for; for every other whole [n] it throws the
    RangeError of [new Array]. *)
Theorem dev_account_list (key : option string) (random_key : nat -> string) :
  let accts := dev_accounts key random_key in
  let deployer := deployerAccount key random_key 0 in
  numAccounts = 100%nat /\
  evaluate_networks key random_key = Ok (config_networks key random_key) /\
  length accts = numAccounts /\
  accts !! 0%nat = Some (Some deployer.1) /\
  (forall k, key = Some k -> k <> EmptyString -> deployer.1 = k) /\
  accts !! 1%nat = Some (Some devChainRichAccount) /\
  generateRandomAccounts random_key (Z.of_nat numAccounts - 2) deployer.2
  = Ok (drop 2 accts, (deployer.2 + (numAccounts - 2))%nat) /\
  (forall n drawn,
      (0 <= n < 2 ^ 32)%Z ->
      generateRandomAccounts random_key n drawn
      = Ok ((fun i => Some (random_key i)) <$> seq drawn (Z.to_nat n),
            (drawn + Z.to_nat n)%nat)) /\
  (forall n drawn keys drawn',
      generateRandomAccounts random_key n drawn = Ok (keys, drawn') ->
      Z.of_nat (length keys) = n /\
      Forall is_Some keys /\
      drawn' = (drawn + length keys)%nat) /\
  (forall n drawn,
      (n < 0 \/ 2 ^ 32 <= n)%Z ->
      generateRandomAccounts random_key n drawn
      = Throw (RangeError "Invalid array length")).
Proof.
  intros accts deployer. subst accts deployer.
  split; [reflexivity|]. split.
  { unfold config_networks, evaluate_networks.
    destruct (deployerAccount key random_key 0) as [deployer drawn].
    by rewrite generateRandomAccounts_spec by (split; [done | reflexivity]). }
  unfold dev_accounts. rewrite config_networks_spec. cbn zeta.
  destruct (deployerAccount key random_key 0) as [deployer drawn] eqn:Hdeployer.
  cbn [own_property List.find fst snd].
  cbn [app String.eqb Ascii.eqb Bool.eqb fmap option_fmap option_map accounts].
  split; [reflexivity|].
  split; [reflexivity|]. split.
  { intros k -> Hk. unfold deployerAccount in Hdeployer.
    destruct k; [congruence|]. by injection Hdeployer as <- _. }
  split; [reflexivity|]. split.
  { rewrite generateRandomAccounts_spec by (split; [done | reflexivity]).
    reflexivity. }
  split; [intros n d; apply generateRandomAccounts_spec|].
  split; [|intros n d; apply generateRandomAccounts_range].
  intros n d keys d' Hret.
  destruct (Z_lt_dec n 0) as [Hneg|Hnn];
    [rewrite generateRandomAccounts_range in Hret by (by left); discriminate|].
  destruct (Z_le_dec (2 ^ 32) n) as [Hbig|Hok];
    [rewrite generateRandomAccounts_range in Hret by (by right); discriminate|].
  rewrite generateRandomAccounts_spec in Hret by lia.
  injection Hret as <- <-.
  rewrite length_fmap, length_seq. split; [lia|]. split; [|reflexivity].
  apply Forall_fmap, Forall_true. intros i. by eexists.
Qed.

(** * The gas price *)

(** ** Strings of digits *)

Lemma all_digits_app (a b : string) :
  Str.all_digits (a +:+ b) = Str.all_digits a && Str.all_digits b.
Proof.
  induction a as [|d a IH]; rewrite ?append_cons, ?append_nil; cbn; [reflexivity|].
  rewrite IH. apply andb_assoc.
Qed.

Lemma all_digits_includes (c : ascii) (s : string) :
  Str.is_digit c = false -> Str.all_digits s = true -> Str.includes c s = false.
Proof.
  intros Hc. induction s as [|d s IH]; cbn; [reflexivity|].
  intros [Hd Hs]%andb_prop.
  destruct (Ascii.eqb_spec d c) as [->|_]; [congruence | auto].
Qed.

Lemma skip_digits_app (a b : string) :
  Str.all_digits a = true -> Str.skip_digits (a +:+ b) = Str.skip_digits b.
Proof.
  induction a as [|d a IH]; rewrite ?append_cons, ?append_nil; cbn; [reflexivity|].
  intros [Hd Ha]%andb_prop. rewrite Hd. auto.
Qed.

Lemma all_digits_skip (s : string) :
  Str.all_digits s = true -> Str.skip_digits s = EmptyString.
Proof.
  intros H. rewrite <- (append_nil_r s). by rewrite skip_digits_app.
Qed.

Lemma all_digits_repeat (n : nat) : Str.all_digits (Str.repeat "0" n) = true.
Proof. induction n; cbn; auto. Qed.

Lemma length_repeat (c : ascii) (n : nat) : String.length (Str.repeat c n) = n.
Proof. induction n; cbn; congruence. Qed.

Lemma digits_value_from_app (acc : N) (a b : string) :
  Str.digits_value_from acc (a +:+ b)
  = Str.digits_value_from (Str.digits_value_from acc a) b.
Proof.
  revert acc. induction a as [|d a IH]; intros acc;
    rewrite ?append_cons, ?append_nil; cbn; auto.
Qed.

Lemma digits_value_from_acc (acc : N) (s : string) :
  Str.digits_value_from acc s
  = (acc * 10 ^ N.of_nat (String.length s) + Str.digits_value s)%N.
Proof.
  unfold Str.digits_value. revert acc.
  induction s as [|d s IH]; intros acc.
  - cbn. lia.
  - cbn [Str.digits_value_from String.length].
    rewrite IH, (IH (10 * 0 + _)%N), Nat2N.inj_succ, N.pow_succ_r'. lia.
Qed.

Lemma digits_value_app (a b : string) :
  Str.digits_value (a +:+ b)
  = (Str.digits_value a * 10 ^ N.of_nat (String.length b) + Str.digits_value b)%N.
Proof.
  unfold Str.digits_value at 1. rewrite digits_value_from_app.
  apply digits_value_from_acc.
Qed.

Lemma digits_value_repeat (n : nat) : Str.digits_value (Str.repeat "0" n) = 0%N.
Proof.
  unfold Str.digits_value. induction n; cbn; [reflexivity | exact IHn].
Qed.

Lemma digit_bound (c : ascii) :
  Str.is_digit c = true -> (N.of_nat (nat_of_ascii c - 48) <= 9)%N.
Proof.
  unfold Str.is_digit. intros [H1 H2]%andb_prop.
  apply Nat.leb_le in H1, H2. lia.
Qed.

Lemma digits_value_bound (s : string) :
  Str.all_digits s = true ->
  (Str.digits_value s < 10 ^ N.of_nat (String.length s))%N.
Proof.
  induction s as [|d s IH]; [cbn; lia|].
  cbn [Str.all_digits String.length]. intros [Hd Hs]%andb_prop.
  unfold Str.digits_value. cbn [Str.digits_value_from].
  rewrite digits_value_from_acc, Nat2N.inj_succ, N.pow_succ_r'.
  pose proof (digit_bound d Hd). specialize (IH Hs). nia.
Qed.

(** ** The digits of a natural number *)

Lemma of_uint_step (d : Decimal.uint) (acc : positive) :
  N.pos (Pos.of_uint_acc d acc)
  = (Pos.of_uint d + N.pos acc * 10 ^ DecimalPos.Unsigned.usize d)%N.
Proof.
  rewrite DecimalPos.Unsigned.of_uint_acc_rev, DecimalPos.Unsigned.of_uint_alt.
  reflexivity.
Qed.

Lemma digits_value_of_uint (d : Decimal.uint) (acc : N) :
  Str.digits_value_from acc (DecimalString.NilEmpty.string_of_uint d)
  = (acc * 10 ^ DecimalPos.Unsigned.usize d + Pos.of_uint d)%N.
Proof.
  revert acc. induction d; intros acc;
    cbn [DecimalString.NilEmpty.string_of_uint Str.digits_value_from
         DecimalPos.Unsigned.usize Pos.of_uint];
    [ cbn; lia | .. ];
    rewrite IHd, ?of_uint_step, N.pow_succ_r' by lia;
    match goal with
    | |- context [N.of_nat ?n] =>
        let v := eval vm_compute in (N.of_nat n) in change (N.of_nat n) with v
    end; ring.
Qed.

Lemma digits_of_value (n : N) : Str.digits_value (digits_of n) = n.
Proof.
  unfold Str.digits_value, digits_of. rewrite digits_value_of_uint.
  change (Pos.of_uint (N.to_uint n)) with (N.of_uint (N.to_uint n)).
  rewrite DecimalN.Unsigned.of_to. lia.
Qed.

Lemma string_of_uint_digits (d : Decimal.uint) :
  Str.all_digits (DecimalString.NilEmpty.string_of_uint d) = true.
Proof. induction d; cbn; auto. Qed.

Lemma digits_of_digits (n : N) : Str.all_digits (digits_of n) = true.
Proof. apply string_of_uint_digits. Qed.

Lemma digits_of_not_empty (n : N) : digits_of n <> EmptyString.
Proof.
  unfold digits_of. intros H.
  pose proof (DecimalString.NilEmpty.usu (N.to_uint n)) as Hu.
  rewrite H in Hu. cbn in Hu. injection Hu as Hu.
  pose proof (DecimalN.Unsigned.of_to n) as Hn. rewrite <- Hu in Hn. cbn in Hn.
  subst n. discriminate Hu.
Qed.

Lemma BigNumber_from_digits (s : string) :
  s <> EmptyString -> Str.all_digits s = true ->
  BigNumber.from s = Ok (Z.of_N (Str.digits_value s)).
Proof.
  intros Hne Hd. unfold BigNumber.from.
  destruct s as [|c s]; [congruence|].
  assert (Hc : Ascii.eqb c "-" = false).
  { apply Ascii.eqb_neq. intros ->. discriminate Hd. }
  rewrite Hd. cbn [negb andb String.eqb].
  destruct c as [[] [] [] [] [] [] [] []]; try reflexivity; discriminate Hc.
Qed.

(** ** Prefixes *)

Lemma substring_prefix (k : nat) (s : string) :
  (k <= String.length s)%nat ->
  exists t, s = Str.substr_to k s +:+ t /\
            String.length (Str.substr_to k s) = k /\
            String.length t = (String.length s - k)%nat.
Proof.
  unfold Str.substr_to. revert s. induction k as [|k IH]; intros s Hk.
  - exists s. destruct s; cbn; repeat split; lia.
  - destruct s as [|c s]; [cbn in Hk; lia|].
    destruct (IH s) as (t & Hs & Hl & Ht); [cbn in Hk; lia|].
    exists t. cbn [String.substring String.length]. rewrite append_cons.
    repeat split; [congruence | lia | lia].
Qed.

Lemma digits_value_prefix (k : nat) (s : string) :
  (k <= String.length s)%nat -> Str.all_digits s = true ->
  Str.all_digits (Str.substr_to k s) = true /\
  String.length (Str.substr_to k s) = k /\
  Z.of_N (Str.digits_value (Str.substr_to k s))
  = (Z.of_N (Str.digits_value s) / 10 ^ Z.of_nat (String.length s - k))%Z.
Proof.
  intros Hk Hd. destruct (substring_prefix k s Hk) as (t & Hs & Hl & Ht).
  remember (Str.substr_to k s) as p eqn:Hp. clear Hp.
  rewrite <- Ht. clear Ht. subst s.
  rewrite all_digits_app in Hd. apply andb_prop in Hd as [Hp Hdt].
  repeat split; [assumption | assumption |].
  rewrite digits_value_app.
  pose proof (digits_value_bound t Hdt) as Hb.
  rewrite N2Z.inj_add, N2Z.inj_mul, N2Z.inj_pow, nat_N_Z.
  change (Z.of_N 10) with 10%Z.
  assert (Hb' : (Z.of_N (Str.digits_value t) < 10 ^ Z.of_nat (String.length t))%Z).
  { apply N2Z.inj_lt in Hb. rewrite N2Z.inj_pow, nat_N_Z in Hb. exact Hb. }
  rewrite Z.div_add_l by lia. rewrite (Z.div_small (Z.of_N _)) by lia. lia.
Qed.

(** ** Powers of ten *)

Lemma pow10_pos (n : Z) : (0 < 10 ^ n)%Z \/ (n < 0)%Z.
Proof. destruct (Z.le_gt_cases 0 n); [left; lia | right; lia]. Qed.

Lemma div_pow10_exact (a i j : Z) :
  (0 <= j <= i)%Z -> (a * 10 ^ i / 10 ^ j = a * 10 ^ (i - j))%Z.
Proof.
  intros H. replace i with ((i - j) + j)%Z at 1 by lia.
  rewrite Z.pow_add_r by lia. rewrite Z.mul_assoc.
  apply Z.div_mul. lia.
Qed.

Lemma div_pow10_cancel (a i j k : Z) :
  (0 <= i)%Z -> (0 <= j)%Z -> (0 <= k)%Z ->
  (a * 10 ^ (i + k) / 10 ^ (j + k) = a * 10 ^ i / 10 ^ j)%Z.
Proof.
  intros Hi Hj Hk. rewrite !Z.pow_add_r by lia. rewrite Z.mul_assoc.
  apply Z.div_mul_cancel_r; lia.
Qed.

(** ** Reading a rendering *)

Lemma length_not_empty (s : string) : (0 < String.length s)%nat -> s <> EmptyString.
Proof. destruct s; cbn; [lia | done]. Qed.

Lemma Decimal_new_ok (b : Z) : (0 <= b)%Z -> Decimal.new b = Ok (Decimal.mk b).
Proof.
  intros H. unfold Decimal.new.
  destruct (Z.ltb_spec b 0); [lia | reflexivity].
Qed.

(** The mantissa of eighteen digits that [_fromString] makes of a fraction. *)
Lemma mantissa_value (f : string) :
  Str.all_digits f = true ->
  let mantissa :=
    if (String.length f <? Decimal.PRECISION)%nat
    then f +:+ Str.repeat "0" (Decimal.PRECISION - String.length f)
    else Str.substr_to Decimal.PRECISION f in
  BigNumber.from mantissa
  = Ok (Z.of_N (Str.digits_value f) * 10 ^ 18 / 10 ^ Z.of_nat (String.length f))%Z.
Proof.
  intros Hf mantissa. subst mantissa. unfold Decimal.PRECISION.
  destruct (Nat.ltb_spec (String.length f) 18) as [Hlt|Hge].
  - rewrite BigNumber_from_digits.
    + rewrite digits_value_app, digits_value_repeat, length_repeat, N.add_0_r.
      rewrite N2Z.inj_mul, N2Z.inj_pow, nat_N_Z. change (Z.of_N 10) with 10%Z.
      rewrite div_pow10_exact by lia. do 3 f_equal. lia.
    + apply length_not_empty. rewrite length_append, length_repeat. lia.
    + by rewrite all_digits_app, Hf, all_digits_repeat.
  - destruct (digits_value_prefix 18 f Hge Hf) as (Hd & Hl & Hv).
    rewrite BigNumber_from_digits; [|apply length_not_empty; lia|exact Hd].
    rewrite Hv. f_equal.
    replace (Z.of_nat (String.length f))
      with (Z.of_nat (String.length f - 18) + 18)%Z by lia.
    change (10 ^ 18)%Z with (10 ^ (0 + 18))%Z.
    rewrite div_pow10_cancel by lia. by rewrite Z.pow_0_r, Z.mul_1_r.
Qed.

Lemma coefficient_units_split (r : Rendering) :
  coefficient_units r
  = (Z.of_N (whole r) * 10 ^ 18
     + Z.of_N (Str.digits_value (fraction r)) * 10 ^ 18 / 10 ^ fraction_length r)%Z.
Proof.
  unfold coefficient_units, all_digits_value, fraction_length.
  set (len := Z.of_nat _). assert (0 <= len)%Z by lia.
  rewrite Z.mul_add_distr_r.
  replace (Z.of_N (whole r) * 10 ^ len * 10 ^ 18)%Z
    with (Z.of_N (whole r) * 10 ^ 18 * 10 ^ len)%Z by ring.
  rewrite Z.div_add_l by lia. reflexivity.
Qed.

Lemma coefficient_units_nonneg (r : Rendering) : (0 <= coefficient_units r)%Z.
Proof.
  unfold coefficient_units, all_digits_value, fraction_length.
  apply Z.div_pos; [|lia].
  apply Z.mul_nonneg_nonneg; [|lia].
  apply Z.add_nonneg_nonneg; [|lia].
  apply Z.mul_nonneg_nonneg; lia.
Qed.

Lemma fromPlain_coefficient (r : Rendering) :
  Str.all_digits (fraction r) = true ->
  Decimal.fromPlain (coefficient_text r) = Ok (Decimal.mk (coefficient_units r)).
Proof.
  intros Hf. pose proof (coefficient_units_nonneg r) as Hpos.
  rewrite coefficient_units_split in *.
  pose proof (digits_of_digits (whole r)) as Hw.
  pose proof (digits_of_not_empty (whole r)) as Hne.
  unfold Decimal.fromPlain, coefficient_text, fraction_length in *.
  destruct (fraction r) as [|c f] eqn:HF.
  - rewrite append_nil_r.
    rewrite (all_digits_includes "." _ eq_refl Hw). cbn [negb].
    rewrite (BigNumber_from_digits _ Hne Hw), digits_of_value.
    cbn [mbind Result_bind result_bind].
    rewrite Decimal_new_ok by (unfold Decimal.DIGITS, Decimal.TEN; cbn; lia).
    do 2 f_equal. change (Str.digits_value EmptyString) with 0%N.
    change (Z.of_N 0) with 0%Z. rewrite Z.mul_0_l, Zdiv_0_l. unfold Decimal.DIGITS, Decimal.TEN, Decimal.PRECISION. lia.
  - rewrite <- HF in *. assert (Hdot : Str.includes "." (fraction r) = false)
      by (apply all_digits_includes; [reflexivity | exact Hf]).
    rewrite includes_app. replace (Str.includes "." (String "." (fraction r))) with true
      by reflexivity.
    rewrite orb_true_r. cbn [negb].
    rewrite split_app by (apply all_digits_includes; [reflexivity | exact Hw]).
    rewrite split_plain by exact Hdot.
    rewrite (mantissa_value _ Hf).
    destruct (digits_of (whole r)) eqn:Hdig; [congruence|]. rewrite <- Hdig in *.
    rewrite (BigNumber_from_digits _ Hne Hw), digits_of_value.
    cbn [mbind Result_bind result_bind].
    change Decimal.DIGITS with (10 ^ 18)%Z.
    by rewrite Decimal_new_ok.
Qed.

Lemma substring_all (s : string) : String.substring 0 (String.length s) s = s.
Proof. induction s; cbn; congruence. Qed.

Lemma substr_from_1 (c : ascii) (s : string) : Str.substr_from 1 (String c s) = s.
Proof.
  unfold Str.substr_from. cbn [String.length Nat.sub String.substring].
  rewrite Nat.sub_0_r. apply substring_all.
Qed.

(** The text of an exponent: nothing, or [e], a sign and digits. *)
Lemma exponent_text_cases (r : Rendering) :
  (exponent r = 0%Z /\ exponent_text r = EmptyString) \/
  (0 < exponent r /\
   exponent_text r = String "e" (String "+" (digits_of (Z.to_N (exponent r)))))%Z \/
  (exponent r < 0 /\
   exponent_text r = String "e" (String "-" (digits_of (Z.to_N (- exponent r)))))%Z.
Proof.
  unfold exponent_text.
  destruct (Z.eqb_spec (exponent r) 0) as [H0|H0]; [by left|right].
  destruct (Z.ltb_spec 0 (exponent r)); [left | right]; (split; [lia | reflexivity]).
Qed.

Lemma digits_tail (d : string) :
  d <> EmptyString -> Str.all_digits d = true ->
  match d with
  | String c u =>
      Str.is_digit c && match Str.skip_digits u with
                        | EmptyString => true
                        | _ => false
                        end
  | EmptyString => false
  end = true.
Proof.
  intros Hne Hd. destruct d as [|c u]; [congruence|].
  cbn in Hd. apply andb_prop in Hd as [Hc Hu].
  by rewrite Hc, (all_digits_skip u Hu).
Qed.

Lemma matches_format_render (r : Rendering) :
  Str.all_digits (fraction r) = true ->
  Decimal.matches_format (coefficient_text r +:+ exponent_text r) = true.
Proof.
  intros Hf. unfold Decimal.matches_format, coefficient_text.
  pose proof (digits_of_digits (whole r)) as Hw.
  rewrite append_assoc, (skip_digits_app _ _ Hw).
  assert (Htail : forall t,
    (t = EmptyString \/ exists sign d, t = String "e" (String sign d) /\
       (sign = "+" \/ sign = "-")%char /\ d <> EmptyString /\ Str.all_digits d = true) ->
    match Str.skip_digits t with
    | EmptyString => true
    | String "e" q =>
        match match q with
              | String "-" u => u
              | String "+" u => u
              | _ => q
              end with
        | String c u =>
            Str.is_digit c && match Str.skip_digits u with
                              | EmptyString => true
                              | _ => false
                              end
        | EmptyString => false
        end
    | _ => false
    end = true /\
    match Str.skip_digits t with String "." _ => False | _ => True end).
  { intros t [->|(sign & d & -> & Hsign & Hne & Hd)]; [by split|].
    cbn [Str.skip_digits Str.is_digit nat_of_ascii]. cbn.
    split; [|exact I].
    pose proof (digits_tail d Hne Hd) as Ht.
    destruct Hsign as [-> | ->]; exact Ht. }
  assert (Hexp : exponent_text r = EmptyString \/
                 exists sign d, exponent_text r = String "e" (String sign d) /\
                   (sign = "+" \/ sign = "-")%char /\ d <> EmptyString /\
                   Str.all_digits d = true).
  { destruct (exponent_text_cases r) as [[_ ->]|[[_ ->]|[_ ->]]]; [by left|right..].
    - eexists _, _. repeat split; [by left | apply digits_of_not_empty | apply digits_of_digits].
    - eexists _, _. repeat split; [by right | apply digits_of_not_empty | apply digits_of_digits]. }
  destruct (Htail _ Hexp) as [Hok Hnodot].
  destruct (fraction r) as [|c f] eqn:HF.
  - rewrite append_nil.
    destruct (Str.skip_digits (exponent_text r)) as [|a q]; [reflexivity|].
    destruct (Ascii.eqb_spec a ".") as [->|Hne]; [contradiction|].
    destruct a as [[] [] [] [] [] [] [] []]; try exact Hok; congruence.
  - rewrite append_cons.
    change (Str.skip_digits (String "." (String c f +:+ exponent_text r)))
      with (String "." (String c f +:+ exponent_text r)).
    cbn iota beta. rewrite (skip_digits_app _ _ Hf). exact Hok.
Qed.

Lemma coefficient_text_shape (r : Rendering) :
  Str.all_digits (fraction r) = true ->
  coefficient_text r <> EmptyString /\
  Str.includes "e" (coefficient_text r) = false /\
  Decimal.rejected (coefficient_text r) = false.
Proof.
  intros Hf. pose proof (digits_of_not_empty (whole r)) as Hne.
  pose proof (digits_of_digits (whole r)) as Hw.
  assert (Hnonempty : coefficient_text r <> EmptyString).
  { unfold coefficient_text. destruct (digits_of (whole r)); [congruence|].
    rewrite append_cons. done. }
  repeat split; [exact Hnonempty | |].
  - unfold coefficient_text. rewrite includes_app.
    rewrite (all_digits_includes "e" _ eq_refl Hw). cbn [orb].
    destruct (fraction r) eqn:HF; [reflexivity|]. rewrite <- HF in *.
    change (Str.includes "e" (String "." (fraction r)))
      with (Str.includes "e" (fraction r)).
    by apply all_digits_includes.
  - pose proof (matches_format_render (mkRendering (whole r) (fraction r) 0) Hf) as H.
    change (exponent_text _) with EmptyString in H.
    change (coefficient_text (mkRendering _ _ _)) with (coefficient_text r) in H.
    rewrite append_nil_r in H. unfold Decimal.rejected.
    destruct (coefficient_text r); [congruence|]. by rewrite H.
Qed.

Lemma pow10_positive (n : N) : (0 < Decimal.TEN ^ Z.of_N n)%Z.
Proof. unfold Decimal.TEN. apply Z.pow_pos_nonneg; lia. Qed.

(** [Decimal.from] reads a rendering as its value in units of [10^-18],
    rounding down where it divides. *)
Lemma Decimal_from_render (r : Rendering) :
  Str.all_digits (fraction r) = true ->
  Decimal.from (render r)
  = Ok (Decimal.mk (if (0 <=? exponent r)%Z
                    then coefficient_units r * 10 ^ exponent r
                    else coefficient_units r / 10 ^ (- exponent r))%Z).
Proof.
  intros Hf. destruct (coefficient_text_shape r Hf) as (Hne & Hnoe & Hrej).
  pose proof (coefficient_units_nonneg r) as Hpos.
  pose proof (matches_format_render r Hf) as Hfmt.
  unfold Decimal.from, render, toString, Decimal._fromString.
  assert (Hacc : Decimal.rejected (coefficient_text r +:+ exponent_text r) = false).
  { unfold Decimal.rejected. rewrite Hfmt.
    destruct (coefficient_text r); [congruence|]. by rewrite append_cons. }
  rewrite Hacc, includes_app, Hnoe. cbn [orb].
  destruct (exponent_text_cases r) as [[He ->]|[[He ->]|[He ->]]].
  - rewrite append_nil_r. cbn [Str.includes].
    rewrite fromPlain_coefficient by exact Hf.
    rewrite He. cbn [Z.leb Z.compare Z.pow]. by rewrite Z.mul_1_r.
  - change (Str.includes "e" (String "e" _)) with true. cbn iota.
    rewrite split_app by exact Hnoe.
    rewrite split_plain
      by (change (Str.includes "e" (String "+" ?d)) with (Str.includes "e" d);
          apply all_digits_includes; [reflexivity | apply digits_of_digits]).
    rewrite Hrej, fromPlain_coefficient by exact Hf.
    cbn [mbind Result_bind result_bind Str.startsWith Decimal._bigNumber].
    change (Ascii.eqb "+" "-") with false. change (Ascii.eqb "+" "+") with true.
    cbn iota. rewrite substr_from_1.
    rewrite BigNumber_from_digits
      by (first [apply digits_of_not_empty | apply digits_of_digits]).
    rewrite digits_of_value, Z2N.id by lia. cbn [mbind Result_bind result_bind].
    assert (Hpow : (0 < 10 ^ exponent r)%Z) by (apply Z.pow_pos_nonneg; lia).
    unfold Decimal.TEN. rewrite Decimal_new_ok by nia.
    destruct (Z.leb_spec 0 (exponent r)); [reflexivity | lia].
  - change (Str.includes "e" (String "e" _)) with true. cbn iota.
    rewrite split_app by exact Hnoe.
    rewrite split_plain
      by (change (Str.includes "e" (String "-" ?d)) with (Str.includes "e" d);
          apply all_digits_includes; [reflexivity | apply digits_of_digits]).
    rewrite Hrej, fromPlain_coefficient by exact Hf.
    cbn [mbind Result_bind result_bind Str.startsWith Decimal._bigNumber].
    change (Ascii.eqb "-" "-") with true. cbn iota. rewrite substr_from_1.
    rewrite BigNumber_from_digits
      by (first [apply digits_of_not_empty | apply digits_of_digits]).
    rewrite digits_of_value, Z2N.id by lia. cbn [mbind Result_bind result_bind].
    assert (Hpow : (0 < 10 ^ (- exponent r))%Z) by (apply Z.pow_pos_nonneg; lia).
    unfold BigNumber.div, Decimal.TEN.
    destruct (Z.eqb_spec (10 ^ (- exponent r)) 0) as [H0|_]; [lia|].
    cbn [mbind Result_bind result_bind]. rewrite Z.quot_div_nonneg by lia.
    rewrite Decimal_new_ok by (apply Z.div_pos; lia).
    destruct (Z.leb_spec 0 (exponent r)); [lia | reflexivity].
Qed.

(** Dividing by [10^9] a value kept in units of [10^-18] leaves it in
    units of [10^-9]: Gwei become wei. *)
Lemma Decimal_div_gwei (b : Z) :
  (0 <= b)%Z ->
  Decimal.div (Decimal.mk b) (Num "1000000000") = Ok (Decimal.mk (b / 10 ^ 9)).
Proof.
  intros Hb. unfold Decimal.div.
  change (Decimal.from (Num "1000000000"))
    with (Ok (Decimal.mk (10 ^ 9 * 10 ^ 18))).
  assert (Hz : (10 ^ 9 * 10 ^ 18 =? 0)%Z = false) by reflexivity.
  unfold mbind, Result_bind, result_bind, Decimal.isZero, BigNumber.div.
  cbn [Decimal._bigNumber]. rewrite Hz.
  change Decimal.DIGITS with (10 ^ 18)%Z.
  rewrite Z.quot_div_nonneg by lia.
  rewrite Z.div_mul_cancel_r by lia.
  apply Decimal_new_ok, Z.div_pos; lia.
Qed.

(** A power of ten over a power of ten. *)
Lemma div_pow10 (a i j : Z) :
  (0 <= i)%Z -> (0 <= j)%Z ->
  (a * 10 ^ i / 10 ^ j)%Z
  = if (j <=? i)%Z then (a * 10 ^ (i - j))%Z else (a / 10 ^ (j - i))%Z.
Proof.
  intros Hi Hj. destruct (Z.leb_spec j i) as [H|H].
  - apply div_pow10_exact. lia.
  - replace i with (0 + i)%Z at 1 by lia.
    replace j with ((j - i) + i)%Z at 1 by lia.
    rewrite div_pow10_cancel by lia. by rewrite Z.pow_0_r, Z.mul_1_r.
Qed.

(** The arithmetic of the two roundings: the value in units of [10^-18],
    scaled by the exponent, then taken to units of [10^-9]. *)
Lemma wei_of_units (r : Rendering) :
  (0 < exponent r -> fraction_length r <= 18)%Z ->
  ((if (0 <=? exponent r)%Z
    then coefficient_units r * 10 ^ exponent r
    else coefficient_units r / 10 ^ (- exponent r)) / 10 ^ 9)%Z
  = wei_of r.
Proof.
  unfold wei_of, coefficient_units, fraction_length.
  set (len := Z.of_nat _). set (m := all_digits_value r). set (e := exponent r).
  assert (Hlen : (0 <= len)%Z) by lia. clearbody len m e.
  intros Hexact.
  destruct (Z.leb_spec 0%Z e) as [He|He].
  - rewrite Z.max_l, Z.max_r by lia. rewrite Z.add_0_r.
    rewrite (div_pow10 m (9 + e)%Z len) by lia.
    destruct (Z.eq_dec e 0%Z) as [->|H0].
    + rewrite Z.pow_0_r, Z.mul_1_r, Z.div_div, <- Z.pow_add_r by lia.
      rewrite (div_pow10 m 18%Z (len + 9)%Z) by lia.
      destruct (Z.leb_spec (len + 9)%Z 18%Z), (Z.leb_spec len (9 + 0)%Z);
        try lia; do 2 f_equal; lia.
    + rewrite (div_pow10_exact m 18%Z len) by lia.
      rewrite <- Z.mul_assoc, <- Z.pow_add_r by lia.
      rewrite (div_pow10 m (18 - len + e)%Z 9%Z) by lia.
      destruct (Z.leb_spec 9%Z (18 - len + e)%Z), (Z.leb_spec len (9 + e)%Z);
        try lia; do 2 f_equal; lia.
  - rewrite Z.max_r, Z.max_l by lia. rewrite Z.add_0_r.
    rewrite !Z.div_div, <- !Z.pow_add_r by lia.
    rewrite (div_pow10 m 18%Z (len + (- e + 9))%Z), (div_pow10 m 9%Z (len + - e)%Z) by lia.
    destruct (Z.leb_spec (len + (- e + 9))%Z 18%Z), (Z.leb_spec (len + - e)%Z 9%Z);
      try lia; do 2 f_equal; lia.
Qed.

Lemma render_overrides (r : Rendering) :
  Str.all_digits (fraction r) = true ->
  (0 < exponent r -> fraction_length r <= 18)%Z ->
  number_truthy (render r) = true ->
  task_overrides (Some (render r))
  = Ok (mkOverrides (gas_hex (BigNumber.toHexString (wei_of r)))).
Proof.
  intros Hf Hexact Htruthy. unfold task_overrides.
  rewrite Htruthy, (Decimal_from_render r Hf).
  cbn [mbind Result_bind result_bind].
  rewrite Decimal_div_gwei.
  - cbn [result_bind]. unfold Decimal.hex. cbn [Decimal._bigNumber].
    by rewrite (wei_of_units r Hexact).
  - pose proof (coefficient_units_nonneg r).
    destruct (Z.leb_spec 0 (exponent r)).
    + apply Z.mul_nonneg_nonneg; [lia | apply Z.pow_nonneg; lia].
    + apply Z.div_pos; [lia | apply Z.pow_pos_nonneg; lia].
Qed.

Lemma render_truthy (r : Rendering) :
  Str.all_digits (fraction r) = true ->
  render r <> Num "0" -> number_truthy (render r) = true.
Proof.
  intros Hf Hnz. unfold number_truthy.
  destruct (String.eqb_spec (toString (render r)) "0") as [H0|_].
  { destruct Hnz. unfold render in *. cbn [toString] in H0. by rewrite H0. }
  destruct (String.eqb_spec (toString (render r)) "NaN") as [HN|_]; [|reflexivity].
  pose proof (matches_format_render r Hf) as Hfmt.
  unfold render in HN. cbn [toString] in HN. rewrite HN in Hfmt. discriminate Hfmt.
Qed.

(** C2, as amended. For every provided gas price other than zero, given
    as the rendering of a finite number that is not negative (and, with a
    positive exponent, of at most eighteen digits after the point), the
    gas price of the task's overrides is the hex encoding of its value in
    wei, rounded down to whole wei, and that is the gas price every call
    with overrides is given; in particular 20 yields the hex encoding of
    20000000000. *)
Theorem gas_price_in_wei (r : Rendering) :
  Str.all_digits (fraction r) = true ->
  (0 < exponent r -> fraction_length r <= 18)%Z ->
  render r <> Num "0" ->
  task_overrides (Some (render r))
    = Ok (mkOverrides (gas_hex (BigNumber.toHexString (wei_of r)))) /\
  (forall (E : Env) channel feed pair c fs0 ev,
      In ev (log (run (DeployParams.mk channel (Some (render r)) feed pair) c fs0).2) ->
      event_gasPrice ev = None \/
      event_gasPrice ev = Some (gas_hex (BigNumber.toHexString (wei_of r)))) /\
  task_overrides (Some (Num "20"))
    = Ok (mkOverrides (gas_hex (BigNumber.toHexString 20000000000))) /\
  BigNumber.toHexString 20000000000 = "0x04a817c800".
Proof.
  intros Hf Hexact Hnz.
  pose proof (render_overrides r Hf Hexact (render_truthy r Hf Hnz)) as Hov.
  repeat split; [exact Hov|].
  intros E channel feed pair c fs0 ev Hin.
  destruct (overrides_passed_on _ _ _ _ Hin) as [H|(ov & Hov' & H)]; [by left|].
  cbn [DeployParams.gasPrice] in Hov'. rewrite Hov in Hov'.
  injection Hov' as <-. by right.
Qed.

(** C10. When the gas price is left out, the gas price of the overrides is
    [undefined]; when it is zero (or any other falsy number) it is that
    number itself, not a hex string: a zero gas price is never converted.
    These are the overrides every call of the run is given. *)
Theorem falsy_gas_price_is_not_converted :
  task_overrides None = Ok (mkOverrides gas_undefined) /\
  task_overrides (Some (Num "0")) = Ok (mkOverrides (gas_number (Num "0"))) /\
  (forall g, number_truthy g = false ->
             task_overrides (Some g) = Ok (mkOverrides (gas_number g))) /\
  (forall (E : Env) channel feed pair c fs0 ev,
      In ev (log (run (DeployParams.mk channel None feed pair) c fs0).2) ->
      event_gasPrice ev = None \/ event_gasPrice ev = Some gas_undefined) /\
  (forall (E : Env) channel feed pair c fs0 ev,
      In ev (log (run (DeployParams.mk channel (Some (Num "0")) feed pair) c fs0).2) ->
      event_gasPrice ev = None \/ event_gasPrice ev = Some (gas_number (Num "0"))).
Proof.
  repeat split.
  - intros g Hg. unfold task_overrides. by rewrite Hg.
  - intros E channel feed pair c fs0 ev Hin.
    destruct (overrides_passed_on _ _ _ _ Hin) as [H|(ov & [= <-] & H)]; auto.
  - intros E channel feed pair c fs0 ev Hin.
    destruct (overrides_passed_on _ _ _ _ Hin) as [H|(ov & [= <-] & H)]; auto.
Qed.

(** * The claims at concrete inputs *)

(** C1 as stated fails: on testnet, whose name is no key of
    [oracleAddresses], the run with channel ci and both options true
    raises before any deployment, wires nothing and writes no file. *)
Lemma ci_scenario_fails_on_testnet :
  let out := @run (Mock.env "testnet" []) (Mock.params None (Some true) (Some true))
               0%nat Mock.empty_fs in
  hasOracles "testnet" = false /\
  hasWIOTX "testnet" = true /\
  out.1 = Throw (Error "PriceFeed not supported on testnet") /\
  ~ (is_ok out.1 = true /\
     count is_adapter_deployment (log out.2) = 1%nat /\
     is_Some (files (fs out.2) !! "deployments/ci/testnet.json")).
Proof.
  vm_compute. repeat split. intros (H & _). discriminate H.
Qed.

(** The same run on mainnet, with collaborators that return. *)
Lemma ci_scenario_witness :
  let E := Mock.env "mainnet" [] in
  let out := @run E (Mock.params None (Some true) (Some true)) 0%nat Mock.empty_fs in
  let text := mock_manifest_text "2f3a9be" false false false in
  out.1 = Ok tt /\
  count is_adapter_deployment (log out.2) = 1%nat /\
  count is_setAddresses (log out.2) = 1%nat /\
  In (@EvSetAddresses E false (str "0x5f4eC3Df9cbd43714FE2740f5E3616155c5b8419")
        "0xTellorCaller" (mkOverrides gas_undefined) (Ok "0xTx")) (log out.2) /\
  files (fs out.2) = <["deployments/ci/mainnet.json" := text]> ∅ /\
  Str.includes_text ("  " +:+ quoted "version" +:+ ": " +:+ quoted "2f3a9be") text
  = true /\
  Str.includes_text "0xTellorCaller" text = false.
Proof.
  intros E out text.
  destruct (proj2 (@ci_scenario (Mock.env "mainnet" []) None 0%nat Mock.empty_fs)
              eq_refl (mkOverrides gas_undefined) ["0xDeployer"; "0xOther"] 0%nat
              (Mock.deployment false false
                 (str "0xa00744882684c3e4747faefd68d283ea44099d03"))
              10%nat false "0xTellorCaller" 11%nat "0xTx" 11%nat 12%nat
              eq_refl eq_refl eq_refl eq_refl eq_refl eq_refl eq_refl eq_refl
              eq_refl eq_refl eq_refl)
    as (H1 & H2 & H3 & H4 & H5 & _ & _ & H8).
  split; [exact H1|]. split; [exact H2|]. split; [exact H3|]. split; [exact H4|].
  split; [exact H5|]. split; [exact H8 | reflexivity].
Defined.

(** C2 as stated fails at zero: a gas price of 0 is provided, and the
    overrides hold the number 0, not the hex encoding of 0 wei. *)
Lemma zero_gas_price_is_not_hex :
  task_overrides (Some (Num "0")) = Ok (mkOverrides (gas_number (Num "0"))) /\
  task_overrides (Some (Num "0"))
  <> Ok (mkOverrides (gas_hex (BigNumber.toHexString (0 * 1000000000)))).
Proof. split; [reflexivity | discriminate]. Qed.

Lemma gas_price_in_wei_witness :
  render (mkRendering 1 "5" 0) = Num "1.5" /\
  wei_of (mkRendering 1 "5" 0) = 1500000000%Z /\
  task_overrides (Some (Num "1.5")) = Ok (mkOverrides (gas_hex "0x59682f00")).
Proof.
  split; [reflexivity|]. split; [reflexivity|].
  apply (gas_price_in_wei (mkRendering 1 "5" 0)).
  - reflexivity.
  - cbn. lia.
  - discriminate.
Defined.



(** C4 as stated fails where the listing of the signers throws: the run on
    dev with the real price feed asked for raises what the listing threw,
    an error that does not name the network. *)
Lemma real_price_feed_error_is_not_always_the_guard :
  let E := Mock.env "dev" [Mock.signers_fail] in
  let out := @run E (Mock.params None (Some true) None) 0%nat Mock.empty_fs in
  hasOracles "dev" = false /\
  out.1 = Throw (Error "could not detect network") /\
  ~ (exists message,
        out.1 = Throw (Error message) /\ Str.includes_text "dev" message = true).
Proof.
  split; [reflexivity|]. split; [reflexivity|].
  intros (message & Hthrown & Hnames). vm_compute in Hthrown.
  injection Hthrown as <-. discriminate Hnames.
Qed.

(** C5 as stated fails in the same way, with the Uniswap pair asked for. *)
Lemma uniswap_pair_error_is_not_always_the_guard :
  let E := Mock.env "dev" [Mock.signers_fail] in
  let out := @run E (Mock.params None (Some false) (Some true)) 0%nat Mock.empty_fs in
  hasWIOTX "dev" = false /\
  out.1 = Throw (Error "could not detect network") /\
  ~ (exists message,
        out.1 = Throw (Error message) /\ Str.includes_text "dev" message = true).
Proof.
  split; [reflexivity|]. split; [reflexivity|].
  intros (message & Hthrown & Hnames). vm_compute in Hthrown.
  injection Hthrown as <-. discriminate Hnames.
Qed.

(** C8 as stated fails where something is in the way or a name is not one
    path segment. With a file called deployments, the writer throws and
    leaves the file system as it was. On a network called a/b the
    directory deployments/ci/a of the manifest is not made, and the write
    throws. With the channel [..] the manifest goes to testnet.json in the
    working directory, and no directory deployments is made. *)
Lemma manifest_writer_can_fail :
  let record := Mock.deployment true false undefined in
  let blocked := mkFS ∅ {[ "deployments" := "a file" ]} in
  let out1 := @writeManifest (Mock.env "testnet" []) "ci" record
                (@mkWorld (Mock.env "testnet" []) 0%nat blocked []) in
  let out2 := @writeManifest (Mock.env "a/b" []) "ci" record
                (@mkWorld (Mock.env "a/b" []) 0%nat Mock.empty_fs []) in
  let out3 := @writeManifest (Mock.env "testnet" []) ".." record
                (@mkWorld (Mock.env "testnet" []) 0%nat Mock.empty_fs []) in
  (out1.1 = Throw (SystemError "ENOTDIR" "deployments/ci") /\
   fs out1.2 = blocked /\
   ~ (is_ok out1.1 = true /\
      is_Some (files (fs out1.2) !! "deployments/ci/testnet.json"))) /\
  (out2.1 = Throw (SystemError "ENOENT" "deployments/ci/a/b.json") /\
   files (fs out2.2) = ∅ /\
   ~ (is_ok out2.1 = true /\
      is_Some (files (fs out2.2) !! "deployments/ci/a/b.json"))) /\
  (out3.1 = Ok tt /\
   is_Some (files (fs out3.2) !! "testnet.json") /\
   files (fs out3.2) !! "deployments/../testnet.json" = None /\
   bool_decide ("deployments" ∈ dirs (fs out3.2)) = false).
Proof.
  split; [|split].
  - split; [reflexivity|]. split; [reflexivity|]. intros [H _]. discriminate H.
  - split; [reflexivity|]. split; [reflexivity|]. intros [H _]. discriminate H.
  - split; [reflexivity|]. split; [vm_compute; by eexists|].
    split; reflexivity.
Qed.

(** C9 as stated fails at an [n] that is no array length: at [2^32] the
    array cannot be made, and [generateRandomAccounts] throws and returns
    no keys. *)
Lemma generateRandomAccounts_fails_at_2_32 :
  let random_key := fun i : nat => Str.repeat "k"%char i in
  generateRandomAccounts random_key (2 ^ 32) 0
  = Throw (RangeError "Invalid array length") /\
  ~ (exists keys drawn,
        generateRandomAccounts random_key (2 ^ 32) 0 = Ok (keys, drawn) /\
        Z.of_nat (length keys) = (2 ^ 32)%Z).
Proof.
  split; [reflexivity|]. intros (keys & drawn & H & _). discriminate H.
Qed.

Lemma real_price_feed_needs_oracles_witness :
  let E := Mock.env "dev" [] in
  let out := @run E (Mock.params None (Some true) None) 0%nat Mock.empty_fs in
  hasOracles "dev" = false /\
  is_ok out.1 = false /\
  existsb is_deployment_call (log out.2) = false /\
  fs out.2 = Mock.empty_fs /\
  out = (Throw (Error "PriceFeed not supported on dev"),
         @mkWorld E 0%nat Mock.empty_fs [EvGetSigners (Ok ["0xDeployer"; "0xOther"])]).
Proof.
  split; [reflexivity|].
  destruct (@real_price_feed_needs_oracles (Mock.env "dev" [])
              (Mock.params None (Some true) None) 0%nat Mock.empty_fs
              eq_refl eq_refl) as (H1 & H2 & H3 & H4 & _).
  split; [exact H1|]. split; [exact H2|]. split; [exact H3|].
  exact (H4 (mkOverrides gas_undefined) ["0xDeployer"; "0xOther"] 0%nat
            eq_refl eq_refl).
Defined.

Lemma uniswap_pair_needs_wrapped_token_witness :
  let E := Mock.env "dev" [] in
  let out := @run E (Mock.params None (Some false) (Some true)) 0%nat Mock.empty_fs in
  hasWIOTX "dev" = false /\
  is_ok out.1 = false /\
  existsb is_deployment_call (log out.2) = false /\
  out.1 = Throw (Error "WETH not deployed on dev").
Proof.
  split; [reflexivity|].
  destruct (proj1 (@uniswap_pair_needs_wrapped_token (Mock.env "dev" [])
                     (Mock.params None (Some false) (Some true)) 0%nat Mock.empty_fs)
              eq_refl eq_refl) as (H1 & H2 & _ & H4 & _).
  split; [exact H1|]. split; [exact H2|].
  exact (f_equal fst (H4 (mkOverrides gas_undefined) ["0xDeployer"; "0xOther"] 0%nat
                         eq_refl eq_refl)).
Defined.

Lemma manifest_written_last_witness :
  let E := Mock.env "mainnet" [Mock.adapter_fails] in
  let out := @run E (Mock.params None None None) 0%nat Mock.empty_fs in
  out.1 = Throw Mock.refused /\
  wiring_executed (log out.2) = true /\
  files (fs out.2) = ∅.
Proof.
  split; [reflexivity|]. split; [reflexivity|].
  exact (proj1 (@manifest_written_last (Mock.env "mainnet" [Mock.adapter_fails])
                  (Mock.params None None None) 0%nat Mock.empty_fs) eq_refl).
Defined.

Lemma manifest_writer_witness :
  let E := Mock.env "testnet" [] in
  let w := @mkWorld E 0%nat Mock.empty_fs [] in
  let first := Mock.deployment true false undefined in
  let second := Mock.deployment false false undefined in
  let once := writeManifest "ci" first w in
  let twice := writeManifest "ci" second once.2 in
  @manifest_file E "ci" = "deployments/ci/testnet.json" /\
  once.1 = Ok tt /\
  files (fs once.2) !! "deployments/ci/testnet.json"
  = Some (mock_manifest_text "unknown" true true false) /\
  twice.1 = Ok tt /\
  files (fs twice.2) !! "deployments/ci/testnet.json"
  = Some (mock_manifest_text "unknown" false true false) /\
  JSON.stringify sample_record = sample_text.
Proof.
  intros E w first second once twice.
  destruct (@manifest_writer E "ci" first second w
              eq_refl eq_refl eq_refl eq_refl eq_refl)
    as (H1 & H2 & _ & H4 & H5 & H6 & _).
  split; [exact H1|]. split; [exact H2|].
  split; [fold once in H4; rewrite H4; apply lookup_insert_eq|].
  split; [exact H5|]. split; [exact H6 | reflexivity].
Defined.

(** * The rest of the module *)

(** ** The live-version switch *)

Lemma length_toLowerCase (s : string) :
  String.length (Config.toLowerCase s) = String.length s.
Proof. induction s; cbn; congruence. Qed.

Lemma lower_char_idem (c : ascii) :
  Config.lower_char (Config.lower_char c) = Config.lower_char c.
Proof. destruct c as [[] [] [] [] [] [] [] []]; reflexivity. Qed.

Lemma toLowerCase_idem (s : string) :
  Config.toLowerCase (Config.toLowerCase s) = Config.toLowerCase s.
Proof. induction s; cbn; [reflexivity|]. by rewrite lower_char_idem, IHs. Qed.

(** X1. The live version of the contracts is off when USE_LIVE_VERSION is
    not set, and otherwise exactly when its value is false or no in any
    mix of upper and lower case, or 0; so the empty value, and every value
    longer than five characters, turns it on. The version file is
    live/version when it is on and ../contracts/artifacts/version when it
    is off, and the artifacts and the cache lie below ../contracts. *)
Theorem useLiveVersion_switch :
  Config.useLiveVersion None = false /\
  Config.useLiveVersion (Some EmptyString) = true /\
  (forall v, Config.useLiveVersion (Some v) = false <->
             Config.toLowerCase v = "false" \/ Config.toLowerCase v = "no" \/ v = "0") /\
  (forall v, Config.useLiveVersion (Some (Config.toLowerCase v))
             = Config.useLiveVersion (Some v)) /\
  (forall v, (5 < String.length v)%nat -> Config.useLiveVersion (Some v) = true) /\
  (forall v, Config.versionFile v
             = if Config.useLiveVersion v then "live/version"
               else "../contracts/artifacts/version") /\
  Config.artifacts = "../contracts/artifacts" /\
  Config.cache = "../contracts/cache".
Proof.
  split; [reflexivity|]. split; [reflexivity|].
  split.
  { intros v. unfold Config.useLiveVersion, Config.useLiveVersionEnv.
    cbn [existsb]. rewrite negb_false_iff, orb_false_r, !orb_true_iff, !String.eqb_eq.
    split; (intros [H|[H|H]]; [by left | by right; left | right; right]).
    - destruct v as [|c [|d v]]; try discriminate H.
      cbn in H. injection H as H.
      destruct c as [[] [] [] [] [] [] [] []]; try discriminate H; reflexivity.
    - by rewrite H. }
  split.
  { intros v. unfold Config.useLiveVersion, Config.useLiveVersionEnv.
    by rewrite toLowerCase_idem. }
  split.
  { intros v Hlen. unfold Config.useLiveVersion, Config.useLiveVersionEnv.
    cbn [existsb]. rewrite !eqb_length; [reflexivity|..];
      rewrite length_toLowerCase; cbn; lia. }
  split.
  { intros v. unfold Config.versionFile.
    destruct (Config.useLiveVersion v); reflexivity. }
  split; reflexivity.
Qed.

(** ** Object literals *)

Lemma own_property_cons {V} (key k : string) (v : V) (obj : list (string * V)) :
  own_property key ((k, v) :: obj)
  = if String.eqb k key then Some v else own_property key obj.
Proof. unfold own_property. cbn. by destruct (String.eqb k key). Qed.

Lemma own_property_nil {V} (key : string) : own_property key (@nil (string * V)) = None.
Proof. reflexivity. Qed.

Lemma own_property_keys {V} (key : string) (obj : list (string * V)) :
  is_Some (own_property key obj) <-> key ∈ obj.*1.
Proof.
  induction obj as [|[k v] obj IH].
  - rewrite own_property_nil. cbn. split; [by intros [? ?] | by intros ?%elem_of_nil].
  - rewrite own_property_cons. cbn [fmap list_fmap fst]. rewrite elem_of_cons.
    destruct (String.eqb_spec k key) as [->|Hne].
    + split; [by left | by eauto].
    + rewrite IH. split; [by right | intros [->|?]; [congruence | done]].
Qed.

Lemma js_in_spec {V} (key : string) (obj : list (string * V)) :
  js_in key obj = true <-> key ∈ obj.*1 ++ Object_prototype.
Proof.
  unfold js_in. rewrite elem_of_app, <- own_property_keys.
  destruct (own_property key obj) as [v|].
  - split; [by left; eauto | done].
  - rewrite bool_decide_eq_true. split; [by right | intros [[? [=]]|?]; done].
Qed.

Lemma own_property_set_other {V} (key k : string) (v : V) (obj : list (string * V)) :
  k <> key -> own_property k (set_property key v obj) = own_property k obj.
Proof.
  intros Hne. induction obj as [|[k' x] obj IH]; cbn [set_property].
  - rewrite own_property_cons, own_property_nil.
    destruct (String.eqb_spec key k); [congruence | reflexivity].
  - destruct (String.eqb_spec k' key) as [->|Hk'].
    + rewrite !own_property_cons.
      destruct (String.eqb_spec key k); [congruence | reflexivity].
    + rewrite !own_property_cons, IH. reflexivity.
Qed.

Lemma set_property_keys {V} (key : string) (v : V) (obj : list (string * V)) :
  (set_property key v obj).*1
  = if bool_decide (key ∈ obj.*1) then obj.*1 else obj.*1 ++ [key].
Proof.
  induction obj as [|[k x] obj IH]; cbn [set_property fmap list_fmap fst app].
  - rewrite bool_decide_eq_false_2; [reflexivity | apply not_elem_of_nil].
  - destruct (String.eqb_spec k key) as [->|Hk]; cbn [fmap list_fmap fst].
    + rewrite bool_decide_eq_true_2; [reflexivity | by left].
    + change (list_fmap _ _ fst ?l) with (l.*1). rewrite IH.
      destruct (decide (key ∈ obj.*1)) as [Hin|Hin].
      * rewrite !bool_decide_eq_true_2; [reflexivity | by right | done].
      * rewrite !bool_decide_eq_false_2; [reflexivity | | done].
        rewrite elem_of_cons. intros [->|?]; done.
Qed.

(** ** The static tables *)

Lemma own_keys_oracles :
  Forall (fun k => bool_decide (k ∈ Object_prototype) = false) oracleAddresses.*1.
Proof. repeat constructor. Qed.

Lemma own_keys_wiotx :
  Forall (fun k => bool_decide (k ∈ Object_prototype) = false) wiotxAddresses.*1.
Proof. repeat constructor. Qed.

(** X2. [hasOracles] holds of mainnet, rinkeby and kovan, [hasWIOTX] of
    mainnet and testnet, and both hold of every name an object inherits
    (constructor, toString, ...), since [in] looks at inherited members
    too. Reading an oracle address throws exactly where [hasOracles]
    fails, so the guard makes the reads safe; for an inherited name the
    oracle addresses read are [undefined] and the wrapped-token address is
    the inherited member. An address that is read as a string is the one
    the table lists for the network. *)
Theorem table_guards :
  (forall network,
      hasOracles network = true <->
      network ∈ ["mainnet"; "rinkeby"; "kovan"] ++ Object_prototype) /\
  (forall network,
      hasWIOTX network = true <->
      network ∈ ["mainnet"; "testnet"] ++ Object_prototype) /\
  (forall field network, is_ok (oracle_member field network) = hasOracles network) /\
  (forall network, hasWIOTX network = false <-> wiotx_member network = undefined) /\
  (forall field network,
      network ∈ Object_prototype ->
      oracle_member field network = Ok undefined /\
      wiotx_member network = inherited network) /\
  (forall field network address,
      oracle_member field network = Ok (str address) ->
      exists entry, (network, entry) ∈ oracleAddresses /\ address = field entry) /\
  (forall network address,
      wiotx_member network = str address -> (network, address) ∈ wiotxAddresses).
Proof.
  split; [intros network; apply js_in_spec|].
  split; [intros network; apply js_in_spec|].
  split.
  { intros field network. unfold oracle_member, hasOracles, js_in.
    destruct (own_property network oracleAddresses); [reflexivity|].
    by destruct (bool_decide _). }
  split.
  { intros network. unfold wiotx_member, hasWIOTX, js_in.
    destruct (own_property network wiotxAddresses); [done|].
    by destruct (bool_decide _). }
  split.
  { intros field network Hin. unfold oracle_member, wiotx_member.
    assert (Hown1 : own_property network oracleAddresses = None).
    { destruct (own_property network oracleAddresses) eqn:Hown; [|reflexivity].
      assert (Hk : network ∈ oracleAddresses.*1) by (apply own_property_keys; eauto).
      apply (proj1 (Forall_forall _ _) own_keys_oracles) in Hk.
      by apply bool_decide_eq_false in Hk. }
    assert (Hown2 : own_property network wiotxAddresses = None).
    { destruct (own_property network wiotxAddresses) eqn:Hown; [|reflexivity].
      assert (Hk : network ∈ wiotxAddresses.*1) by (apply own_property_keys; eauto).
      apply (proj1 (Forall_forall _ _) own_keys_wiotx) in Hk.
      by apply bool_decide_eq_false in Hk. }
    rewrite Hown1, Hown2. by rewrite bool_decide_eq_true_2. }
  split.
  { intros field network address. unfold oracle_member, oracleAddresses.
    rewrite !own_property_cons, own_property_nil.
    repeat (match goal with |- context [String.eqb ?k network] =>
              destruct (String.eqb_spec k network) as [<-|_] end;
            [ intros [= <-]; eexists; split; [|reflexivity];
              rewrite !elem_of_cons; tauto | ]).
    destruct (bool_decide _); discriminate. }
  { intros network address. unfold wiotx_member, wiotxAddresses.
    rewrite !own_property_cons, own_property_nil.
    repeat (match goal with |- context [String.eqb ?k network] =>
              destruct (String.eqb_spec k network) as [<-|_] end;
            [ intros [= <-]; rewrite !elem_of_cons; tauto | ]).
    destruct (bool_decide _); discriminate. }
Qed.

(** Among the names that are not inherited ones, mainnet is the only
    network both tables list. *)
Lemma both_tables (network : string) :
  network ∉ Object_prototype ->
  hasOracles network && hasWIOTX network = true <-> network = "mainnet".
Proof.
  intros Hown. rewrite andb_true_iff. unfold hasOracles, hasWIOTX.
  rewrite !js_in_spec, !elem_of_app. cbn [fmap list_fmap fst oracleAddresses wiotxAddresses].
  rewrite !elem_of_cons, !elem_of_nil. split.
  - intros [[H1|?] [H2|?]]; try done.
    destruct H1 as [->|[->|[->|[]]]]; destruct H2 as [H2|[H2|[]]]; done.
  - intros ->. tauto.
Qed.

(** ** The networks of the configuration *)

Lemma deployerAccount_cases (key : option string) (random_key : nat -> string) :
  deployerAccount key random_key 0
  = match key with
    | Some k => if String.eqb k EmptyString then (random_key 0, 1%nat) else (k, 0%nat)
    | None => (random_key 0, 1%nat)
    end.
Proof. by destruct key as [[|]|]. Qed.

(** X4. The configuration lists the networks dev, testnet and mainnet, in
    this order, and every one of them has the deployer's key as its first
    account; testnet and mainnet have the same URL and no other account.
    When DEPLOYER_PRIVATE_KEY is not set or empty, the deployer's key is
    the first key the generator draws, drawn once for all three networks,
    and the generated accounts of dev are the 98 keys drawn after it; when
    it is set, the deployer's key is that value and the generated accounts
    are the first 98 keys drawn. *)
Theorem deployer_key_is_shared (key : option string) (random_key : nat -> string) :
  let networks := config_networks key random_key in
  let deployer := (deployerAccount key random_key 0).1 in
  let generated := drop 2 (dev_accounts key random_key) in
  networks.*1 = ["dev"; "testnet"; "mainnet"] /\
  (forall name config,
      own_property name networks = Some config ->
      accounts config !! 0%nat = Some (Some deployer)) /\
  (forall name,
      name = "testnet" \/ name = "mainnet" ->
      own_property name networks
      = Some (mkNetwork " https://iotex.protofire.io:443/" [Some deployer])) /\
  (key = None \/ key = Some EmptyString ->
   deployer = random_key 0 /\
   generated = (fun i => Some (random_key i)) <$> seq 1 (numAccounts - 2)) /\
  (forall k,
      key = Some k -> k <> EmptyString ->
      deployer = k /\
      generated = (fun i => Some (random_key i)) <$> seq 0 (numAccounts - 2)).
Proof.
  intros networks deployer generated. subst networks deployer generated.
  unfold dev_accounts. rewrite config_networks_spec, deployerAccount_cases.
  cbn zeta. split; [reflexivity|]. split.
  { intros name config. unfold own_property. cbn [List.find fst].
    repeat (destruct (String.eqb _ name); [by intros [= <-]|]). discriminate. }
  split; [by intros name [-> | ->]|].
  split.
  - intros [-> | ->]; by split.
  - intros k -> Hk. destruct (String.eqb_spec k EmptyString); [done|]. by split.
Qed.

Lemma NoDup_seq_sub (f : nat -> string) (a n b m : nat) :
  (b <= a)%nat -> (a + n <= b + m)%nat ->
  NoDup (f <$> seq b m) -> NoDup (f <$> seq a n).
Proof.
  intros H1 H2 Hnd.
  replace m with ((a - b) + (n + (b + m - (a + n))))%nat in Hnd by lia.
  rewrite seq_app, fmap_app in Hnd. apply NoDup_app in Hnd as (_ & _ & Hnd).
  rewrite seq_app, fmap_app in Hnd. apply NoDup_app in Hnd as (Hnd & _ & _).
  by replace (b + (a - b))%nat with a in Hnd by lia.
Qed.

(** X5. When the first 99 keys the generator draws are pairwise
    different, every slot of dev's account list holds a key, the
    generated accounts of dev are pairwise different, and a deployer key
    that was drawn (DEPLOYER_PRIVATE_KEY not set or empty) is none of
    them. *)
Theorem generated_keys_are_distinct (key : option string) (random_key : nat -> string) :
  NoDup (random_key <$> seq 0 (numAccounts - 1)) ->
  let accts := dev_accounts key random_key in
  Forall is_Some accts /\
  NoDup (drop 2 accts) /\
  (key = None \/ key = Some EmptyString ->
   accts !! 0%nat = Some (Some (random_key 0)) /\
   Some (random_key 0) ∉ drop 2 accts).
Proof.
  intros Hnd accts. subst accts.
  unfold dev_accounts. rewrite config_networks_spec, deployerAccount_cases.
  cbn zeta. cbn [own_property List.find fst String.eqb Ascii.eqb Bool.eqb
                 fmap option_fmap option_map snd accounts].
  assert (Hsome : forall a n, Forall is_Some ((fun i => Some (random_key i)) <$> seq a n)).
  { intros a n. apply Forall_fmap, Forall_true. intros i. by eexists. }
  assert (Hinj : forall a n, (a + n <= numAccounts - 1)%nat ->
             NoDup ((fun i => Some (random_key i)) <$> seq a n)).
  { intros a n Hle.
    rewrite (list_fmap_compose random_key Some). apply (NoDup_fmap_2 _).
    apply (NoDup_seq_sub _ a n 0 (numAccounts - 1)); [lia | lia | exact Hnd]. }
  split; [|split].
  - do 2 (constructor; [by eexists|]). apply Hsome.
  - cbn [drop]. apply Hinj.
    destruct key as [k|]; [destruct (String.eqb k EmptyString)|]; cbn; lia.
  - intros Hkey.
    assert (Hd : match key with
                 | Some k => if String.eqb k EmptyString
                             then (random_key 0, 1%nat) else (k, 0%nat)
                 | None => (random_key 0, 1%nat)
                 end = (random_key 0, 1%nat)) by (by destruct Hkey as [-> | ->]).
    rewrite Hd. cbn [fst snd lookup list_lookup drop]. split; [reflexivity|].
    intros Hin.
    pose proof (Hinj 0%nat (numAccounts - 1)%nat ltac:(lia)) as Hall.
    change (numAccounts - 1)%nat with (S (numAccounts - 2)) in Hall.
    cbn [seq fmap list_fmap] in Hall. apply NoDup_cons in Hall as [Hnotin _].
    exact (Hnotin Hin).
Qed.

(** ** Channels that leave the deployments directory *)

Lemma join_skips_empty (a : string) (rest : list string) :
  Path.join (a :: EmptyString :: rest) = Path.join (a :: rest).
Proof. reflexivity. Qed.

Lemma join_parent2 (a : string) :
  plain a -> Path.join ["deployments"; "../" +:+ a] = a.
Proof.
  intros Ha.
  destruct (plain_not_special _ Ha) as [Ha1 Ha2].
  destruct (plain_last _ Ha) as [Hne Hlast].
  change ("../" +:+ a) with (String "." (String "." (String "/" a))).
  unfold Path.join. cbn [List.filter String.eqb negb Str.join].
  change ("deployments" +:+ "/" +:+ String "." (String "." (String "/" a)))
    with ("deployments" +:+ String "/" (".." +:+ String "/" a)).
  apply (normalize_relative _ [a]).
  - done.
  - reflexivity.
  - change ("deployments" +:+ String "/" (".." +:+ String "/" a))
      with ("deployments/.." +:+ "/" +:+ a).
    rewrite last_char_sep by exact Hne. exact Hlast.
  - rewrite split_app by reflexivity. rewrite split_app by reflexivity.
    rewrite split_plain by apply Ha.
    cbn [Path.normalize_segments rev app String.eqb Ascii.eqb Bool.eqb orb].
    rewrite Ha1, Ha2. reflexivity.
  - cbn [Str.join]. exact Hne.
Qed.

Lemma join_parent3 (a f : string) :
  plain a -> plain f ->
  Path.join ["deployments"; "../" +:+ a; f] = a +:+ "/" +:+ f.
Proof.
  intros Ha Hf.
  destruct (plain_not_special _ Ha) as [Ha1 Ha2].
  destruct (plain_not_special _ Hf) as [Hf1 Hf2].
  destruct (plain_last _ Hf) as [Hne Hlast].
  change ("../" +:+ a) with (String "." (String "." (String "/" a))).
  unfold Path.join. cbn [List.filter String.eqb negb].
  rewrite (plain_nonempty _ Hf). cbn [negb Str.join].
  change ("deployments" +:+ "/" +:+ String "." (String "." (String "/" a)) +:+ "/" +:+ f)
    with ("deployments" +:+ String "/" (".." +:+ String "/" (a +:+ String "/" f))).
  apply (normalize_relative _ [a; f]).
  - done.
  - reflexivity.
  - change ("deployments" +:+ String "/" (".." +:+ String "/" (a +:+ String "/" f)))
      with ("deployments/.." +:+ "/" +:+ (a +:+ "/" +:+ f)).
    rewrite last_char_sep by apply append_sep_not_empty.
    rewrite last_char_sep by exact Hne. exact Hlast.
  - rewrite split_app by reflexivity. rewrite split_app by reflexivity.
    rewrite split_app by apply Ha. rewrite split_plain by apply Hf.
    cbn [Path.normalize_segments rev app String.eqb Ascii.eqb Bool.eqb orb].
    rewrite Ha1, Ha2, Hf1, Hf2. reflexivity.
  - cbn [Str.join]. apply append_sep_not_empty.
Qed.

Lemma join_parent_only (f : string) :
  plain f -> Path.join ["deployments"; ".."; f] = f.
Proof.
  intros Hf.
  destruct (plain_not_special _ Hf) as [Hf1 Hf2].
  destruct (plain_last _ Hf) as [Hne Hlast].
  unfold Path.join. cbn [List.filter String.eqb negb].
  rewrite (plain_nonempty _ Hf). cbn [negb Str.join].
  change ("deployments" +:+ "/" +:+ ".." +:+ "/" +:+ f)
    with ("deployments" +:+ String "/" (".." +:+ String "/" f)).
  apply (normalize_relative _ [f]).
  - done.
  - reflexivity.
  - change ("deployments" +:+ String "/" (".." +:+ String "/" f))
      with ("deployments/.." +:+ "/" +:+ f).
    rewrite last_char_sep by exact Hne. exact Hlast.
  - rewrite split_app by reflexivity. rewrite split_app by reflexivity.
    rewrite split_plain by apply Hf.
    cbn [Path.normalize_segments rev app String.eqb Ascii.eqb Bool.eqb orb].
    rewrite Hf1, Hf2. reflexivity.
  - cbn [Str.join]. exact Hne.
Qed.

(** ** Every run of the task *)

Lemma mkdir_result (path : string) (fs0 : FS) (r : Result unit) (fs1 : FS) :
  Fs.mkdirSync_recursive path fs0 = (r, fs1) ->
  files fs1 = files fs0 /\
  (is_ok r = false -> fs1 = fs0) /\
  (is_ok r = true ->
   dirs fs1 = list_to_set (Path.prefixes EmptyString (Path.segments path)) ∪ dirs fs0).
Proof.
  unfold Fs.mkdirSync_recursive.
  destruct (List.find _ _); intros [= <- <-]; cbn; repeat split; auto; discriminate.
Qed.

Lemma split_tail {A} (l tail : list A) (n : nat) :
  drop (length l - n) l = tail -> l = take (length l - n) l ++ tail.
Proof. intros <-. by rewrite take_drop. Qed.

(** The events of a written-out log an event may be. *)
Ltac in_log H :=
  cbn [In] in H;
  repeat match type of H with
         | _ \/ _ => destruct H as [H|H]; [try discriminate H|]
         end;
  try contradiction.

Section RunFacts.

Context {E : Env}.

(** X3. On every network other than mainnet whose name is not an
    inherited member, one of the two tables lacks the network, and a run
    that asks for both the real price feed and the Uniswap pair raises
    before any deployment call and leaves the file system as it was. *)
Theorem both_options_need_mainnet (channel : string) (gas : option number)
  (c : Chain) (fs0 : FS) :
  network ∉ Object_prototype ->
  network <> "mainnet" ->
  let out := run (DeployParams.mk channel gas (Some true) (Some true)) c fs0 in
  hasOracles network && hasWIOTX network = false /\
  is_ok out.1 = false /\
  existsb is_deployment_call (log out.2) = false /\
  fs out.2 = fs0.
Proof.
  intros Hown Hne out. subst out.
  assert (Hboth : hasOracles network && hasWIOTX network = false).
  { apply not_true_is_false. by rewrite (both_tables _ Hown). }
  split; [exact Hboth|].
  destruct (run _ c fs0) as [r w] eqn:Hrun. cbn [fst snd].
  revert r w Hrun. unfold run, deploy.
  cbn [DeployParams.useRealPriceFeed DeployParams.createUniswapPair]. exec.
  all: try (rewrite ?Horacles, ?Hwiotx in Hboth; discriminate Hboth).
  all: repeat split; reflexivity.
Qed.

(** X6. [deployLiquity] makes one call of [deployAndSetupContracts], with
    the test price feed unless the real one was asked for (so also when
    the parameter is left out) and with the dev flag set exactly on the
    network dev. What the call throws it throws; the record the call
    returns comes back with its [version] set to the contracts' version,
    whether or not it had one, every other member as it was, and the
    members in their order, a new [version] last. *)
Theorem deployLiquity_stamps_version (deployer : option Signer)
  (useRealPriceFeed : option bool) (wiotxAddress : value)
  (overrides : option Overrides) (w : World) :
  let out := deployLiquity deployer useRealPriceFeed wiotxAddress overrides w in
  let useTestPriceFeed :=
    match useRealPriceFeed with Some true => false | _ => true end in
  let inner :=
    deployAndSetupContracts deployer (getContractFactory useLiveVersion)
      useTestPriceFeed (String.eqb network "dev") wiotxAddress overrides (chain w) in
  chain out.2 = inner.2 /\
  fs out.2 = fs w /\
  log out.2
  = log w ++ [EvDeployAndSetupContracts deployer (getContractFactory useLiveVersion)
                useTestPriceFeed (String.eqb network "dev") wiotxAddress overrides
                inner.1] /\
  (forall e, inner.1 = Throw e -> out.1 = Throw e) /\
  (forall deployment,
      inner.1 = Ok deployment ->
      exists record,
        out.1 = Ok record /\
        own_property "version" record = Some (JString contractsVersion) /\
        (forall key, key <> "version" ->
                     own_property key record = own_property key deployment) /\
        record.*1 = if bool_decide ("version" ∈ deployment.*1)
                    then deployment.*1 else deployment.*1 ++ ["version"]).
Proof.
  intros out useTestPriceFeed inner. subst out inner.
  assert (Htest : negb (default false useRealPriceFeed) = useTestPriceFeed).
  { subst useTestPriceFeed. by destruct useRealPriceFeed as [[|]|]. }
  unfold deployLiquity, mbind, M_bind, mret, M_ret, call. rewrite Htest.
  destruct (deployAndSetupContracts _ _ _ _ _ _ _) as [[deployment|e] c'].
  - cbn [fst snd chain fs log]. repeat split; try discriminate.
    intros ? [= <-]. eexists. split; [reflexivity|].
    split; [apply own_property_set|].
    split; [intros key Hkey; by apply own_property_set_other|].
    apply set_property_keys.
  - cbn [fst snd chain fs log]. repeat split; try discriminate.
    by intros ? [= <-].
Qed.

(** X7. The gas price is converted before anything is called: when the
    conversion throws, the run throws the same, with no call made and
    nothing changed; otherwise the first call of the run is the listing
    of the signers, on the chain as the run found it, and the signers are
    listed only once. *)
Theorem gas_conversion_comes_first (params : DeployParams.t) (c : Chain) (fs0 : FS) :
  let out := run params c fs0 in
  match task_overrides (DeployParams.gasPrice params) with
  | Throw e => out = (Throw e, mkWorld c fs0 [])
  | Ok _ =>
      exists rest,
        log out.2 = EvGetSigners (getSigners c).1 :: rest /\
        count is_getSigners rest = 0%nat
  end.
Proof.
  intros out. subst out.
  destruct (run params c fs0) as [r w] eqn:Hrun.
  revert r w Hrun. exec.
  all: try reflexivity.
  all: eexists; split; [reflexivity | reflexivity].
Qed.

(** X8. No error is caught and nothing is tried twice: a call that throws
    is the last call of its run, and the run throws what the call threw;
    so in a run that returns, every call returned. The signers are
    listed, the contracts deployed, the transaction waited for, the
    directory made and the file written at most once each. *)
Theorem failure_is_final (params : DeployParams.t) (c : Chain) (fs0 : FS) :
  let out := run params c fs0 in
  (forall pre ev post,
      log out.2 = pre ++ ev :: post ->
      returned ev = false ->
      post = [] /\ exists e, thrown ev = Some e /\ out.1 = Throw e) /\
  (is_ok out.1 = true -> forallb returned (log out.2) = true) /\
  (count is_getSigners (log out.2) <= 1)%nat /\
  (count is_main_deployment (log out.2) <= 1)%nat /\
  (count is_wait (log out.2) <= 1)%nat /\
  (count is_mkdir (log out.2) <= 1)%nat /\
  (count is_writeFile (log out.2) <= 1)%nat.
Proof.
  intros out. subst out.
  destruct (run params c fs0) as [r w] eqn:Hrun. cbn [fst snd].
  revert r w Hrun. exec.
  all: split; [ intros pre ev post Hlog Hret; log_split Hlog;
                first [ discriminate Hret | split; [reflexivity | eexists; split; reflexivity] ]
              | repeat split; first [ discriminate | reflexivity | cbn; lia ] ].
Qed.

Lemma main_deployment_arguments (params : DeployParams.t) (c : Chain) (fs0 : FS)
  deployer factory useTest isDev wiotxAddress overrides r :
  In (EvDeployAndSetupContracts deployer factory useTest isDev wiotxAddress
        overrides r) (log (run params c fs0).2) ->
  useTest = negb (resolve_useRealPriceFeed (DeployParams.useRealPriceFeed params)) /\
  isDev = String.eqb network "dev" /\
  wiotxAddress = match DeployParams.createUniswapPair params with
                 | Some true => wiotx_member network
                 | _ => undefined
                 end /\
  (DeployParams.createUniswapPair params = Some true -> hasWIOTX network = true) /\
  exists given signers c1 c2,
    task_overrides (DeployParams.gasPrice params) = Ok given /\
    overrides = Some given /\
    getSigners c = (Ok signers, c1) /\
    deployAndSetupContracts deployer factory useTest isDev wiotxAddress
      overrides c1 = (r, c2).
Proof.
  destruct (run params c fs0) as [r0 w] eqn:Hrun. cbn [fst snd].
  revert r0 w Hrun. exec.
  all: rewrite ?Hreal; cbn [negb].
  all: intros Hin; in_log Hin.
  all: injection Hin as <- <- <- <- <- <- <-.
  all: split; [reflexivity|]; split; [reflexivity|]; split; [reflexivity|].
  all: split; [intros; first [reflexivity | assumption | discriminate] | ].
  all: do 4 eexists; repeat split; first [reflexivity | eassumption].
Qed.

Lemma deployer_is_first_signer (params : DeployParams.t) (c : Chain) (fs0 : FS)
  (ev : Event) (deployer : option Signer) :
  In ev (log (run params c fs0).2) ->
  event_deployer ev = Some deployer ->
  exists signers c1, getSigners c = (Ok signers, c1) /\ deployer = head signers.
Proof.
  destruct (run params c fs0) as [r0 w] eqn:Hrun. cbn [fst snd].
  revert r0 w Hrun. exec.
  all: intros Hin Hev; in_log Hin; subst ev; try discriminate Hev.
  all: injection Hev as <-.
  all: do 2 eexists; split; reflexivity.
Qed.

Lemma factory_is_fixed (params : DeployParams.t) (c : Chain) (fs0 : FS)
  (ev : Event) (factory : FactorySource) :
  In ev (log (run params c fs0).2) ->
  event_factory ev = Some factory ->
  factory = getContractFactory useLiveVersion.
Proof.
  destruct (run params c fs0) as [r0 w] eqn:Hrun. cbn [fst snd].
  revert r0 w Hrun. exec.
  all: intros Hin Hev; in_log Hin; subst ev; try discriminate Hev.
  all: by injection Hev as <-.
Qed.

(** X9. What the deployment is given. The main deployment is asked for
    the test price feed exactly when the resolved [useRealPriceFeed] is
    false, is told that the network is a dev network exactly on the
    network dev, gets the wrapped-token address of the network's table
    entry when the Uniswap pair was asked for and [undefined] otherwise,
    and gets the overrides made from the gas price; it runs on the chain as
    the listing of the signers left it. Every call that takes a deployer
    is given the first signer listed ([undefined] when none is listed),
    and every call that takes a contract factory is given the one of the
    module, which reads the live artifacts exactly when the live version is
    on. *)
Theorem deployment_call_arguments (params : DeployParams.t) (c : Chain) (fs0 : FS) :
  let out := run params c fs0 in
  (forall deployer factory useTest isDev wiotxAddress overrides r,
      In (EvDeployAndSetupContracts deployer factory useTest isDev wiotxAddress
            overrides r) (log out.2) ->
      useTest = negb (resolve_useRealPriceFeed (DeployParams.useRealPriceFeed params)) /\
      isDev = String.eqb network "dev" /\
      wiotxAddress = match DeployParams.createUniswapPair params with
                     | Some true => wiotx_member network
                     | _ => undefined
                     end /\
      (DeployParams.createUniswapPair params = Some true ->
       hasWIOTX network = true) /\
      exists given signers c1 c2,
        task_overrides (DeployParams.gasPrice params) = Ok given /\
        overrides = Some given /\
        getSigners c = (Ok signers, c1) /\
        deployAndSetupContracts deployer factory useTest isDev wiotxAddress
          overrides c1 = (r, c2)) /\
  (forall ev deployer,
      In ev (log out.2) ->
      event_deployer ev = Some deployer ->
      exists signers c1, getSigners c = (Ok signers, c1) /\ deployer = head signers) /\
  (forall ev factory,
      In ev (log out.2) ->
      event_factory ev = Some factory ->
      factory = getContractFactory useLiveVersion /\
      (factory = live_artifacts <-> useLiveVersion = true)).
Proof.
  intros out. subst out. split; [|split].
  - intros *. apply main_deployment_arguments.
  - intros *. apply deployer_is_first_signer.
  - intros ev factory Hin Hev.
    rewrite (factory_is_fixed _ _ _ _ _ Hin Hev). split; [reflexivity|].
    unfold getContractFactory. by destruct useLiveVersion.
Qed.

Lemma adapter_arguments (params : DeployParams.t) (c : Chain) (fs0 : FS)
  deployer factory tellorAddress overrides r :
  In (EvDeployTellorCaller deployer factory tellorAddress overrides r)
     (log (run params c fs0).2) ->
  oracle_member tellor network = Ok tellorAddress /\
  task_overrides (DeployParams.gasPrice params) = Ok overrides.
Proof.
  destruct (run params c fs0) as [r0 w] eqn:Hrun. cbn [fst snd].
  revert r0 w Hrun. exec.
  all: intros Hin; in_log Hin.
  all: injection Hin as <- <- <- <- <-.
  all: split; reflexivity.
Qed.

Lemma setAddresses_arguments (params : DeployParams.t) (c : Chain) (fs0 : FS)
  feed chainlinkAddress adapter overrides r :
  In (EvSetAddresses feed chainlinkAddress adapter overrides r)
     (log (run params c fs0).2) ->
  oracle_member chainlink network = Ok chainlinkAddress /\
  task_overrides (DeployParams.gasPrice params) = Ok overrides /\
  _priceFeedIsTestnet feed = false /\
  exists deployer factory useTest isDev wiotxAddress given deployment contracts,
    In (EvDeployAndSetupContracts deployer factory useTest isDev wiotxAddress
          given (Ok deployment)) (log (run params c fs0).2) /\
    _connectToContracts deployer
      (set_property "version" (JString contractsVersion) deployment)
    = Ok contracts /\
    feed = priceFeed contracts.
Proof.
  set (testnet := _priceFeedIsTestnet feed).
  destruct (run params c fs0) as [r0 w] eqn:Hrun. cbn [fst snd].
  revert r0 w Hrun. exec.
  all: subst testnet.
  all: intros Hin; in_log Hin.
  all: injection Hin as <- <- <- <- <-.
  all: split; [reflexivity|]; split; [reflexivity|]; split; [assumption|].
  all: do 8 eexists; split; [cbn [In]; eauto 10 | split; [eassumption | reflexivity]].
Qed.

Lemma wait_follows_setAddresses (params : DeployParams.t) (c : Chain) (fs0 : FS) :
  let l := log (run params c fs0).2 in
  (forall tx r,
      In (EvWait tx r) l ->
      exists feed chainlinkAddress adapter overrides,
        In (EvSetAddresses feed chainlinkAddress adapter overrides (Ok tx)) l) /\
  (forall feed chainlinkAddress adapter overrides tx,
      In (EvSetAddresses feed chainlinkAddress adapter overrides (Ok tx)) l ->
      exists r, In (EvWait tx r) l).
Proof.
  intros l. subst l.
  destruct (run params c fs0) as [r0 w] eqn:Hrun. cbn [fst snd].
  revert r0 w Hrun. exec.
  all: split; intros * Hin; in_log Hin.
  all: simplify_eq; cbn [In]; eauto 20.
Qed.

(** X10. What the oracle wiring is given. The adapter is deployed with
    the Tellor address read from the network's table entry, and
    [setAddresses] is given the Chainlink address read from it, both with
    the overrides made from the gas price. [setAddresses] is called on the
    price feed of the contracts connected from the record the deployment
    returned, stamped with the version, and only when that price feed is
    not the test one. The run waits for exactly the transaction
    [setAddresses] returned, whenever it returned one. *)
Theorem wiring_call_arguments (params : DeployParams.t) (c : Chain) (fs0 : FS) :
  let out := run params c fs0 in
  (forall deployer factory tellorAddress overrides r,
      In (EvDeployTellorCaller deployer factory tellorAddress overrides r) (log out.2) ->
      oracle_member tellor network = Ok tellorAddress /\
      task_overrides (DeployParams.gasPrice params) = Ok overrides) /\
  (forall feed chainlinkAddress adapter overrides r,
      In (EvSetAddresses feed chainlinkAddress adapter overrides r) (log out.2) ->
      oracle_member chainlink network = Ok chainlinkAddress /\
      task_overrides (DeployParams.gasPrice params) = Ok overrides /\
      _priceFeedIsTestnet feed = false /\
      exists deployer factory useTest isDev wiotxAddress given deployment contracts,
        In (EvDeployAndSetupContracts deployer factory useTest isDev wiotxAddress
              given (Ok deployment)) (log out.2) /\
        _connectToContracts deployer
          (set_property "version" (JString contractsVersion) deployment)
        = Ok contracts /\
        feed = priceFeed contracts) /\
  (forall tx r,
      In (EvWait tx r) (log out.2) ->
      exists feed chainlinkAddress adapter overrides,
        In (EvSetAddresses feed chainlinkAddress adapter overrides (Ok tx))
           (log out.2)) /\
  (forall feed chainlinkAddress adapter overrides tx,
      In (EvSetAddresses feed chainlinkAddress adapter overrides (Ok tx)) (log out.2) ->
      exists r, In (EvWait tx r) (log out.2)).
Proof.
  intros out. subst out. split; [|split].
  - intros *. apply adapter_arguments.
  - intros *. apply setAddresses_arguments.
  - apply wait_follows_setAddresses.
Qed.

(** X11. When the real price feed was deployed (the deployment was not
    asked for the test one) and the price feed of the connected contracts
    still reports to be the test one, the run fails on the assertion of
    line 213: no oracle is wired, the file system is not called and stays
    as it was. *)
Theorem test_price_feed_is_refused (params : DeployParams.t) (c : Chain) (fs0 : FS)
  deployer factory isDev wiotxAddress overrides deployment contracts :
  let out := run params c fs0 in
  In (EvDeployAndSetupContracts deployer factory false isDev wiotxAddress overrides
        (Ok deployment)) (log out.2) ->
  _connectToContracts deployer
    (set_property "version" (JString contractsVersion) deployment) = Ok contracts ->
  _priceFeedIsTestnet (priceFeed contracts) = true ->
  (exists message, out.1 = Throw (AssertionError message)) /\
  wiring_executed (log out.2) = false /\
  existsb is_fs_call (log out.2) = false /\
  fs out.2 = fs0.
Proof.
  intros out. subst out.
  set (testnet := _priceFeedIsTestnet (priceFeed contracts)).
  set (connected := _connectToContracts deployer _).
  destruct (run params c fs0) as [r w] eqn:Hrun. cbn [fst snd].
  revert r w Hrun. exec.
  all: subst testnet connected.
  all: intros Hin Hconnect' Htest; in_log Hin.
  all: injection Hin as <- <- <- <- <- <-.
  all: try congruence.
  all: repeat split; eauto.
Qed.

(** X12. The calls of [console.log] the task's own code makes (lines 223
    and 242 to 244), and their order; what the collaborators print
    themselves, and what the module prints when it is loaded, is not part
    of the call log. A run that returns ends with the making of the
    manifest's directory, the writing of the manifest, and three calls of
    [console.log] by the task: an empty line, the record, an empty line;
    the record printed is the one whose JSON text was written, the
    deployed record stamped with the version, and the file system was not
    called before. In a run that raises the task prints no record. The
    only text the task itself passes to [console.log] is the notice of the
    oracle wiring, and only in a run that wires. [setSilent] is only ever
    given [false], after the signers were listed and before any deployment
    call. *)
Theorem success_output (params : DeployParams.t) (c : Chain) (fs0 : FS) :
  let out := run params c fs0 in
  let dir := Path.join ["deployments"; DeployParams.channel params] in
  let file :=
    Path.join ["deployments"; DeployParams.channel params; network +:+ ".json"] in
  (is_ok out.1 = true ->
   exists front deployer factory useTest isDev wiotxAddress overrides deployment,
     let record := set_property "version" (JString contractsVersion) deployment in
     log out.2
     = front ++ [ EvMkdir dir (Ok tt);
                  EvWriteFile file (JSON.stringify record) (Ok tt);
                  EvConsoleLog [];
                  EvConsoleLog [log_object record];
                  EvConsoleLog [] ] /\
     In (EvDeployAndSetupContracts deployer factory useTest isDev wiotxAddress
           overrides (Ok deployment)) front /\
     existsb is_fs_call front = false /\
     existsb prints_record front = false) /\
  (is_ok out.1 = false -> existsb prints_record (log out.2) = false) /\
  (forall text,
      In (EvConsoleLog [log_text text]) (log out.2) ->
      text = "Hooking up PriceFeed with oracles ..." /\
      wiring_executed (log out.2) = true) /\
  (forall silent pre post,
      log out.2 = pre ++ EvSetSilent silent :: post ->
      silent = false /\
      existsb is_deployment_call pre = false /\
      count is_getSigners pre = 1%nat).
Proof.
  intros out dir file. subst out dir file.
  destruct (run params c fs0) as [r w] eqn:Hrun. cbn [fst snd].
  revert r w Hrun. exec.
  all: split;
    [ intros Hok;
      first [ discriminate Hok
            | do 8 eexists; cbn zeta;
              split; [ apply (split_tail _ _ 5); reflexivity | ];
              cbn [take firstn length Nat.sub In existsb is_fs_call prints_record
                   orb];
              split; [ eauto 10 | split; reflexivity ] ]
    | split;
      [ intros Hok; first [ discriminate Hok | reflexivity ]
      | split;
        [ intros text Hin; in_log Hin; injection Hin as <-; split; reflexivity
        | intros silent pre post Hlog; log_split Hlog; repeat split ] ] ].
Qed.

(** What the manifest writer does to the file system, whatever the names
    of the channel and the network are. *)
Lemma writeManifest_effect (channel : string) (deployment : Deployment)
  (w : World) (r : Result unit) (w' : World) :
  writeManifest channel deployment w = (r, w') ->
  let dir := Path.join ["deployments"; channel] in
  let file := Path.join ["deployments"; channel; network +:+ ".json"] in
  chain w' = chain w /\
  (forall p, p <> Path.key file -> files (fs w') !! p = files (fs w) !! p) /\
  (dirs (fs w') = dirs (fs w) \/
   dirs (fs w')
   = list_to_set (Path.prefixes EmptyString (Path.segments dir)) ∪ dirs (fs w)) /\
  (is_ok r = true ->
   files (fs w') !! Path.key file = Some (JSON.stringify deployment) /\
   dirs (fs w')
   = list_to_set (Path.prefixes EmptyString (Path.segments dir)) ∪ dirs (fs w)) /\
  (is_ok r = false -> files (fs w') = files (fs w)) /\
  (exists rest, log w' = log w ++ rest /\ existsb is_fs_call rest = true).
Proof.
  unfold writeManifest, mbind, M_bind, fs_call.
  destruct (Fs.mkdirSync_recursive _ (fs w)) as [[[]|e1] fs1] eqn:Hmkdir;
    apply mkdir_result in Hmkdir; cbn [is_ok] in Hmkdir;
    destruct Hmkdir as (Hfiles & Hfail & Hdirs); cbn [fs chain log].
  - destruct (Fs.writeFileSync _ _ fs1) as [[[]|e2] fs2] eqn:Hwrite;
      apply write_outcome in Hwrite; cbn [is_ok] in Hwrite;
      destruct Hwrite as (Hd & Hf & Hw); intros [= <- <-];
      cbn [fs chain log is_ok]; rewrite <- app_assoc.
    + rewrite (Hw eq_refl), Hd, (Hdirs eq_refl), Hfiles.
      split; [reflexivity|]. split; [intros p Hp; by rewrite lookup_insert_ne|].
      split; [by right|].
      split; [intros _; split; [apply lookup_insert_eq | reflexivity]|].
      split; [discriminate | eauto].
    + rewrite (Hf eq_refl), (Hdirs eq_refl), Hfiles.
      split; [reflexivity|]. split; [reflexivity|].
      split; [by right|]. split; [discriminate|]. split; [reflexivity | eauto].
  - intros [= <- <-]. cbn [fs chain log is_ok]. rewrite (Hfail eq_refl).
    split; [reflexivity|]. split; [reflexivity|].
    split; [by left|]. split; [discriminate|]. split; [reflexivity | eauto].
Qed.

Ltac exec_unfold_calls :=
  unfold mbind, M_bind, mret, M_ret, lift, call, emit, throw, assert,
    deployLiquity, wireOracles, resolve_wiotxAddress, default;
  cbn beta iota zeta;
  cbn [fst snd chain fs log andb negb from_option id
       DeployParams.channel DeployParams.gasPrice DeployParams.useRealPriceFeed
       DeployParams.createUniswapPair].

(** The manifest writer taken as one step, by what it does. *)
Ltac exec_split_manifest :=
  match goal with
  | |- context [match writeManifest ?ch ?d ?w with _ => _ end] =>
      let H := fresh "Hmanifest" in
      destruct (writeManifest ch d w) as [[[]|?err] ?w'] eqn:H;
      apply writeManifest_effect in H; cbn [is_ok fs chain log] in H;
      destruct H as (? & ? & ? & ? & ? & (?rest & ? & ?)); fs_facts
  end.

(** X13. A run touches nothing of the file system but the manifest and
    its directory, whatever the channel and the network are called: every
    file other than the manifest is as it was, no directory is removed,
    and the directories are either as they were or grown by the
    manifest's directory and the ones above it. A run that returns has
    written the manifest and made its directory; a run that does not call
    the file system leaves it as it was. *)
Theorem only_the_manifest_is_touched (params : DeployParams.t) (c : Chain) (fs0 : FS) :
  let out := run params c fs0 in
  let dir := Path.join ["deployments"; DeployParams.channel params] in
  let file :=
    Path.join ["deployments"; DeployParams.channel params; network +:+ ".json"] in
  let made := list_to_set (Path.prefixes EmptyString (Path.segments dir)) in
  (forall p, p <> Path.key file -> files (fs out.2) !! p = files fs0 !! p) /\
  (dirs (fs out.2) = dirs fs0 \/ dirs (fs out.2) = made ∪ dirs fs0) /\
  (is_ok out.1 = true ->
   is_Some (files (fs out.2) !! Path.key file) /\ dirs (fs out.2) = made ∪ dirs fs0) /\
  (existsb is_fs_call (log out.2) = false -> fs out.2 = fs0).
Proof.
  intros out dir file made. subst out dir file made.
  destruct (run params c fs0) as [r w] eqn:Hrun. cbn [fst snd].
  revert r w Hrun. unfold run, deploy.
  repeat (exec_unfold_calls; try first [exec_split_manifest | exec_split]).
  all: cbn [app]; intros r w [= <- <-]; cbn [fst snd chain fs log is_ok].
  all: repeat match goal with H : _ /\ _ |- _ => destruct H end.
  all: split; [ first [assumption | intros; reflexivity] | ].
  all: split; [ first [assumption | by left] | ].
  all: split; [ intros Hok; first [discriminate Hok | split; [eauto | assumption]] | ].
  all: first [ intros; reflexivity | intros Hno; exfalso; revert Hno ].
  all: match goal with
       | Hlog : log ?w = _ ++ ?rest, Hrest : existsb is_fs_call ?rest = true |- _ =>
           rewrite Hlog, ?existsb_app, Hrest, orb_true_r
       end.
  all: discriminate.
Qed.

Lemma fs_call_paths (params : DeployParams.t) (c : Chain) (fs0 : FS) (ev : Event) :
  In ev (log (run params c fs0).2) ->
  is_fs_call ev = true ->
  (exists r, ev = EvMkdir (Path.join ["deployments"; DeployParams.channel params]) r) \/
  (exists data r,
      ev = EvWriteFile
             (Path.join ["deployments"; DeployParams.channel params;
                         network +:+ ".json"]) data r).
Proof.
  destruct (run params c fs0) as [r0 w] eqn:Hrun. cbn [fst snd].
  revert r0 w Hrun. exec.
  all: intros Hin Hfs; in_log Hin; subst ev; try discriminate Hfs.
  all: eauto.
Qed.

(** X14. Where the manifest goes. A channel given to the task is the
    channel of the run; without one the channel is the value of CHANNEL,
    or default when CHANNEL is not set or empty. On a network whose name
    holds no slash, with a channel that is one path segment, the only
    directory a run makes is deployments/<channel> and the only file it
    writes is deployments/<channel>/<network>.json; with the empty channel
    these are deployments and deployments/<network>.json. *)
Theorem manifest_location (CHANNEL : option string) (args : TaskArguments.t)
  (c : Chain) (fs0 : FS) :
  Str.includes "/" network = false ->
  let params := task_params CHANNEL args in
  let channel := DeployParams.channel params in
  let out := run params c fs0 in
  (TaskArguments.channel args = None ->
   channel = match CHANNEL with
             | Some v => if String.eqb v EmptyString then "default" else v
             | None => "default"
             end) /\
  (forall given, TaskArguments.channel args = Some given -> channel = given) /\
  (forall ev,
      Path.plain_name channel = true ->
      In ev (log out.2) -> is_fs_call ev = true ->
      (exists r, ev = EvMkdir ("deployments/" +:+ channel) r) \/
      (exists data r,
          ev = EvWriteFile ("deployments/" +:+ channel +:+ "/" +:+ network +:+ ".json")
                 data r)) /\
  (forall ev,
      channel = EmptyString ->
      In ev (log out.2) -> is_fs_call ev = true ->
      (exists r, ev = EvMkdir "deployments" r) \/
      (exists data r,
          ev = EvWriteFile ("deployments/" +:+ network +:+ ".json") data r)).
Proof.
  intros Hnet%json_name_plain params channel out. subst out channel.
  pose proof plain_deployments as Hdep.
  split; [|split; [|split]].
  - unfold params, task_params. cbn [DeployParams.channel].
    intros ->. by destruct CHANNEL as [[|]|].
  - unfold params, task_params. cbn [DeployParams.channel]. by intros given ->.
  - intros ev Hch%plain_name_spec Hin Hfs.
    destruct (fs_call_paths _ _ _ _ Hin Hfs) as [[r ->]|(data & r & ->)].
    + left. exists r. f_equal. exact (join_plain2 _ _ Hdep Hch eq_refl).
    + right. exists data, r. f_equal. exact (join_plain3 _ _ _ Hdep Hch Hnet eq_refl).
  - intros ev Hch Hin Hfs.
    destruct (fs_call_paths _ _ _ _ Hin Hfs) as [[r ->]|(data & r & ->)]; rewrite Hch.
    + left. by exists r.
    + right. exists data, r. f_equal. rewrite join_skips_empty.
      exact (join_plain2 _ _ Hdep Hnet eq_refl).
Qed.

(** X15. The channel is joined into the path as it is given, so it can
    lead out of the deployments directory: on a network whose name holds
    no slash, with the channel [..] the directory a run makes is the
    working directory and the file it writes is <network>.json in it, and
    with a channel [../<name>] they are <name> and <name>/<network>.json
    beside deployments. *)
Theorem channel_is_not_confined (params : DeployParams.t) (c : Chain) (fs0 : FS) :
  Str.includes "/" network = false ->
  let out := run params c fs0 in
  (forall ev,
      DeployParams.channel params = ".." ->
      In ev (log out.2) -> is_fs_call ev = true ->
      (exists r, ev = EvMkdir "." r) \/
      (exists data r, ev = EvWriteFile (network +:+ ".json") data r)) /\
  (forall name ev,
      Path.plain_name name = true ->
      DeployParams.channel params = "../" +:+ name ->
      In ev (log out.2) -> is_fs_call ev = true ->
      (exists r, ev = EvMkdir name r) \/
      (exists data r,
          ev = EvWriteFile (name +:+ "/" +:+ network +:+ ".json") data r)).
Proof.
  intros Hnet%json_name_plain out. subst out. split.
  - intros ev Hch Hin Hfs.
    destruct (fs_call_paths _ _ _ _ Hin Hfs) as [[r ->]|(data & r & ->)]; rewrite Hch.
    + left. by exists r.
    + right. exists data, r. f_equal. exact (join_parent_only _ Hnet).
  - intros name ev Hname%plain_name_spec Hch Hin Hfs.
    destruct (fs_call_paths _ _ _ _ Hin Hfs) as [[r ->]|(data & r & ->)]; rewrite Hch.
    + left. exists r. f_equal. exact (join_parent2 _ Hname).
    + right. exists data, r. f_equal. exact (join_parent3 _ _ Hname Hnet).
Qed.

End RunFacts.

(** ** These properties at concrete inputs *)

Lemma both_options_need_mainnet_witness :
  let E := Mock.env "kovan" [] in
  let out := @run E (DeployParams.mk "ci" None (Some true) (Some true)) 0%nat
               Mock.empty_fs in
  hasOracles "kovan" = true /\
  out.1 = Throw (Error "WETH not deployed on kovan") /\
  existsb is_deployment_call (log out.2) = false.
Proof.
  split; [reflexivity|]. split; [reflexivity|].
  refine (proj1 (proj2 (proj2 (@both_options_need_mainnet (Mock.env "kovan" []) "ci" None
                   0%nat Mock.empty_fs _ _)))).
  - exact (bool_decide_eq_false_1 ("kovan" ∈ Object_prototype) eq_refl).
  - discriminate.
Defined.

Lemma generated_keys_are_distinct_witness :
  let random_key := fun i => Str.repeat "k" i in
  NoDup (drop 2 (dev_accounts None random_key)) /\
  Some EmptyString ∉ drop 2 (dev_accounts None random_key).
Proof.
  intros random_key.
  destruct (generated_keys_are_distinct None random_key) as (_ & H2 & H3).
  - apply (bool_decide_unpack _). vm_compute. exact I.
  - split; [exact H2|]. exact (proj2 (H3 (or_introl eq_refl))).
Defined.

Lemma test_price_feed_is_refused_witness :
  let E := test_feed_env "mainnet" in
  let out := @run E (Mock.params None None None) 0%nat Mock.empty_fs in
  (exists message, out.1 = Throw (AssertionError message)) /\
  wiring_executed (log out.2) = false /\
  fs out.2 = Mock.empty_fs.
Proof.
  destruct (@test_price_feed_is_refused (test_feed_env "mainnet")
              (Mock.params None None None) 0%nat Mock.empty_fs
              (Some "0xDeployer") compiled_artifacts false undefined
              (Some (mkOverrides gas_undefined))
              (Mock.deployment false false undefined) true)
    as (H1 & H2 & _ & H4).
  - do 2 right. left. reflexivity.
  - reflexivity.
  - reflexivity.
  - split; [exact H1|]. split; [exact H2 | exact H4].
Defined.

Lemma manifest_location_witness :
  let E := Mock.env "mainnet" [] in
  let args := TaskArguments.mk None None None None in
  let out := @run E (task_params None args) 0%nat Mock.empty_fs in
  In (EvMkdir "deployments/default" (Ok tt)) (log out.2) /\
  forall ev,
    In ev (log out.2) -> is_fs_call ev = true ->
    (exists r, ev = EvMkdir "deployments/default" r) \/
    (exists data r, ev = EvWriteFile "deployments/default/mainnet.json" data r).
Proof.
  intros E args out. split.
  - vm_compute. do 7 right. left. reflexivity.
  - intros ev.
    exact (proj1 (proj2 (proj2 (@manifest_location E None args 0%nat Mock.empty_fs
                                  eq_refl))) ev eq_refl).
Defined.

Lemma channel_is_not_confined_witness :
  let E := Mock.env "mainnet" [] in
  let out := @run E (DeployParams.mk ".." None None None) 0%nat Mock.empty_fs in
  out.1 = Ok tt /\
  is_Some (files (fs out.2) !! "mainnet.json") /\
  forall ev,
    In ev (log out.2) -> is_fs_call ev = true ->
    (exists r, ev = EvMkdir "." r) \/
    (exists data r, ev = EvWriteFile "mainnet.json" data r).
Proof.
  intros E out. split; [reflexivity|]. split.
  - vm_compute. by eexists.
  - intros ev.
    exact (proj1 (@channel_is_not_confined E (DeployParams.mk ".." None None None)
                    0%nat Mock.empty_fs eq_refl) ev eq_refl).
Defined.
